(** * TDK-Lambda ZUP power-supply driver ([lambda_zup.py]): protocol engine

    A shallow embedding of the [LambdaZup] class: command framing and address
    prefixing ([_write], [_ask]), the setters and getters that the protocol
    properties talk about, the composite-status parser (regular expression
    included) and the per-instance re-entrant lock.

    Conventions.
    - Text on the wire and in replies is ASCII, held in [string].
    - A Python [int] is a [Z].  A Python [float] is a sign, a mantissa and a
      binary exponent ([Ffin]), or an infinity, or a NaN; the mantissa is not
      bounded, so every IEEE double is an [Ffin] and arithmetic on them below
      is exact.
    - The instance dictionary ([self.__dict__]) is a [gmap string pyval].
    - Methods run in a state-and-exception monad [M] over the driver state. *)

From Stdlib Require Import ZArith NArith Strings.String Strings.Ascii List Lia Bool.
From stdpp Require Import base option gmap strings list.

Local Open Scope string_scope.
Local Open Scope Z_scope.

(** ** Python strings *)

Module PyStr.

(** [s[0]]; [None] stands for the [IndexError] of an empty string. *)
Definition first (s : string) : option ascii :=
  match s with
  | EmptyString => None
  | String c _ => Some c
  end.

(** [s[-1]] *)
Fixpoint last (s : string) : option ascii :=
  match s with
  | EmptyString => None
  | String c EmptyString => Some c
  | String _ s' => last s'
  end.

(** [s[i]] for [i >= 0] *)
Fixpoint index (i : nat) (s : string) : option ascii :=
  match s, i with
  | EmptyString, _ => None
  | String c _, O => Some c
  | String _ s', S i' => index i' s'
  end.

(** [s[:n]] *)
Fixpoint take (n : nat) (s : string) : string :=
  match n, s with
  | S n', String c s' => String c (take n' s')
  | _, _ => EmptyString
  end.

(** [s[n:]] *)
Fixpoint drop (n : nat) (s : string) : string :=
  match n, s with
  | S n', String _ s' => drop n' s'
  | _, _ => s
  end.

(** [str.isspace] on one ASCII character: TAB, LF, VT, FF, CR, the four
    separators 0x1c-0x1f and the blank. *)
Definition is_space (c : ascii) : bool :=
  let n := nat_of_ascii c in
  ((9 <=? n) && (n <=? 13) || (28 <=? n) && (n <=? 31) || (n =? 32))%nat.

(** [s.rstrip()] *)
Fixpoint rstrip (s : string) : string :=
  match s with
  | EmptyString => EmptyString
  | String c s' =>
      match rstrip s' with
      | EmptyString => if is_space c then EmptyString else String c EmptyString
      | t => String c t
      end
  end.

(** [s.lstrip()] *)
Fixpoint lstrip (s : string) : string :=
  match s with
  | EmptyString => EmptyString
  | String c s' => if is_space c then lstrip s' else s
  end.

Definition strip (s : string) : string := rstrip (lstrip s).

(** The whitespace that [int] and [float] skip around an ASCII numeral:
    TAB, LF, VT, FF, CR and the blank.  The separators 0x1c-0x1f, which
    [str.strip] and [str.split] take for whitespace, are not among them. *)
Definition is_num_space (c : ascii) : bool :=
  let n := nat_of_ascii c in
  ((9 <=? n) && (n <=? 13) || (n =? 32))%nat.

Fixpoint num_rstrip (s : string) : string :=
  match s with
  | EmptyString => EmptyString
  | String c s' =>
      match num_rstrip s' with
      | EmptyString => if is_num_space c then EmptyString else String c EmptyString
      | t => String c t
      end
  end.

Fixpoint num_lstrip (s : string) : string :=
  match s with
  | EmptyString => EmptyString
  | String c s' => if is_num_space c then num_lstrip s' else s
  end.

Definition num_strip (s : string) : string := num_rstrip (num_lstrip s).

Fixpoint repeat (c : ascii) (n : nat) : string :=
  match n with
  | O => EmptyString
  | S n' => String c (repeat c n')
  end.

Definition is_digit (c : ascii) : bool :=
  let n := nat_of_ascii c in ((48 <=? n) && (n <=? 57))%nat.

Definition digit_val (c : ascii) : Z := Z.of_nat (nat_of_ascii c) - 48.

Definition digit_char (d : Z) : ascii := ascii_of_nat (48 + Z.to_nat d).

(** Value of a run of decimal digits read left to right, starting from
    [acc]; [None] when a character is not a digit. *)
Fixpoint digits_val (acc : Z) (s : string) : option Z :=
  match s with
  | EmptyString => Some acc
  | String c s' =>
      if is_digit c then digits_val (10 * acc + digit_val c) s' else None
  end.

(** The last [p] decimal digits of [n], as [p] characters. *)
Fixpoint digits_fixed (p : nat) (n : Z) : string :=
  match p with
  | O => EmptyString
  | S p' => digits_fixed p' (n / 10) ++ String (digit_char (n mod 10)) EmptyString
  end.

Fixpoint dec_aux (fuel : nat) (n : Z) : string :=
  match fuel with
  | O => EmptyString
  | S fuel' =>
      if n <? 10 then String (digit_char n) EmptyString
      else dec_aux fuel' (n / 10) ++ String (digit_char (n mod 10)) EmptyString
  end.

(** Decimal numeral of [n >= 0] without leading zeros.  [n] has at most
    [log2 n + 1] digits, which is the fuel. *)
Definition dec (n : Z) : string := dec_aux (S (Z.to_nat (Z.log2 n))) n.

End PyStr.

(** ** Python numbers *)

Inductive pyfloat :=
| Fnan
| Finf (neg : bool)
| Ffin (neg : bool) (m : N) (e : Z).   (** (-1)^neg * m * 2^e; [Ffin true 0 _] is -0.0 *)

Inductive pynum :=
| PInt (z : Z)
| PFloat (f : pyfloat).

Module PyNum.

(** Exact value of a number as a fraction, or where it sits outside them. *)
Inductive ext :=
| ENaN
| ENegInf
| EFin (n d : Z)     (** n / d with d > 0 *)
| EPosInf.

Definition mag_num (m : N) (e : Z) : Z :=
  if 0 <=? e then Z.of_N m * 2 ^ e else Z.of_N m.

Definition mag_den (e : Z) : Z :=
  if 0 <=? e then 1 else 2 ^ (- e).

Definition ext_of_float (f : pyfloat) : ext :=
  match f with
  | Fnan => ENaN
  | Finf true => ENegInf
  | Finf false => EPosInf
  | Ffin neg m e =>
      EFin (if neg then - mag_num m e else mag_num m e) (mag_den e)
  end.

Definition ext_of (v : pynum) : ext :=
  match v with
  | PInt z => EFin z 1
  | PFloat f => ext_of_float f
  end.

(** [a <= b]: Python compares an int with a float by exact value; every
    comparison with a NaN is false. *)
Definition le (a b : pynum) : bool :=
  match ext_of a, ext_of b with
  | ENaN, _ | _, ENaN => false
  | ENegInf, _ => true
  | _, EPosInf => true
  | _, ENegInf => false
  | EPosInf, _ => false
  | EFin n1 d1, EFin n2 d2 => n1 * d2 <=? n2 * d1
  end.

(** [a < b] *)
Definition lt (a b : pynum) : bool :=
  match ext_of a, ext_of b with
  | ENaN, _ | _, ENaN => false
  | _, ENegInf => false
  | EPosInf, _ => false
  | ENegInf, _ => true
  | _, EPosInf => true
  | EFin n1 d1, EFin n2 d2 => n1 * d2 <? n2 * d1
  end.

(** [a == b] *)
Definition eqb (a b : pynum) : bool :=
  match ext_of a, ext_of b with
  | ENaN, _ | _, ENaN => false
  | ENegInf, ENegInf => true
  | EPosInf, EPosInf => true
  | EFin n1 d1, EFin n2 d2 => n1 * d2 =? n2 * d1
  | _, _ => false
  end.

(** [n / d] rounded to the nearest integer, ties to the even one
    ([n >= 0], [d > 0]). *)
Definition round_half_even (n d : Z) : Z :=
  let q := n / d in
  match 2 * (n mod d) ?= d with
  | Lt => q
  | Gt => q + 1
  | Eq => if Z.even q then q else q + 1
  end.

(** floor (log2 (n / d)) for [n, d > 0] *)
Definition ilog2_ratio (n d : Z) : Z :=
  let l := Z.log2 n - Z.log2 d in
  if (if 0 <=? l then d * 2 ^ l <=? n else d <=? n * 2 ^ (- l))
  then l else l - 1.

(** The IEEE binary64 nearest to [n / d] ([n >= 0], [d > 0]), round to
    nearest even, as mantissa and exponent; [None] when the result is
    beyond the largest double. *)
Definition round64 (n d : Z) : option (N * Z) :=
  if n =? 0 then Some (0%N, 0)
  else
    let e := ilog2_ratio n d in
    let ue := Z.max (e - 52) (-1074) in
    let m := if 0 <=? ue then round_half_even n (d * 2 ^ ue)
             else round_half_even (n * 2 ^ (- ue)) d in
    if 2 ^ 1024 <=? m * 2 ^ ue then None else Some (Z.to_N m, ue).

(** The double a decimal literal denotes: [float_dec neg n k] is the
    value of the literal with digits [n] and [k] digits after the point. *)
Definition float_dec (neg : bool) (n : Z) (k : nat) : pyfloat :=
  match round64 n (10 ^ Z.of_nat k) with
  | Some (m, e) => Ffin neg m e
  | None => Finf neg
  end.

(** [float(z)] for an int; [None] stands for [OverflowError]. *)
Definition float_of_int (z : Z) : option pyfloat :=
  match round64 (Z.abs z) 1 with
  | Some (m, e) => Some (Ffin (z <? 0) m e)
  | None => None
  end.

(** Integer part of a finite float, towards zero. *)
Definition trunc (neg : bool) (m : N) (e : Z) : Z :=
  let q := mag_num m e / mag_den e in
  if neg then - q else q.

(** *** Fixed-point presentation (format type [f]) *)

(** What the driver's format strings use of a format specification:
    the zero-fill flag, the minimum width and the precision. *)
Record fspec := { fs_zero : bool; fs_width : nat; fs_prec : nat }.

Definition sign_str (neg : bool) : string := if neg then "-" else "".

(** Digits of a finite magnitude with [p] decimals, correctly rounded
    (ties to even) from the exact binary value. *)
Definition fixed_body (p : nat) (m : N) (e : Z) : string :=
  let scaled := round_half_even (mag_num m e * 10 ^ Z.of_nat p) (mag_den e) in
  PyStr.dec (scaled / 10 ^ Z.of_nat p)
  ++ match p with
     | O => ""
     | S _ => "." ++ PyStr.digits_fixed p scaled
     end.

(** Right-aligned in the minimum width; with the zero flag the fill goes
    between the sign and the digits. *)
Definition pad (sp : fspec) (sign body : string) : string :=
  let n := (fs_width sp - String.length sign - String.length body)%nat in
  if fs_zero sp then sign ++ PyStr.repeat "0" n ++ body
  else PyStr.repeat " " n ++ sign ++ body.

Definition format_float (sp : fspec) (f : pyfloat) : string :=
  match f with
  | Fnan => pad sp "" "nan"
  | Finf neg => pad sp (sign_str neg) "inf"
  | Ffin neg m e => pad sp (sign_str neg) (fixed_body (fs_prec sp) m e)
  end.

(** Integer presentation ([%0wi]). *)
Definition format_int (sp : fspec) (z : Z) : string :=
  pad sp (sign_str (z <? 0)) (PyStr.dec (Z.abs z)).

End PyNum.

(** ** The fragment of [re] that the composite-status pattern uses *)

Module Re.

(** A character set is a list of inclusive ranges. *)
Definition charset := list (ascii * ascii).

Definition in_set (cs : charset) (c : ascii) : bool :=
  existsb (fun '(lo, hi) =>
             ((nat_of_ascii lo <=? nat_of_ascii c)
              && (nat_of_ascii c <=? nat_of_ascii hi))%nat) cs.

Inductive regex :=
| RLit (s : string)                 (** literal text *)
| RSet (cs : charset)               (** [[...]], one character *)
| RCat (r1 r2 : regex)
| ROpt (r : regex)                  (** [r?], greedy *)
| RStar (cs : charset)              (** [[...]*], greedy *)
| RPlus (cs : charset)              (** [[...]+], greedy *)
| RGroup (i : nat) (r : regex)      (** capturing group number [i] *)
| RNotAhead (r : regex).            (** [(?!r)] *)

(** [s[:len(s) - len(rest)]]: what was consumed between [s] and [rest]. *)
Definition consumed (s rest : string) : string :=
  PyStr.take (String.length s - String.length rest) s.

Fixpoint lit {R} (p s : string) (k : string -> option R) : option R :=
  match p, s with
  | EmptyString, _ => k s
  | String a p', String c s' => if Ascii.eqb a c then lit p' s' k else None
  | String _ _, EmptyString => None
  end.

(** Greedy repetition of a set: take the longest run first and give
    characters back one at a time while the rest of the pattern fails. *)
Fixpoint star {R} (cs : charset) (s : string) (k : string -> option R) : option R :=
  match s with
  | String c s' =>
      if in_set cs c then
        match star cs s' k with
        | Some r => Some r
        | None => k s
        end
      else k s
  | EmptyString => k s
  end.

(** Backtracking matcher in continuation-passing style: [rmatch r R s caps k]
    matches [r] at the start of [s], then runs [k] on what is left and on
    the groups captured so far; alternatives are tried in the order of
    Python's engine and the first success is returned. *)
Fixpoint rmatch (r : regex) (R : Type) (s : string) (caps : gmap nat string)
         (k : string -> gmap nat string -> option R) {struct r} : option R :=
  match r with
  | RLit p => lit p s (fun s' => k s' caps)
  | RSet cs =>
      match s with
      | String c s' => if in_set cs c then k s' caps else None
      | EmptyString => None
      end
  | RCat r1 r2 =>
      rmatch r1 R s caps (fun s' caps' => rmatch r2 R s' caps' k)
  | ROpt r1 =>
      match rmatch r1 R s caps k with
      | Some x => Some x
      | None => k s caps
      end
  | RStar cs => star cs s (fun s' => k s' caps)
  | RPlus cs =>
      match s with
      | String c s' => if in_set cs c then star cs s' (fun s'' => k s'' caps) else None
      | EmptyString => None
      end
  | RGroup i r1 =>
      rmatch r1 R s caps (fun s' caps' => k s' (<[i := consumed s s']> caps'))
  | RNotAhead r1 =>
      match rmatch r1 unit s caps (fun _ _ => Some tt) with
      | Some _ => None
      | None => k s caps
      end
  end.

(** [re.search]: the leftmost position where the pattern matches. *)
Fixpoint search (r : regex) (s : string) : option (gmap nat string) :=
  match rmatch r _ s ∅ (fun _ caps => Some caps) with
  | Some caps => Some caps
  | None =>
      match s with
      | String _ s' => search r s'
      | EmptyString => None
      end
  end.

(** The tuple of groups [1..n] of a match; a group that took no part is
    the empty string. *)
Definition groups (n : nat) (caps : gmap nat string) : list string :=
  map (fun i => default "" (caps !! i)) (seq 1 n).

(** [prog.findall(s)[0]] for a pattern with [n > 1] groups: the groups of
    the first match; [None] stands for the [IndexError] of an empty list. *)
Definition findall_first (r : regex) (n : nat) (s : string) : option (list string) :=
  groups n <$> search r s.

Definition digit : charset := [("0", "9")]%char.

End Re.

(** ** Python values, exceptions and the conversions the driver applies *)

Inductive pyval :=
| VNone
| VBool (b : bool)
| VInt (z : Z)
| VFloat (f : pyfloat)
| VStr (s : string)
| VRegex (r : Re.regex).     (** a compiled pattern object *)

(** [NotModelled] marks an input outside the fragment of a library function
    that this development describes; no statement below relies on it. *)
Inductive exn :=
| AssertionError
| IndexError
| KeyError
| ValueError
| TypeError
| AttributeError
| OverflowError
| NotModelled.

Inductive result (A : Type) :=
| Ok (a : A)
| Raise (e : exn).
Arguments Ok {A} a.
Arguments Raise {A} e.

Module Py.

(** The number a value is when used as one ([bool] is a subclass of [int]). *)
Definition num_of (v : pyval) : option pynum :=
  match v with
  | VBool b => Some (PInt (if b then 1 else 0))
  | VInt z => Some (PInt z)
  | VFloat f => Some (PFloat f)
  | _ => None
  end.

(** Truth value, as tested by [if v] and [not v]. *)
Definition truthy (v : pyval) : bool :=
  match v with
  | VNone => false
  | VBool b => b
  | VInt z => negb (z =? 0)
  | VFloat (Ffin _ m _) => negb (m =? 0)%N
  | VFloat _ => true
  | VStr s => negb (String.eqb s "")
  | VRegex _ => true
  end.

(** [a == b] against a constant [b] that is a bool, an int or a str. *)
Definition eq (a b : pyval) : bool :=
  match num_of a, num_of b with
  | Some x, Some y => PyNum.eqb x y
  | _, _ =>
      match a, b with
      | VStr s, VStr t => String.eqb s t
      | VNone, VNone => true
      | _, _ => false
      end
  end.

(** [v in [c1, c2, ...]] *)
Definition contains (consts : list pyval) (v : pyval) : bool :=
  existsb (eq v) consts.

(** [a <= b] and [a < b]; ordering a non-number raises [TypeError]. *)
Definition le (a b : pyval) : result bool :=
  match num_of a, num_of b with
  | Some x, Some y => Ok (PyNum.le x y)
  | _, _ => Raise TypeError
  end.

Definition lt (a b : pyval) : result bool :=
  match num_of a, num_of b with
  | Some x, Some y => Ok (PyNum.lt x y)
  | _, _ => Raise TypeError
  end.

(** Leading run of digits and what follows it. *)
Fixpoint span_digits (s : string) : string * string :=
  match s with
  | String c s' =>
      if PyStr.is_digit c then
        let (d, r) := span_digits s' in (String c d, r)
      else (EmptyString, s)
  | EmptyString => (EmptyString, EmptyString)
  end.

Definition split_sign (s : string) : bool * string :=
  match s with
  | String "-" s' => (true, s')
  | String "+" s' => (false, s')
  | _ => (false, s)
  end.

Definition plain_char (c : ascii) : bool :=
  PyStr.is_digit c || Ascii.eqb c "+" || Ascii.eqb c "-" || Ascii.eqb c ".".

Fixpoint all_chars (p : ascii -> bool) (s : string) : bool :=
  match s with
  | EmptyString => true
  | String c s' => p c && all_chars p s'
  end.

(** [float(s)] on plain decimal numerals: optional sign, digits, optional
    point and digits, at least one digit, between the whitespace that
    [float] skips.  Any other text is outside the fragment
    ([NotModelled]): exponents, [inf], [nan] and [_] separators, which
    [float] also reads, and what it refuses for a character that is not
    of a numeral. *)
Definition float_of_str (s : string) : result pyfloat :=
  let t := PyStr.num_strip s in
  if negb (all_chars plain_char t) then Raise NotModelled
  else
    let (neg, u) := split_sign t in
    let (ip, r) := span_digits u in
    let (fp, r') :=
      match r with
      | String "." r1 => span_digits r1
      | _ => (EmptyString, r)
      end in
    if negb (String.eqb r' "") || String.eqb (ip ++ fp) "" then Raise ValueError
    else
      match PyStr.digits_val 0 (ip ++ fp) with
      | Some n => Ok (PyNum.float_dec neg n (String.length fp))
      | None => Raise ValueError
      end.

(** [int(s)] on plain decimal numerals: optional sign and digits, between
    the whitespace that [int] skips; any other text is outside the
    fragment. *)
Definition int_of_str (s : string) : result Z :=
  let t := PyStr.num_strip s in
  if negb (all_chars plain_char t) then Raise NotModelled
  else
    let (neg, u) := split_sign t in
    match u with
    | EmptyString => Raise ValueError
    | _ =>
        match PyStr.digits_val 0 u with
        | Some n => Ok (if neg then - n else n)
        | None => Raise ValueError
        end
    end.

(** [int(v)] *)
Definition int (v : pyval) : result Z :=
  match v with
  | VBool b => Ok (if b then 1 else 0)
  | VInt z => Ok z
  | VFloat Fnan => Raise ValueError
  | VFloat (Finf _) => Raise OverflowError
  | VFloat (Ffin neg m e) => Ok (PyNum.trunc neg m e)
  | VStr s => int_of_str s
  | VNone | VRegex _ => Raise TypeError
  end.

(** Presentation type [f] of a number under a specification, shared by
    ["%w.pf" % v] and ["{:0w.pf}".format(v)]: an int is converted with
    [float] first. *)
Definition format_f (sp : PyNum.fspec) (v : pyval) : result string :=
  match num_of v with
  | Some (PInt z) =>
      match PyNum.float_of_int z with
      | Some f => Ok (PyNum.format_float sp f)
      | None => Raise OverflowError
      end
  | Some (PFloat f) => Ok (PyNum.format_float sp f)
  | None => Raise TypeError
  end.

(** ["%0wi" % v]: a float is truncated, anything that is not a number is
    a [TypeError]. *)
Definition format_i (sp : PyNum.fspec) (v : pyval) : result string :=
  match v with
  | VBool _ | VInt _ | VFloat _ =>
      match int v with
      | Ok z => Ok (PyNum.format_int sp z)
      | Raise e => Raise e
      end
  | _ => Raise TypeError
  end.

End Py.

(** ** [str.format] on the templates the driver builds *)

Module PyFormat.

Inductive piece :=
| Chr (c : ascii)
| Field (body : string).     (** the text between [{] and [}] *)

(** Splits a template into literal characters and replacement fields;
    [{{] and [}}] are escaped braces.  [fld] holds the text of the field
    being read. *)
Fixpoint scan (s : string) (fld : option string) : result (list piece) :=
  match s with
  | EmptyString =>
      match fld with
      | None => Ok []
      | Some _ => Raise ValueError
      end
  | String c s' =>
      match fld with
      | Some acc =>
          if Ascii.eqb c "}" then
            match scan s' None with
            | Ok ps => Ok (Field acc :: ps)
            | Raise e => Raise e
            end
          else if Ascii.eqb c "{" then Raise NotModelled
          else scan s' (Some (acc ++ String c EmptyString))
      | None =>
          if Ascii.eqb c "{" then
            match s' with
            | String "{" s'' =>
                match scan s'' None with
                | Ok ps => Ok (Chr "{" :: ps)
                | Raise e => Raise e
                end
            | _ => scan s' (Some EmptyString)
            end
          else if Ascii.eqb c "}" then
            match s' with
            | String "}" s'' =>
                match scan s'' None with
                | Ok ps => Ok (Chr "}" :: ps)
                | Raise e => Raise e
                end
            | _ => Raise ValueError
            end
          else
            match scan s' None with
            | Ok ps => Ok (Chr c :: ps)
            | Raise e => Raise e
            end
      end
  end.

(** A format specification of the shape [0w.pf] ([0] and [w] optional). *)
Definition parse_spec (s : string) : option PyNum.fspec :=
  let (zero, s1) :=
    match s with
    | String "0" s' => (true, s')
    | _ => (false, s)
    end in
  let (w, s2) := Py.span_digits s1 in
  match s2 with
  | String "." s3 =>
      let (p, s4) := Py.span_digits s3 in
      if String.eqb s4 "f" && negb (String.eqb p "") then
        match PyStr.digits_val 0 w, PyStr.digits_val 0 p with
        | Some wn, Some pn =>
            Some {| PyNum.fs_zero := zero;
                    PyNum.fs_width := Z.to_nat wn;
                    PyNum.fs_prec := Z.to_nat pn |}
        | _, _ => None
        end
      else None
  | _ => None
  end.

(** One automatically numbered field applied to the argument: a str under
    the empty specification is itself, a number under [:0w.pf] is in
    fixed-point presentation. *)
Definition field (body : string) (arg : pyval) : result string :=
  match body, arg with
  | EmptyString, VStr s => Ok s
  | String ":" spec, (VBool _ | VInt _ | VFloat _) =>
      match parse_spec spec with
      | Some sp => Py.format_f sp arg
      | None => Raise NotModelled
      end
  | _, _ => Raise NotModelled
  end.

(** [used] tells whether the single positional argument is taken already:
    a second field has no argument left ([IndexError]). *)
Fixpoint render (ps : list piece) (arg : pyval) (used : bool) : result string :=
  match ps with
  | [] => Ok EmptyString
  | Chr c :: ps' =>
      match render ps' arg used with
      | Ok t => Ok (String c t)
      | Raise e => Raise e
      end
  | Field body :: ps' =>
      if used then Raise IndexError
      else
        match field body arg with
        | Ok s =>
            match render ps' arg true with
            | Ok t => Ok (s ++ t)
            | Raise e => Raise e
            end
        | Raise e => Raise e
        end
  end.

(** [template.format(arg)] *)
Definition format (template : string) (arg : pyval) : result string :=
  match scan template None with
  | Ok ps => render ps arg false
  | Raise e => Raise e
  end.

End PyFormat.

(** ** The driver object *)

(** The serial port as the driver sees it: what has been written, oldest
    first, and the reply lines the device will deliver, next one first. *)
Record Serial := {
  written : list string;
  pending : list string
}.

(** A [LambdaZup] instance: its attribute dictionary and its port.  The
    lock is an attribute of its own, created by [__init__]; it only matters
    when several threads run, see [Threads] below. *)
Record LambdaZup := {
  attrs : gmap string pyval;
  ser : Serial
}.

(** Methods: a state transformer that returns a value or raises. *)
Definition M (A : Type) : Type := LambdaZup -> result A * LambdaZup.

Definition ret {A} (a : A) : M A := fun st => (Ok a, st).

Definition bind {A B} (m : M A) (k : A -> M B) : M B :=
  fun st =>
    match m st with
    | (Ok a, st') => k a st'
    | (Raise e, st') => (Raise e, st')
    end.

Notation "x <- m ;; k" := (bind m (fun x => k))
  (at level 100, m at next level, right associativity).
Notation "m ;;; k" := (bind m (fun _ => k))
  (at level 100, right associativity).

Definition raise {A} (e : exn) : M A := fun st => (Raise e, st).

Definition lift {A} (r : result A) : M A := fun st => (r, st).

(** [assert b] *)
Definition assert (b : bool) : M unit :=
  if b then ret tt else raise AssertionError.

(** [self.name] *)
Definition getattr (name : string) : M pyval :=
  fun st =>
    match attrs st !! name with
    | Some v => (Ok v, st)
    | None => (Raise AttributeError, st)
    end.

(** [hasattr(self, name)] *)
Definition hasattr (name : string) : M bool :=
  fun st => (Ok (bool_decide (is_Some (attrs st !! name))), st).

(** [self.name = v] *)
Definition setattr (name : string) (v : pyval) : M unit :=
  fun st => (Ok tt, {| attrs := <[name := v]> (attrs st); ser := ser st |}).

(** [self.ser.write(data.encode())] *)
Definition ser_write (data : string) : M unit :=
  fun st =>
    (Ok tt, {| attrs := attrs st;
               ser := {| written := written (ser st) ++ [data];
                         pending := pending (ser st) |} |}).

(** [self.ser.readline().decode()]: the next line, or the empty string when
    the read times out.  A line is an ASCII text, which [decode] leaves as
    it is; on other bytes [decode] raises [UnicodeDecodeError] or yields
    characters beyond ASCII, and such lines are outside this model. *)
Definition ser_readline : M string :=
  fun st =>
    match pending (ser st) with
    | line :: rest =>
        (Ok line, {| attrs := attrs st;
                     ser := {| written := written (ser st); pending := rest |} |})
    | [] => (Ok EmptyString, st)
    end.

(** [time.sleep(t)] changes nothing the driver can see. *)
Definition sleep : M unit := ret tt.

(** [with self.lock: body].  One thread alone always gets a re-entrant
    lock, so the block is its body; [Threads] has the interleaved view. *)
Definition with_lock {A} (body : M A) : M A := body.

(** [s[i] == c]; an index out of range raises [IndexError]. *)
Definition char_at_is (c : ascii) (o : option ascii) : M bool :=
  match o with
  | Some c' => ret (Ascii.eqb c' c)
  | None => raise IndexError
  end.

Definition spec_02i : PyNum.fspec :=
  {| PyNum.fs_zero := true; PyNum.fs_width := 2; PyNum.fs_prec := 0 |}.

(** [":ADR%02i;" % a] *)
Definition adr_command (a : pyval) : result string :=
  match Py.format_i spec_02i a with
  | Ok s => Ok (":ADR" ++ s ++ ";")
  | Raise e => Raise e
  end.

(** The framing of a command: first character [:], last character [;]. *)
Definition framed (cmd : string) : bool :=
  match PyStr.first cmd, PyStr.last cmd with
  | Some a, Some b => Ascii.eqb a ":" && Ascii.eqb b ";"
  | _, _ => false
  end.

Definition _write (cmd : string) : M unit :=
  b0 <- char_at_is ":" (PyStr.first cmd) ;;
  assert b0 ;;;
  b1 <- char_at_is ";" (PyStr.last cmd) ;;
  assert b1 ;;;
  with_lock (
    always <- getattr "always_send_address" ;;
    (if Py.truthy always then
       a <- getattr "address" ;;
       adrcmd <- lift (adr_command a) ;;
       ser_write adrcmd ;;;
       sleep
     else ret tt) ;;;
    ser_write cmd).

Definition _ask (cmd : string) : M string :=
  resp <- with_lock (
    _write cmd ;;;
    ser_readline) ;;
  ret (PyStr.rstrip resp).

(** *** 5.5.1 Initialization control *)

Definition set_address (adr : pyval) : M pyval :=
  adr <- (if negb (Py.truthy adr) then getattr "address" else ret adr) ;;
  adr <- lift (Py.int adr) ;;
  assert ((0 <? adr) && (adr <? 32)) ;;;
  cmd <- lift (adr_command (VInt adr)) ;;
  _write cmd ;;;
  sleep ;;;
  setattr "address" (VInt adr) ;;;
  getattr "address".

Definition clear_comm_buffer : M unit := _write ":DCL;".

Definition set_remote_mode (mode : pyval) : M unit :=
  let mode :=
    if Py.eq mode (VStr "local") then VInt 0
    else if Py.eq mode (VStr "non-latched") then VInt 1
    else if Py.eq mode (VStr "latched") then VInt 2
    else mode in
  assert (Py.contains [VInt 0; VInt 1; VInt 2] mode) ;;;
  s <- lift (Py.format_i {| PyNum.fs_zero := false; PyNum.fs_width := 0; PyNum.fs_prec := 0 |} mode) ;;
  _write (":RMT" ++ s ++ ";").

(** *** 5.5.3 Output control *)

(** Format strings for setting the voltage, by rated voltage:
    [{:0total_char.decimalsf}]. *)
Definition v_format_strs : gmap Z string :=
  list_to_map
    [ (6,   "{:05.3f}");
      (10,  "{:06.3f}");
      (20,  "{:06.3f}");
      (36,  "{:05.2f}");
      (60,  "{:05.2f}");
      (80,  "{:05.2f}");
      (120, "{:06.2f}") ].

(** [0 <= v <= hi], chained: the right comparison, and with it the
    evaluation of [hi], only happens when the left one is true. *)
Definition in_range (v : pyval) (hi : M pyval) : M bool :=
  lo_ok <- lift (Py.le (VInt 0) v) ;;
  if lo_ok then
    h <- hi ;;
    lift (Py.le v h)
  else ret false.

(** [d[k]] on a dictionary keyed by int: a key is found by any number
    equal to it. *)
Definition subscript (d : gmap Z string) (k : pyval) : result string :=
  let key :=
    match k with
    | VBool b => Some (if b then 1 else 0)
    | VInt z => Some z
    | VFloat (Ffin neg m e) =>
        if PyNum.mag_num m e mod PyNum.mag_den e =? 0
        then Some (PyNum.trunc neg m e) else None
    | _ => None
    end in
  match key ≫= (d !!.) with
  | Some s => Ok s
  | None => Raise KeyError
  end.

Definition set_voltage (volt : pyval) : M unit :=
  ok <- in_range volt (getattr "max_voltage") ;;
  assert ok ;;;
  mv <- getattr "max_voltage" ;;
  fmt_str <- lift (subscript v_format_strs mv) ;;
  template <- lift (PyFormat.format ":VOL{};" (VStr fmt_str)) ;;
  cmd <- lift (PyFormat.format template volt) ;;
  _write cmd.

Definition set_output (outp : pyval) : M unit :=
  if Py.truthy outp then _write ":OUT1;" else _write ":OUT0;".

Definition get_output : M pyval :=
  out <- _ask ":OUT?;" ;;
  assert (String.eqb (PyStr.take 2 out) "OT") ;;;
  (if String.eqb out "OT1" then setattr "output" (VBool true)
   else if String.eqb out "OT0" then setattr "output" (VBool false)
   else raise ValueError) ;;;
  getattr "output".

Definition set_foldback_protection (fld : pyval) : M unit :=
  if Py.contains [VBool true; VInt 1; VStr "arm"] fld then _write ":FLD1;"
  else if Py.contains [VBool false; VInt 0; VStr "release"] fld then _write ":FLD0;"
  else if Py.contains [VInt 2; VStr "cancel"] fld then _write ":FLD2;"
  else ret tt.

Definition get_foldback_protection : M pyval :=
  out <- _ask ":FLD?;" ;;
  assert (String.eqb (PyStr.take 2 out) "FD") ;;;
  (if String.eqb out "FD1" then setattr "foldback_armed" (VBool true)
   else if String.eqb out "FD0" then setattr "foldback_armed" (VBool false)
   else raise ValueError) ;;;
  getattr "foldback_armed".

(** ["%1.2f"] *)
Definition spec_1_2f : PyNum.fspec :=
  {| PyNum.fs_zero := false; PyNum.fs_width := 1; PyNum.fs_prec := 2 |}.

Definition set_over_voltage_protection (volt : pyval) : M unit :=
  ok <- in_range volt (getattr "max_voltage") ;;
  assert ok ;;;
  s <- lift (Py.format_f spec_1_2f volt) ;;
  _write (":OVP" ++ s ++ ";").

Definition set_under_voltage_protection (volt : pyval) : M unit :=
  ok <- in_range volt (getattr "max_voltage") ;;
  assert ok ;;;
  s <- lift (Py.format_f spec_1_2f volt) ;;
  _write (":UVP" ++ s ++ ";").

(** *** 5.5.4 Status control *)

(** [([+-]?\d*\.\d+)(?![-+0-9\.])] with its group numbered [i] *)
Definition f_re (i : nat) : Re.regex :=
  Re.RCat
    (Re.RGroup i
       (Re.RCat (Re.ROpt (Re.RSet [("+", "+"); ("-", "-")]%char))
          (Re.RCat (Re.RStar Re.digit)
             (Re.RCat (Re.RLit ".") (Re.RPlus Re.digit)))))
    (Re.RNotAhead (Re.RSet [("-", "-"); ("+", "+"); ("0", "9"); (".", ".")]%char)).

(** ["AV" + f_re + "SV" + f_re + "AA" + f_re + "SA" + f_re
     + "OS(\d+)AL(\d+)PS(\d+)"] *)
Definition complete_status_re : Re.regex :=
  Re.RCat (Re.RLit "AV") (Re.RCat (f_re 1)
  (Re.RCat (Re.RLit "SV") (Re.RCat (f_re 2)
  (Re.RCat (Re.RLit "AA") (Re.RCat (f_re 3)
  (Re.RCat (Re.RLit "SA") (Re.RCat (f_re 4)
  (Re.RCat (Re.RLit "OS") (Re.RCat (Re.RGroup 5 (Re.RPlus Re.digit))
  (Re.RCat (Re.RLit "AL") (Re.RCat (Re.RGroup 6 (Re.RPlus Re.digit))
  (Re.RCat (Re.RLit "PS") (Re.RGroup 7 (Re.RPlus Re.digit)))))))))))))).

(** [self.name = float(s)] *)
Definition set_float (name s : string) : M unit :=
  f <- lift (Py.float_of_str s) ;;
  setattr name (VFloat f).

(** [self.name = bool(int(reg[i]))] *)
Definition set_bit (name reg : string) (i : nat) : M unit :=
  match PyStr.index i reg with
  | None => raise IndexError
  | Some c =>
      z <- lift (Py.int (VStr (String c EmptyString))) ;;
      setattr name (VBool (negb (z =? 0)))
  end.

Definition get_complete_status : M (list pyval) :=
  has <- hasattr "_complete_status_re_prog" ;;
  (if negb has then setattr "complete_status_re_prog" (VRegex complete_status_re)
   else ret tt) ;;;
  out <- _ask ":STT?;" ;;
  prog <- getattr "complete_status_re_prog" ;;
  found <- match prog with
           | VRegex r => ret (Re.findall_first r 7 out)
           | _ => raise AttributeError
           end ;;
  match found with
  | None => raise IndexError
  | Some [_av; _sv; _aa; _sa; _os; _al; _ps] =>
      set_float "voltage_actual" _av ;;;
      set_float "voltage_setp" _sv ;;;
      set_float "current_actual" _aa ;;;
      set_float "current_setp" _sa ;;;
      setattr "operational_status_register" (VStr _os) ;;;
      setattr "alarm_status_register" (VStr _al) ;;;
      setattr "programming_status_register" (VStr _ps) ;;;
      set_bit "cc_cv" _os 0 ;;;
      set_bit "foldback_armed" _os 1 ;;;
      set_bit "auto_restart_mode" _os 2 ;;;
      set_bit "output" _os 3 ;;;
      set_bit "foldback_srq" _os 4 ;;;
      set_bit "over_voltage_srq" _os 5 ;;;
      set_bit "over_temp_srq" _os 6 ;;;
      set_bit "alarm_active" _os 7 ;;;
      set_bit "alarm_ovp" _al 0 ;;;
      set_bit "alarm_otp" _al 1 ;;;
      set_bit "alarm_ac_fail" _al 2 ;;;
      set_bit "alarm_foldback" _al 3 ;;;
      set_bit "alarm_prog" _al 4 ;;;
      set_bit "prog_err_wrong_command" _ps 1 ;;;
      set_bit "prog_err_buffer_overflow" _ps 2 ;;;
      set_bit "prog_err_wrong_voltage" _ps 3 ;;;
      set_bit "prog_err_wrong_current" _ps 4 ;;;
      v1 <- getattr "voltage_actual" ;;
      v2 <- getattr "voltage_setp" ;;
      v3 <- getattr "current_actual" ;;
      v4 <- getattr "current_setp" ;;
      v5 <- getattr "operational_status_register" ;;
      v6 <- getattr "alarm_status_register" ;;
      v7 <- getattr "programming_status_register" ;;
      ret [v1; v2; v3; v4; v5; v6; v7]
  | Some _ => raise ValueError
  end.

(** A driver as [__init__] leaves it once the revision query has answered:
    identity attributes set, nothing read yet. *)
Definition connected (address : Z) (always_send_address : bool)
           (max_voltage : Z) (max_current : pyfloat) (lines : list string) : LambdaZup :=
  {| attrs := list_to_map
       [ ("port", VNone);
         ("address", VInt address);
         ("debug", VBool false);
         ("always_send_address", VBool always_send_address);
         ("max_voltage", VInt max_voltage);
         ("max_current", VFloat max_current);
         ("software_revision", VStr "1.0") ];
     ser := {| written := []; pending := lines |} |}.

(** ** Several threads, several instances, one port

    [_write] and [_ask] cut into the steps at which another thread can run:
    taking and releasing the instance's [threading.RLock], each write to the
    port, the settle delay and the read of the reply.  The lock belongs to
    the instance: [__init__] makes a fresh one for every [LambdaZup], also
    for one that is handed the [Serial] object of another. *)

Module Threads.

(** What a run needs of an instance.  [inst] identifies the object and
    thereby its lock. *)
Record driver := {
  inst : nat;
  address : Z;
  always_send_address : bool
}.

Inductive action :=
| Acquire (l : nat)          (** entering [with self.lock] of instance [l] *)
| Release (l : nat)          (** leaving it *)
| SendAdr (data : string)    (** [self.ser.write(adrcmd.encode())] *)
| SendCmd (data : string)    (** [self.ser.write(cmd.encode())] *)
| Sleep                      (** [time.sleep(0.050)] *)
| Recv.                      (** [self.ser.readline()] *)

(** [_write(cmd)]: nothing happens when one of its two assertions fails,
    that is, when the command is not [framed]. *)
Definition write_prog (d : driver) (cmd : string) : list action :=
  if framed cmd then
    ([Acquire (inst d)]
     ++ (if always_send_address d
         then [SendAdr (":ADR" ++ PyNum.format_int spec_02i (address d) ++ ";"); Sleep]
         else [])
     ++ [SendCmd cmd; Release (inst d)])%list
  else [].

(** [_ask(cmd)]: a failed assertion inside the block leaves it at once. *)
Definition ask_prog (d : driver) (cmd : string) : list action :=
  ([Acquire (inst d)]
   ++ write_prog d cmd
   ++ (if framed cmd then [Recv] else [])
   ++ [Release (inst d)])%list.

Inductive call :=
| CWrite (d : driver) (cmd : string)
| CAsk (d : driver) (cmd : string).

Definition call_driver (c : call) : driver :=
  match c with CWrite d _ | CAsk d _ => d end.

Definition call_prog (c : call) : list action :=
  match c with
  | CWrite d cmd => write_prog d cmd
  | CAsk d cmd => ask_prog d cmd
  end.

(** A thread makes its calls one after the other. *)
Definition thread_prog (calls : list call) : list action :=
  flat_map call_prog calls.

(** The shared state: who holds which lock and how many times, what went
    over the port in order (tagged with the acting thread), and what each
    thread still has to do. *)
Record state := {
  locks : gmap nat (nat * nat);
  bus : list (nat * action);
  pool : list (list action)
}.

Definition init (threads : list (list call)) : state :=
  {| locks := ∅; bus := []; pool := map thread_prog threads |}.

(** Effect of thread [t] doing [a] on locks and port; [None] when [t]
    cannot do it now (the lock is held by another thread). *)
Definition exec (t : nat) (a : action) (lk : gmap nat (nat * nat))
           (b : list (nat * action)) : option (gmap nat (nat * nat) * list (nat * action)) :=
  match a with
  | Acquire l =>
      match lk !! l with
      | None => Some (<[l := (t, 1%nat)]> lk, b)
      | Some (o, n) => if decide (o = t) then Some (<[l := (t, S n)]> lk, b) else None
      end
  | Release l =>
      match lk !! l with
      | Some (o, S n) =>
          if decide (o = t) then
            Some (match n with O => delete l lk | S _ => <[l := (t, n)]> lk end, b)
          else None
      | _ => None
      end
  | SendAdr _ | SendCmd _ | Recv => Some (lk, (b ++ [(t, a)])%list)
  | Sleep => Some (lk, b)
  end.

(** One step of one thread; the scheduler is free to pick any thread that
    can move. *)
Inductive step : state -> state -> Prop :=
| step_thread σ t a rest lk' b' :
    pool σ !! t = Some (a :: rest) ->
    exec t a (locks σ) (bus σ) = Some (lk', b') ->
    step σ {| locks := lk'; bus := b'; pool := <[t := rest]> (pool σ) |}.

Definition reachable (σ0 σ : state) : Prop := rtc step σ0 σ.

Definition is_cmd (a : action) : bool :=
  match a with SendCmd _ => true | _ => false end.

Definition is_recv (a : action) : bool :=
  match a with Recv => true | _ => false end.

(** May [y] come right after [x] on the port?  Not when [x] is an address
    select, unless [y] is the command of the same thread; and a read only
    right after the command of the same thread. *)
Definition follows (x y : nat * action) : bool :=
  match x.2 with
  | SendAdr _ => is_cmd y.2 && bool_decide (x.1 = y.1)
  | _ => true
  end
  && match y.2 with
     | Recv => is_cmd x.2 && bool_decide (x.1 = y.1)
     | _ => true
     end.

Fixpoint atomic_from (x : nat * action) (log : list (nat * action)) : bool :=
  match log with
  | [] => true
  | y :: log' => follows x y && atomic_from y log'
  end.

(** No address select is separated from its command and no reply read
    from its query. *)
Definition atomic (log : list (nat * action)) : bool :=
  match log with
  | [] => true
  | x :: log' => negb (is_recv x.2) && atomic_from x log'
  end.

End Threads.

(** ** The rest of the class *)

(** [s.replace(a, b)] for single characters *)
Fixpoint str_replace (a b : ascii) (s : string) : string :=
  match s with
  | EmptyString => EmptyString
  | String c s' => String (if Ascii.eqb c a then b else c) (str_replace a b s')
  end.

(** [s.split()]: the maximal runs of characters that are not whitespace;
    [cur] is the run being read. *)
Fixpoint str_split_from (cur : string) (s : string) : list string :=
  match s with
  | EmptyString =>
      match cur with
      | EmptyString => []
      | _ => [cur]
      end
  | String c s' =>
      if PyStr.is_space c then
        match cur with
        | EmptyString => str_split_from EmptyString s'
        | _ => cur :: str_split_from EmptyString s'
        end
      else str_split_from (cur ++ String c EmptyString) s'
  end.

Definition str_split (s : string) : list string := str_split_from EmptyString s.

(** *** 5.5.1 Initialization control, continued *)

Definition get_remote_mode : M pyval :=
  out <- _ask ":RMT?;" ;;
  setattr "remote_mode" (VStr out) ;;;
  getattr "remote_mode".

(** *** 5.5.2 ID control commands *)

Definition get_model : M pyval :=
  out <- _ask ":MDL?;" ;;
  setattr "model" (VStr out) ;;;
  getattr "model".

Definition get_software_revision : M pyval :=
  out <- _ask ":REV?;" ;;
  match str_split (str_replace "-" " " out) with
  | [ver; maxV; maxA; revision] =>
      mv <- lift (Py.int (VStr maxV)) ;;
      setattr "max_voltage" (VInt mv) ;;;
      ma <- lift (Py.float_of_str maxA) ;;
      setattr "max_current" (VFloat ma) ;;;
      setattr "software_revision" (VStr revision) ;;;
      getattr "software_revision"
  | _ => raise ValueError
  end.

(** *** 5.5.3 Output control, continued *)

(** A query whose reply is a tag and a number:
    [out = self._ask(cmd); assert out[:2] == tag; self.name = float(out[2:]);
     return self.name]. *)
Definition float_query (cmd tag name : string) : M pyval :=
  out <- _ask cmd ;;
  assert (String.eqb (PyStr.take 2 out) tag) ;;;
  set_float name (PyStr.drop 2 out) ;;;
  getattr name.

Definition get_voltage_setp : M pyval := float_query ":VOL!;" "SV" "voltage_setp".

Definition get_voltage_actual : M pyval := float_query ":VOL?;" "AV" "voltage_actual".

(** Format strings for setting the current, by rated voltage and current:
    a dict whose keys are pairs of an int and a float, found by equality of
    the components. *)
Definition i_format_strs : list ((Z * pyfloat) * string) :=
  [ ((6,   PyNum.float_dec false 330 1),  "{:05.2f}");
    ((6,   PyNum.float_dec false 660 1),  "{:05.2f}");
    ((6,   PyNum.float_dec false 1320 1), "{:06.2f}");
    ((10,  PyNum.float_dec false 200 1),  "{:06.3f}");
    ((10,  PyNum.float_dec false 400 1),  "{:05.2f}");
    ((10,  PyNum.float_dec false 800 1),  "{:05.2f}");
    ((20,  PyNum.float_dec false 100 1),  "{:06.3f}");
    ((20,  PyNum.float_dec false 200 1),  "{:06.3f}");
    ((20,  PyNum.float_dec false 400 1),  "{:05.2f}");
    ((36,  PyNum.float_dec false 60 1),   "{:05.3f}");
    ((36,  PyNum.float_dec false 120 1),  "{:06.3f}");
    ((36,  PyNum.float_dec false 240 1),  "{:06.3f}");
    ((60,  PyNum.float_dec false 35 1),   "{:05.3f}");
    ((60,  PyNum.float_dec false 70 1),   "{:05.3f}");
    ((60,  PyNum.float_dec false 140 1),  "{:06.3f}");
    ((80,  PyNum.float_dec false 25 1),   "{:06.4f}");
    ((80,  PyNum.float_dec false 50 1),   "{:05.3f}");
    ((120, PyNum.float_dec false 18 1),   "{:06.4f}");
    ((120, PyNum.float_dec false 36 1),   "{:05.3f}") ].

(** [d[(k1, k2)]] *)
Definition subscript_pair (d : list ((Z * pyfloat) * string)) (k1 k2 : pyval)
  : result string :=
  match find (fun e => Py.eq (VInt e.1.1) k1 && Py.eq (VFloat e.1.2) k2) d with
  | Some e => Ok e.2
  | None => Raise KeyError
  end.

Definition set_current (amp : pyval) : M unit :=
  ok <- in_range amp (getattr "max_current") ;;
  assert ok ;;;
  mv <- getattr "max_voltage" ;;
  mc <- getattr "max_current" ;;
  fmt_str <- lift (subscript_pair i_format_strs mv mc) ;;
  template <- lift (PyFormat.format ":CUR{};" (VStr fmt_str)) ;;
  cmd <- lift (PyFormat.format template amp) ;;
  _write cmd.

Definition get_current_setp : M pyval := float_query ":CUR!;" "SA" "current_setp".

Definition get_current_actual : M pyval := float_query ":CUR?;" "AA" "current_actual".

Definition get_over_voltage_protection : M pyval :=
  float_query ":OVP?;" "OP" "over_voltage".

Definition get_under_voltage_protection : M pyval :=
  float_query ":UVP?;" "UP" "under_voltage".

Definition set_auto_restart_mode (ast : pyval) : M unit :=
  if Py.truthy ast then _write ":AST1;" else _write ":AST0;".

Definition get_auto_restart_mode : M pyval :=
  out <- _ask ":AST?;" ;;
  assert (String.eqb (PyStr.take 2 out) "AS") ;;;
  (if String.eqb out "AS1" then setattr "auto_restart_mode" (VBool true)
   else if String.eqb out "AS0" then setattr "auto_restart_mode" (VBool false)
   else raise ValueError) ;;;
  getattr "auto_restart_mode".

(** *** Construction *)

(** The [port] argument: the name of a port, which [serial.Serial] opens
    (the opened port is given along), or an object with a [read] method,
    used as it is. *)
Inductive port_arg :=
| PortName (name : string) (opened : Serial)
| PortObject (s : Serial).

(** [LambdaZup(port, address, always_send_address, debug)]: the attributes,
    the port, then the address select and the revision query.  The object
    exists when the result is [Ok]. *)
Definition __init__ (port : port_arg) (address always_send_address debug : pyval)
  : result unit * LambdaZup :=
  let ser0 := match port with PortName _ opened => opened | PortObject s => s end in
  let port_attr := match port with PortName name _ => VStr name | PortObject _ => VNone end in
  (setattr "port" port_attr ;;;
   setattr "address" address ;;;
   setattr "debug" debug ;;;
   setattr "always_send_address" always_send_address ;;;
   set_address VNone ;;;
   get_software_revision ;;;
   ret tt) {| attrs := ∅; ser := ser0 |}.

(** * Vocabulary of the statements *)

(** ** States of a driver in use *)

(** The two attributes [_write] reads hold a bool and an int, as
    [__init__] is given them. *)
Definition configured (st : LambdaZup) (always : bool) (adr : Z) : Prop :=
  attrs st !! "always_send_address" = Some (VBool always)
  /\ attrs st !! "address" = Some (VInt adr).

(** [":ADR%02i;" % adr] for an int *)
Definition adr_text (adr : Z) : string :=
  ":ADR" ++ PyNum.format_int spec_02i adr ++ ";".

(** What one call of [_write] puts on the port. *)
Definition frame (always : bool) (adr : Z) (cmd : string) : list string :=
  ((if always then [adr_text adr] else []) ++ [cmd])%list.

(** The state after [l] went out on the port. *)
Definition sent (l : list string) (st : LambdaZup) : LambdaZup :=
  {| attrs := attrs st;
     ser := {| written := (written (ser st) ++ l)%list;
               pending := pending (ser st) |} |}.

(** The reply the next read returns, stripped, and the state after it. *)
Definition next_reply (st : LambdaZup) : string :=
  PyStr.rstrip (hd EmptyString (pending (ser st))).

Definition received (st : LambdaZup) : LambdaZup :=
  {| attrs := attrs st;
     ser := {| written := written (ser st);
               pending := tl (pending (ser st)) |} |}.

(** The state after [self.name = v]. *)
Definition assigned (name : string) (v : pyval) (st : LambdaZup) : LambdaZup :=
  {| attrs := <[name := v]> (attrs st); ser := ser st |}.

(** The numeral of [n] is made of digits and has the length its size asks
    for (checked on the integers a rated voltage bounds). *)
Definition dec_shape (n : nat) : bool :=
  let s := PyStr.dec (Z.of_nat n) in
  Py.all_chars PyStr.is_digit s
  && (String.length s =? (if n <? 10 then 1 else if n <? 100 then 2 else 3))%nat.

(** Table 5-1 as a list: rated voltage, total characters, decimals. *)
Definition rated_formats : list (Z * (nat * nat)) :=
  [ (6, (5%nat, 3%nat)); (10, (6%nat, 3%nat)); (20, (6%nat, 3%nat));
    (36, (5%nat, 2%nat)); (60, (5%nat, 2%nat)); (80, (5%nat, 2%nat));
    (120, (6%nat, 2%nat)) ].

(** [{:0w.pf}] *)
Definition fixed_spec (w p : nat) : PyNum.fspec :=
  {| PyNum.fs_zero := true; PyNum.fs_width := w; PyNum.fs_prec := p |}.

(** [0 <= v <= hi] for a number [v]. *)
Definition within (v : pyval) (hi : Z) : bool :=
  match Py.num_of v with
  | Some x => PyNum.le (PInt 0) x && PyNum.le x (PInt hi)
  | None => false
  end.

(** A text of exactly [w] characters: digits, a point, [p] digits. *)
Definition is_fixed (w p : nat) (text : string) : bool :=
  (String.length text =? w)%nat
  && Py.all_chars PyStr.is_digit (PyStr.take (w - p - 1) text)
  && match PyStr.index (w - p - 1) text with
     | Some c => Ascii.eqb c "."
     | None => false
     end
  && Py.all_chars PyStr.is_digit (PyStr.drop (w - p) text).

(** The float [-0.0], the one value within a range from 0 that is written
    with a sign. *)
Definition minus_zero (v : pyval) : bool :=
  match v with
  | VFloat (Ffin true 0%N _) => true
  | _ => false
  end.

(** How [-0.0] is written under [{:0w.pf}]: the sign, the fill, [0.] and
    [p] zeros. *)
Definition minus_zero_text (w p : nat) : string :=
  "-" ++ PyStr.repeat "0" (w - p - 3) ++ "0." ++ PyStr.repeat "0" p.

Definition int_format_ok (w p n : nat) : bool :=
  match Py.format_f (fixed_spec w p) (VInt (Z.of_nat n)) with
  | Ok t => is_fixed w p t
  | Raise _ => false
  end.

Definition zup6 : LambdaZup :=
  connected 1 true 6 (PyNum.float_dec false 33 0) [].

(** A text that ends in a point and [p] digits. *)
Definition ends_with_decimals (p : nat) (text : string) : bool :=
  let n := String.length text in
  (p + 1 <=? n)%nat
  && match PyStr.index (n - p - 1) text with
     | Some c => Ascii.eqb c "."
     | None => false
     end
  && Py.all_chars PyStr.is_digit (PyStr.drop (n - p) text).

Definition int_decimals_ok (n : nat) : bool :=
  match Py.format_f spec_1_2f (VInt (Z.of_nat n)) with
  | Ok t => ends_with_decimals 2 t
  | Raise _ => false
  end.

(** A 36 V unit, for contrast with [zup6]. *)
Definition zup36 : LambdaZup :=
  connected 1 true 36 (PyNum.float_dec false 12 0) [].

(** A driver at address 1 whose next line from the port is [line]. *)
Definition zup6_reading (line : string) : LambdaZup :=
  connected 1 true 6 (PyNum.float_dec false 33 0) [line].

(** ** What a pattern matches

    [Matches r w c c']: the text [w] is in the language of [r], and matching
    it turns the captured groups [c] into [c'].  A lookahead takes no text;
    the relation leaves its condition out, so it describes a superset of
    what the engine accepts. *)
Inductive Matches : Re.regex -> string -> gmap nat string -> gmap nat string -> Prop :=
| MLit p c : Matches (Re.RLit p) p c c
| MSet cs ch c : Re.in_set cs ch = true -> Matches (Re.RSet cs) (String ch "") c c
| MCat r1 r2 a b c c1 c2 :
    Matches r1 a c c1 -> Matches r2 b c1 c2 -> Matches (Re.RCat r1 r2) (a ++ b) c c2
| MOptNone r c : Matches (Re.ROpt r) "" c c
| MOptSome r a c c' : Matches r a c c' -> Matches (Re.ROpt r) a c c'
| MStar cs w c : Py.all_chars (Re.in_set cs) w = true -> Matches (Re.RStar cs) w c c
| MPlus cs ch w c :
    Re.in_set cs ch = true -> Py.all_chars (Re.in_set cs) w = true ->
    Matches (Re.RPlus cs) (String ch w) c c
| MGroup i r w c c' : Matches r w c c' -> Matches (Re.RGroup i r) w c (<[i := w]> c')
| MNotAhead r c : Matches (Re.RNotAhead r) "" c c.

(** A numeral as the float pattern takes it: optional sign, digits that may
    be missing, a point, at least one digit. *)
Definition float_shaped (g : string) : Prop :=
  exists sign ds fr,
    g = sign ++ ds ++ "." ++ fr
    /\ (sign = "" \/ sign = "+" \/ sign = "-")
    /\ Py.all_chars PyStr.is_digit ds = true
    /\ Py.all_chars PyStr.is_digit fr = true
    /\ fr <> "".

(** A register as the pattern takes it: at least one digit. *)
Definition digits_shaped (g : string) : Prop :=
  Py.all_chars PyStr.is_digit g = true /\ g <> "".

(** The composite status reply of the manual. *)
Definition status_example : string :=
  "AV5.010SV5.010AA00.00SA24.31OS00010000AL00000PS00000".

(** The driver once it has asked for the composite status and taken the
    reply line: the compiled pattern is stored, the query is out. *)
Definition status_read (always : bool) (adr : Z) (st : LambdaZup) : LambdaZup :=
  received (sent (frame always adr ":STT?;")
              (assigned "complete_status_re_prog" (VRegex complete_status_re) st)).

(** A reply whose first field has no decimal point. *)
Definition status_integer_field : string :=
  "AV5SV5.010AA00.00SA24.31OS00010000AL00000PS00000".

(** Several assignments in a row, first one first. *)
Definition assign_all (l : list (string * pyval)) (st : LambdaZup) : LambdaZup :=
  fold_left (fun st kv => assigned kv.1 kv.2 st) l st.

(** What [get_complete_status] stores on the reply of the manual. *)
Definition status_example_updates : list (string * pyval) :=
  [ ("voltage_actual", VFloat (PyNum.float_dec false 5010 3));
    ("voltage_setp", VFloat (PyNum.float_dec false 5010 3));
    ("current_actual", VFloat (PyNum.float_dec false 0 2));
    ("current_setp", VFloat (PyNum.float_dec false 2431 2));
    ("operational_status_register", VStr "00010000");
    ("alarm_status_register", VStr "00000");
    ("programming_status_register", VStr "00000");
    ("cc_cv", VBool false);
    ("foldback_armed", VBool false);
    ("auto_restart_mode", VBool false);
    ("output", VBool true);
    ("foldback_srq", VBool false);
    ("over_voltage_srq", VBool false);
    ("over_temp_srq", VBool false);
    ("alarm_active", VBool false);
    ("alarm_ovp", VBool false);
    ("alarm_otp", VBool false);
    ("alarm_ac_fail", VBool false);
    ("alarm_foldback", VBool false);
    ("alarm_prog", VBool false);
    ("prog_err_wrong_command", VBool false);
    ("prog_err_buffer_overflow", VBool false);
    ("prog_err_wrong_voltage", VBool false);
    ("prog_err_wrong_current", VBool false) ].

(** The flags of the three registers, by attribute name. *)
Definition flag_names : list string :=
  [ "cc_cv"; "foldback_armed"; "auto_restart_mode"; "output"; "foldback_srq";
    "over_voltage_srq"; "over_temp_srq"; "alarm_active";
    "alarm_ovp"; "alarm_otp"; "alarm_ac_fail"; "alarm_foldback"; "alarm_prog";
    "prog_err_wrong_command"; "prog_err_buffer_overflow";
    "prog_err_wrong_voltage"; "prog_err_wrong_current" ].

(** The last value assigned to [name] in a row of assignments. *)
Definition last_assigned (name : string) (l : list (string * pyval)) : option pyval :=
  snd <$> find (fun kv => String.eqb kv.1 name) (rev l).

(** ** Runs of several threads *)

(** The scheduler made executable: thread [t] takes its next step. *)
Definition step_fn (t : nat) (σ : Threads.state) : option Threads.state :=
  match Threads.pool σ !! t with
  | Some (a :: rest) =>
      match Threads.exec t a (Threads.locks σ) (Threads.bus σ) with
      | Some (lk', b') =>
          Some {| Threads.locks := lk'; Threads.bus := b';
                  Threads.pool := <[t := rest]> (Threads.pool σ) |}
      | None => None
      end
  | _ => None
  end.

(** A schedule is the list of the threads that step, in order. *)
Fixpoint run (schedule : list nat) (σ : Threads.state) : option Threads.state :=
  match schedule with
  | [] => Some σ
  | t :: schedule' =>
      match step_fn t σ with
      | Some σ' => run schedule' σ'
      | None => None
      end
  end.

(** What a thread did last on the port, as far as it still matters: it is
    [AfterAdr] or [AfterCmd] when the last thing on the port is its own
    address select or command. *)
Inductive mode := Idle | AfterAdr | AfterCmd.

Definition mode_of (log : list (nat * Threads.action)) (t : nat) : mode :=
  match last log with
  | Some (t', Threads.SendAdr _) => if decide (t' = t) then AfterAdr else Idle
  | Some (t', Threads.SendCmd _) => if decide (t' = t) then AfterCmd else Idle
  | _ => Idle
  end.

Definition is_after_adr (m : mode) : bool :=
  match m with AfterAdr => true | _ => false end.

Definition is_after_cmd (m : mode) : bool :=
  match m with AfterCmd => true | _ => false end.

(** A remaining program is in order for a thread that holds lock [l] [h]
    times and is in mode [m]: it only takes and releases [l], it touches
    the port only while it holds [l], an address select is followed by a
    command before the lock is released, a read follows a command, and the
    lock is free at the end. *)
Fixpoint in_order (l h : nat) (m : mode) (r : list Threads.action) : bool :=
  match r with
  | [] => (h =? 0)%nat
  | Threads.Acquire l' :: r' =>
      (l' =? l)%nat && in_order l (S h) (match h with O => Idle | S _ => m end) r'
  | Threads.Release l' :: r' =>
      (l' =? l)%nat
      && match h with
         | O => false
         | S h' => negb (is_after_adr m) && in_order l h' m r'
         end
  | Threads.Sleep :: r' => in_order l h m r'
  | Threads.SendAdr _ :: r' =>
      (0 <? h)%nat && negb (is_after_adr m) && in_order l h AfterAdr r'
  | Threads.SendCmd _ :: r' => (0 <? h)%nat && in_order l h AfterCmd r'
  | Threads.Recv :: r' => (0 <? h)%nat && is_after_cmd m && in_order l h Idle r'
  end.

(** How many times thread [t] holds lock [l]. *)
Definition holds (lk : gmap nat (nat * nat)) (l t : nat) : nat :=
  match lk !! l with
  | Some (o, n) => if decide (o = t) then n else O
  | None => O
  end.

Definition held (l : nat) (σ : Threads.state) (t : nat) : nat :=
  holds (Threads.locks σ) l t.

(** What stays true while threads that all go through one instance run. *)
Definition lock_invariant (l : nat) (σ : Threads.state) : Prop :=
  (forall t r, Threads.pool σ !! t = Some r ->
               in_order l (held l σ t) (mode_of (Threads.bus σ) t) r = true)
  /\ (forall o n, Threads.locks σ !! l = Some (o, n) -> (0 < n)%nat)
  /\ (forall t x, last (Threads.bus σ) = Some (t, Threads.SendAdr x) ->
                  (0 < held l σ t)%nat)
  /\ Threads.atomic (Threads.bus σ) = true.

(** Two instances on one port, as the initialization script makes them:
    the second is given the [Serial] object of the first. *)
Definition unit1 : Threads.driver :=
  {| Threads.inst := 1; Threads.address := 1; Threads.always_send_address := true |}.

Definition unit2 : Threads.driver :=
  {| Threads.inst := 2; Threads.address := 2; Threads.always_send_address := true |}.

(** One thread per unit, each switching its output. *)
Definition two_units : list (list Threads.call) :=
  [ [Threads.CWrite unit1 ":OUT1;"]; [Threads.CWrite unit2 ":OUT0;"] ].

(** Two threads on one instance: a setter and a query. *)
Definition two_callers : list (list Threads.call) :=
  [ [Threads.CWrite unit1 ":OUT1;"]; [Threads.CAsk unit1 ":VOL?;"] ].

(** The state a schedule leads to; the start when the schedule gets stuck. *)
Definition after (schedule : list nat) (threads : list (list Threads.call)) : Threads.state :=
  default (Threads.init threads) (run schedule (Threads.init threads)).

(** Thread 1 runs its query to the end, then thread 0 its command. *)
Definition query_then_command : list nat := [1; 1; 1; 1; 1; 1; 1; 1; 0; 0; 0; 0; 0]%nat.

(** Thread 0 selects its unit, thread 1 selects the other, thread 0 sends
    its command. *)
Definition select_select_command : list nat := [0; 0; 1; 1; 0; 0]%nat.

(** ** More vocabulary *)

(** The last character of a text is no whitespace (or the text is empty). *)
Definition no_trailing_space (s : string) : bool :=
  match PyStr.last s with
  | Some c => negb (PyStr.is_space c)
  | None => true
  end.

(** The address is written with two digits that read back as it. *)
Definition adr_text_ok (n : nat) : bool :=
  let adr := Z.of_nat n in
  match PyNum.format_int spec_02i adr with
  | String a (String b EmptyString) =>
      PyStr.is_digit a && PyStr.is_digit b
      && (PyStr.digit_val a * 10 + PyStr.digit_val b =? adr)
  | _ => false
  end.

(** The three commands of the foldback protection. *)
Definition fld_commands : list string := [":FLD1;"; ":FLD0;"; ":FLD2;"].

(** Carriage return and line feed. *)
Definition crlf : string := String "013" (String "010" EmptyString).

(** The double that [float] reads from a field of the shape
    sign, digits, point, digits. *)
Definition field_value (sign ds fr : string) : pyfloat :=
  PyNum.float_dec (String.eqb sign "-")
    (default 0 (PyStr.digits_val 0 (ds ++ fr))) (String.length fr).

(** [bool(int(reg[i]))] for a register of digits, taken as false beyond its
    end. *)
Definition flag_at (reg : string) (i : nat) : bool :=
  match PyStr.index i reg with
  | Some c => negb (Ascii.eqb c "0")
  | None => false
  end.

(** What [get_complete_status] stores when all goes well, in order. *)
Definition status_updates (f1 f2 f3 f4 : pyfloat) (os al ps : string)
  : list (string * pyval) :=
  [ ("voltage_actual", VFloat f1);
    ("voltage_setp", VFloat f2);
    ("current_actual", VFloat f3);
    ("current_setp", VFloat f4);
    ("operational_status_register", VStr os);
    ("alarm_status_register", VStr al);
    ("programming_status_register", VStr ps);
    ("cc_cv", VBool (flag_at os 0));
    ("foldback_armed", VBool (flag_at os 1));
    ("auto_restart_mode", VBool (flag_at os 2));
    ("output", VBool (flag_at os 3));
    ("foldback_srq", VBool (flag_at os 4));
    ("over_voltage_srq", VBool (flag_at os 5));
    ("over_temp_srq", VBool (flag_at os 6));
    ("alarm_active", VBool (flag_at os 7));
    ("alarm_ovp", VBool (flag_at al 0));
    ("alarm_otp", VBool (flag_at al 1));
    ("alarm_ac_fail", VBool (flag_at al 2));
    ("alarm_foldback", VBool (flag_at al 3));
    ("alarm_prog", VBool (flag_at al 4));
    ("prog_err_wrong_command", VBool (flag_at ps 1));
    ("prog_err_buffer_overflow", VBool (flag_at ps 2));
    ("prog_err_wrong_voltage", VBool (flag_at ps 3));
    ("prog_err_wrong_current", VBool (flag_at ps 4)) ].

(** A reply whose operational register has three digits only. *)
Definition status_short_register : string :=
  "AV5.010SV5.010AA00.00SA24.31OS000AL00000PS00000".

(** A unit whose revision reply named a rated voltage the table lacks. *)
Definition zup40 : LambdaZup :=
  connected 1 true 40 (PyNum.float_dec false 10 0) [].

(** A driver whose revision query has not answered yet. *)
Definition unidentified : LambdaZup :=
  {| attrs := list_to_map [ ("address", VInt 1); ("always_send_address", VBool true) ];
     ser := {| written := []; pending := [] |} |}.

(** ** Current programming *)

(** Table 5-2 as a list: rated voltage, rated current in tenths of an
    ampere, total characters, decimals. *)
Definition rated_current_formats : list ((Z * Z) * (nat * nat)) :=
  [ ((6, 330), (5%nat, 2%nat));   ((6, 660), (5%nat, 2%nat));
    ((6, 1320), (6%nat, 2%nat));  ((10, 200), (6%nat, 3%nat));
    ((10, 400), (5%nat, 2%nat));  ((10, 800), (5%nat, 2%nat));
    ((20, 100), (6%nat, 3%nat));  ((20, 200), (6%nat, 3%nat));
    ((20, 400), (5%nat, 2%nat));  ((36, 60), (5%nat, 3%nat));
    ((36, 120), (6%nat, 3%nat));  ((36, 240), (6%nat, 3%nat));
    ((60, 35), (5%nat, 3%nat));   ((60, 70), (5%nat, 3%nat));
    ((60, 140), (6%nat, 3%nat));  ((80, 25), (6%nat, 4%nat));
    ((80, 50), (5%nat, 3%nat));   ((120, 18), (6%nat, 4%nat));
    ((120, 36), (5%nat, 3%nat)) ].

(** The double of a rated current given in tenths, as [float] reads it
    from the revision reply. *)
Definition rated_current (tenths : Z) : pyfloat := PyNum.float_dec false tenths 1.

(** [0 <= v <= hi] for a number [v] and a float bound. *)
Definition within_float_bound (v : pyval) (hi : pyfloat) : bool :=
  match Py.num_of v with
  | Some x => PyNum.le (PInt 0) x && PyNum.le x (PFloat hi)
  | None => false
  end.

(** Numerals up to three digits. *)
Definition dec_shape_wide (n : nat) : bool :=
  let s := PyStr.dec (Z.of_nat n) in
  Py.all_chars PyStr.is_digit s
  && (String.length s =? (if n <? 10 then 1 else if n <? 100 then 2 else 3))%nat
  && match PyStr.digits_val 0 s with
     | Some v => v =? Z.of_nat n
     | None => false
     end.

Definition digits_of (k : Z) : nat :=
  if k <? 10 then 1%nat else if k <? 100 then 2%nat else 3%nat.

(** An int within the bound is rendered in the fixed width. *)
Definition int_current_ok (hi : pyfloat) (w p n : nat) : bool :=
  negb (within_float_bound (VInt (Z.of_nat n)) hi) || int_format_ok w p n.

(** All that the proof needs of one line of the table: [k] bounds the
    rated current, its numeral fits the width, and the ints up to [k] are
    rendered in the fixed width. *)
Definition current_model_ok (tenths : Z) (w p : nat) (k : Z) : bool :=
  match rated_current tenths with
  | Ffin false m e =>
      (PyNum.mag_num m e <=? k * PyNum.mag_den e)
      && (0 <=? k) && (k <=? 999)
      && (digits_of k + 1 + p <=? w)%nat
      && (1 <=? p)%nat
      && forallb (int_current_ok (rated_current tenths) w p) (seq 0 (S (Z.to_nat k)))
  | _ => false
  end.

(** A bound on each rated current: its integer part and one. *)
Definition current_bound (tenths : Z) : Z := tenths / 10 + 1.

(** A 60 V, 3.5 A unit. *)
Definition zup60 : LambdaZup :=
  connected 1 true 60 (PyNum.float_dec false 35 1) [].

(** ** The revision reply *)

(** A word of a reply: not empty, without whitespace and without dash. *)
Definition word_char (c : ascii) : bool :=
  negb (PyStr.is_space c) && negb (Ascii.eqb c "-").

Definition word (s : string) : bool :=
  negb (String.eqb s "") && Py.all_chars word_char s.

(** A rated current in tenths of an ampere as the reply writes it:
    [33], [3.5]. *)
Definition current_text (tenths : Z) : string :=
  if tenths mod 10 =? 0 then PyStr.dec (tenths / 10)
  else PyStr.dec (tenths / 10) ++ "." ++ PyStr.dec (tenths mod 10).

(** The line [Ver XX-YY A.B] with its end of line. *)
Definition revision_reply (ver : string) (mv tenths : Z) (rev : string) : string :=
  ver ++ " " ++ PyStr.dec mv ++ "-" ++ current_text tenths ++ " " ++ rev ++ crlf.

(** The fields [get_software_revision] cuts the next reply into. *)
Definition revision_fields (st : LambdaZup) : list string :=
  str_split (str_replace "-" " " (next_reply st)).

(** What the revision query stores for a unit of the table. *)
Definition identity (mv tenths : Z) (rev : string) : list (string * pyval) :=
  [ ("max_voltage", VInt mv);
    ("max_current", VFloat (rated_current tenths));
    ("software_revision", VStr rev) ].

(** The state after the revision query went out and its reply was read. *)
Definition revision_asked (always : bool) (adr : Z) (st : LambdaZup) : LambdaZup :=
  received (sent (frame always adr ":REV?;") st).

(** A port on which a 60 V, 3.5 A unit answers the revision query. *)
Definition port60 : Serial :=
  {| written := []; pending := [revision_reply "Ver" 60 35 "1.0"] |}.

(** A port on which nothing answers. *)
Definition silent_port : Serial := {| written := []; pending := [] |}.

(** A driver on a port where the revision reply lacks its current. *)
Definition half_reply : LambdaZup :=
  connected 1 true 6 (PyNum.float_dec false 330 1) ["Ver 36-. 1.0" ++ crlf].

(** ** Construction *)

(** The port an instance talks to. *)
Definition port_of (port : port_arg) : Serial :=
  match port with
  | PortName _ opened => opened
  | PortObject s => s
  end.

(** The instance when [__init__] reaches its first command. *)
Definition fresh (port : port_arg) (address always debug : pyval) : LambdaZup :=
  assign_all
    [ ("port", match port with PortName name _ => VStr name | PortObject _ => VNone end);
      ("address", address);
      ("debug", debug);
      ("always_send_address", always) ]
    {| attrs := ∅; ser := port_of port |}.

(** What [__init__] transmits. *)
Definition handshake (always : bool) (adr : Z) : list string :=
  (frame always adr (adr_text adr) ++ frame always adr ":REV?;")%list.

(** ** Read back *)

(** The magnitude of a finite double rounded to [p] decimals, in units of
    the last decimal. *)
Definition rounded (p : nat) (m : N) (e : Z) : Z :=
  PyNum.round_half_even (PyNum.mag_num m e * 10 ^ Z.of_nat p) (PyNum.mag_den e).

(** A unit that answers the setpoint query with the text last programmed. *)
Definition echoes (tag : string) (w p : nat) (v : pyfloat) (st : LambdaZup) : Prop :=
  hd "" (pending (ser st)) = tag ++ PyNum.format_float (fixed_spec w p) v ++ crlf.

(** A 6 V unit that echoes 2.5 V. *)
Definition zup6_echo : LambdaZup :=
  connected 1 true 6 (PyNum.float_dec false 330 1)
    ["SV" ++ PyNum.format_float (fixed_spec 5 3) (PyNum.float_dec false 25 1) ++ crlf].

(** A 60 V, 3.5 A unit that echoes 2.5 A. *)
Definition zup60_echo : LambdaZup :=
  connected 1 true 60 (PyNum.float_dec false 35 1)
    ["SA" ++ PyNum.format_float (fixed_spec 5 3) (PyNum.float_dec false 25 1) ++ crlf].

(** The queries whose reply is a tag and a number. *)
Definition float_getters : list (M pyval * (string * (string * string))) :=
  [ (get_voltage_setp, (":VOL!;", ("SV", "voltage_setp")));
    (get_voltage_actual, (":VOL?;", ("AV", "voltage_actual")));
    (get_current_setp, (":CUR!;", ("SA", "current_setp")));
    (get_current_actual, (":CUR?;", ("AA", "current_actual")));
    (get_over_voltage_protection, (":OVP?;", ("OP", "over_voltage")));
    (get_under_voltage_protection, (":UVP?;", ("UP", "under_voltage"))) ].

(** ** Remote mode *)

(** The three remote modes by name. *)
Definition remote_modes : list (string * Z) :=
  [ ("local", 0); ("non-latched", 1); ("latched", 2) ].

Definition rmt_command (d : Z) : string := ":RMT" ++ PyStr.dec d ++ ";".

(** ** Threads that run to the end *)

(** Every lock that is held is held by one of the threads. *)
Definition owners_exist (σ : Threads.state) : Prop :=
  forall l o n, Threads.locks σ !! l = Some (o, n) -> is_Some (Threads.pool σ !! o).

(** All calls of all threads have returned. *)
Definition finished (σ : Threads.state) : Prop :=
  Forall (fun r => r = []) (Threads.pool σ).

(** Thread 1 took the lock for its query and went as far as its inner
    [_write]; thread 0 waits. *)
Definition query_started : list nat := [1; 1; 1]%nat.

(** ** Lines of the port *)

(** A line of ASCII characters, which [decode] leaves as it is. *)
Definition ascii_text (s : string) : bool :=
  Py.all_chars (fun c => (nat_of_ascii c <? 128)%nat) s.

(** ** The two views of a call *)

(** What an action puts on the port. *)
Definition port_data (a : Threads.action) : list string :=
  match a with
  | Threads.SendAdr x | Threads.SendCmd x => [x]
  | _ => []
  end.

Definition sends (p : list Threads.action) : list string := flat_map port_data p.

(** How many lines a program reads. *)
Definition reads (p : list Threads.action) : nat :=
  length (filter (fun a => Threads.is_recv a = true) p).

(** How many times a program takes and releases lock [l]. *)
Definition is_acquire (l : nat) (a : Threads.action) : bool :=
  match a with Threads.Acquire l' => (l' =? l)%nat | _ => false end.

Definition is_release (l : nat) (a : Threads.action) : bool :=
  match a with Threads.Release l' => (l' =? l)%nat | _ => false end.

Definition takes (l : nat) (p : list Threads.action) : nat :=
  length (filter (fun a => is_acquire l a = true) p).

Definition releases (l : nat) (p : list Threads.action) : nat :=
  length (filter (fun a => is_release l a = true) p).

(** The driver of the thread view that stands for an instance with lock
    [l] and the given attributes. *)
Definition driver_of (l : nat) (always : bool) (adr : Z) : Threads.driver :=
  {| Threads.inst := l; Threads.address := adr; Threads.always_send_address := always |}.

(** * Properties *)

#[local] Arguments String.append !_ _ / : simpl nomatch.

(** ** Running a method step by step *)

Lemma bind_ok {A B} (m : M A) (k : A -> M B) (st st' : LambdaZup) (a : A) :
  m st = (Ok a, st') -> bind m k st = k a st'.
Proof. intros H. unfold bind. rewrite H. reflexivity. Qed.

Lemma bind_raise {A B} (m : M A) (k : A -> M B) (st st' : LambdaZup) (e : exn) :
  m st = (Raise e, st') -> bind m k st = (Raise e, st').
Proof. intros H. unfold bind. rewrite H. reflexivity. Qed.

(** ** Framing and what a call transmits *)

Lemma last_not_none (c : ascii) (s : string) : PyStr.last (String c s) <> None.
Proof.
  revert c. induction s as [|c' s IH]; intros c; [discriminate|].
  exact (IH c').
Qed.

Lemma write_unframed (cmd : string) (st : LambdaZup) :
  framed cmd = false ->
  _write cmd st = (Raise AssertionError, st) \/ _write cmd st = (Raise IndexError, st).
Proof.
  unfold framed, _write, bind, char_at_is, assert.
  destruct cmd as [|c s]; [right; reflexivity|].
  destruct (PyStr.last (String c s)) as [b|] eqn:Hb;
    [|exfalso; exact (last_not_none _ _ Hb)].
  cbn [PyStr.first]. intros H. left. unfold ret, raise.
  destruct (Ascii.eqb c ":"); simpl in *; [|reflexivity].
  rewrite H. reflexivity.
Qed.

Lemma write_ok (cmd : string) (st : LambdaZup) (always : bool) (adr : Z) :
  configured st always adr -> framed cmd = true ->
  _write cmd st = (Ok tt, sent (frame always adr cmd) st).
Proof.
  intros [Ha Hb]. unfold framed, _write, bind, char_at_is, assert, with_lock.
  destruct (PyStr.first cmd) as [a|]; [|discriminate].
  destruct (PyStr.last cmd) as [b|]; [|discriminate].
  intros H. apply andb_true_iff in H as [-> ->].
  unfold ret, getattr. rewrite Ha. cbn [Py.truthy].
  destruct always.
  - rewrite Hb. unfold lift, adr_command, ser_write, sleep, ret, sent, frame, adr_text.
    cbn [Py.format_i Py.int attrs ser written pending].
    rewrite <- app_assoc. reflexivity.
  - unfold ser_write, sent, frame. reflexivity.
Qed.

Lemma ask_unframed (cmd : string) (st : LambdaZup) :
  framed cmd = false ->
  _ask cmd st = (Raise AssertionError, st) \/ _ask cmd st = (Raise IndexError, st).
Proof.
  intros H. unfold _ask, with_lock, bind.
  destruct (write_unframed cmd st H) as [-> | ->]; [left|right]; reflexivity.
Qed.

Lemma ask_ok (cmd : string) (st : LambdaZup) (always : bool) (adr : Z) :
  configured st always adr -> framed cmd = true ->
  _ask cmd st = (Ok (next_reply (sent (frame always adr cmd) st)),
                 received (sent (frame always adr cmd) st)).
Proof.
  intros Hc Hf. unfold _ask, with_lock, bind at 1 2.
  rewrite (write_ok _ _ _ _ Hc Hf).
  unfold ser_readline, next_reply, received, ret.
  destruct (pending (ser (sent (frame always adr cmd) st))) as [|l r] eqn:Hp.
  - cbn [hd tl]. f_equal. destruct (sent _ st) as [m [w p]]. simpl in *. subst. reflexivity.
  - reflexivity.
Qed.

(** C8.  A command that does not start with [:] or does not end with [;]
    makes [_write] and [_ask] raise ([AssertionError], or [IndexError] on the
    empty string) with the driver and the port unchanged: nothing is
    transmitted, and nothing is read. *)
Theorem write_checks_framing_first (cmd : string) (st : LambdaZup) :
  framed cmd = false ->
  (_write cmd st = (Raise AssertionError, st) \/ _write cmd st = (Raise IndexError, st))
  /\ (_ask cmd st = (Raise AssertionError, st) \/ _ask cmd st = (Raise IndexError, st)).
Proof.
  intros H. split; [apply write_unframed | apply ask_unframed]; exact H.
Qed.

Lemma write_checks_framing_first_witness :
  (_write "OUT1;" zup6 = (Raise AssertionError, zup6)
   \/ _write "OUT1;" zup6 = (Raise IndexError, zup6))
  /\ (_ask "OUT1;" zup6 = (Raise AssertionError, zup6)
      \/ _ask "OUT1;" zup6 = (Raise IndexError, zup6)).
Proof.
  apply (write_checks_framing_first "OUT1;" zup6). reflexivity.
Defined.

(** ** Strings: lengths and parts of a concatenation *)

Section StringFacts.
Import PyStr.

Lemma length_app (a b : string) :
  String.length (a ++ b) = (String.length a + String.length b)%nat.
Proof. induction a as [|c a IH]; simpl; [reflexivity | now rewrite IH]. Qed.

Lemma app_assoc_s (a b c : string) : (a ++ b) ++ c = a ++ (b ++ c).
Proof. induction a as [|x a IH]; simpl; [reflexivity | now rewrite IH]. Qed.

Lemma length_repeat (c : ascii) (n : nat) : String.length (repeat c n) = n.
Proof. induction n as [|n IH]; simpl; [reflexivity | now rewrite IH]. Qed.

Lemma take_app (a b : string) : take (String.length a) (a ++ b) = a.
Proof. induction a as [|c a IH]; simpl; [now destruct b | now rewrite IH]. Qed.

Lemma drop_app (a b : string) : drop (String.length a) (a ++ b) = b.
Proof. induction a as [|c a IH]; simpl; [now destruct b | exact IH]. Qed.

Lemma index_app (a b : string) (c : ascii) :
  index (String.length a) (a ++ String c b) = Some c.
Proof. induction a as [|x a IH]; simpl; [reflexivity | exact IH]. Qed.

Lemma all_chars_app (p : ascii -> bool) (a b : string) :
  Py.all_chars p (a ++ b) = Py.all_chars p a && Py.all_chars p b.
Proof.
  induction a as [|c a IH]; simpl; [reflexivity|].
  rewrite IH. now rewrite andb_assoc.
Qed.

Lemma all_chars_repeat (p : ascii -> bool) (c : ascii) (n : nat) :
  p c = true -> Py.all_chars p (repeat c n) = true.
Proof. intros H. induction n as [|n IH]; simpl; [reflexivity | now rewrite H, IH]. Qed.

Lemma is_digit_digit_char (d : Z) : 0 <= d < 10 -> is_digit (digit_char d) = true.
Proof.
  intros H. assert (Hd : In d [0;1;2;3;4;5;6;7;8;9]) by (simpl; lia).
  simpl in Hd. decompose [or] Hd; subst; try reflexivity. contradiction.
Qed.

Lemma length_digits_fixed (p : nat) (n : Z) : String.length (digits_fixed p n) = p.
Proof.
  revert n. induction p as [|p IH]; intros n; cbn [digits_fixed]; [reflexivity|].
  rewrite length_app, IH. cbn [String.length]. lia.
Qed.

Lemma all_digits_digits_fixed (p : nat) (n : Z) :
  Py.all_chars is_digit (digits_fixed p n) = true.
Proof.
  revert n. induction p as [|p IH]; intros n; cbn [digits_fixed]; [reflexivity|].
  rewrite all_chars_app, IH. cbn [Py.all_chars].
  rewrite is_digit_digit_char; [reflexivity | apply Z.mod_pos_bound; lia].
Qed.

Lemma dec_small (z : Z) :
  0 <= z <= 120 ->
  Py.all_chars is_digit (dec z) = true
  /\ String.length (dec z) = if z <? 10 then 1%nat else if z <? 100 then 2%nat else 3%nat.
Proof.
  intros H.
  assert (Hall : forallb dec_shape (seq 0 121) = true) by (vm_compute; reflexivity).
  rewrite forallb_forall in Hall.
  specialize (Hall (Z.to_nat z)).
  unfold dec_shape in Hall. rewrite Z2Nat.id in Hall by lia.
  apply andb_true_iff in Hall as [H1 H2]; [|apply in_seq; lia].
  split; [exact H1|].
  apply Nat.eqb_eq in H2. rewrite H2.
  destruct (Z.ltb_spec z 10), (Nat.ltb_spec (Z.to_nat z) 10); try lia;
  destruct (Z.ltb_spec z 100), (Nat.ltb_spec (Z.to_nat z) 100); try lia; reflexivity.
Qed.

End StringFacts.

(** ** Rounding *)

Lemma round_half_even_bounds (n d k : Z) :
  0 <= n -> 0 < d -> n <= k * d -> 0 <= PyNum.round_half_even n d <= k.
Proof.
  intros Hn Hd Hk. unfold PyNum.round_half_even.
  pose proof (Z.div_mod n d ltac:(lia)) as Hdm.
  pose proof (Z.mod_pos_bound n d Hd) as Hm.
  assert (Hq : 0 <= n / d) by (apply Z.div_pos; lia).
  assert (Hqk : n / d <= k) by (apply Z.div_le_upper_bound; lia).
  assert (Hlt : n / d < k \/ n mod d = 0) by nia.
  destruct (Z.compare_spec (2 * (n mod d)) d) as [E|L|G].
  - destruct (Z.even (n / d)); lia.
  - lia.
  - lia.
Qed.

Lemma round_half_even_exact (a k : Z) : 0 < k -> PyNum.round_half_even (a * k) k = a.
Proof.
  intros Hk. unfold PyNum.round_half_even.
  rewrite Z.div_mul, Z.mod_mul by lia.
  destruct (Z.compare_spec (2 * 0) k); lia.
Qed.

(** ** Voltage programming *)

Lemma format_vol_template (mv : Z) (w p : nat) (v : pyval) :
  In (mv, (w, p)) rated_formats ->
  Py.num_of v <> None ->
  exists fmt_str template,
    subscript v_format_strs (VInt mv) = Ok fmt_str
    /\ PyFormat.format ":VOL{};" (VStr fmt_str) = Ok template
    /\ PyFormat.format template v =
       match Py.format_f (fixed_spec w p) v with
       | Ok t => Ok (":VOL" ++ t ++ ";")
       | Raise e => Raise e
       end.
Proof.
  intros Hin Hv. simpl in Hin.
  repeat (destruct Hin as [Hin | Hin]; [inversion Hin; subst; clear Hin|]); try contradiction.
  all: eexists; eexists; split; [vm_compute; reflexivity|]; split; [vm_compute; reflexivity|].
  all: destruct v; try (exfalso; apply Hv; reflexivity).
  all: unfold PyFormat.format.
  all: cbv [PyFormat.scan Ascii.eqb Bool.eqb andb String.append].
  all: cbv [PyFormat.render PyFormat.field].
  all: match goal with
       | |- context [PyFormat.parse_spec ?s] =>
           let r := eval vm_compute in (PyFormat.parse_spec s) in
           change (PyFormat.parse_spec s) with r
       end.
  all: unfold fixed_spec.
  all: match goal with
       | |- context [Py.format_f ?sp ?x] => destruct (Py.format_f sp x)
       end; reflexivity.
Qed.

Lemma in_range_max_voltage (v : pyval) (mv : Z) (st : LambdaZup) :
  attrs st !! "max_voltage" = Some (VInt mv) ->
  in_range v (getattr "max_voltage") st =
  (match Py.num_of v with
   | Some _ => Ok (within v mv)
   | None => Raise TypeError
   end, st).
Proof.
  intros H. unfold in_range, within, bind, lift, Py.le, getattr, ret.
  cbn [Py.num_of]. destruct (Py.num_of v) as [x|]; [|reflexivity].
  destruct (PyNum.le (PInt 0) x); [|reflexivity].
  rewrite H. reflexivity.
Qed.

Lemma is_fixed_intro (w p : nat) (a b : string) :
  (String.length a + 1 + p = w)%nat ->
  String.length b = p ->
  Py.all_chars PyStr.is_digit a = true ->
  Py.all_chars PyStr.is_digit b = true ->
  is_fixed w p (a ++ "." ++ b) = true.
Proof.
  intros Hw Hb Da Db. unfold is_fixed.
  replace (w - p - 1)%nat with (String.length a) by lia.
  replace (w - p)%nat with (String.length (a ++ ".")) by (rewrite length_app; simpl; lia).
  rewrite take_app, Da.
  change ("." ++ b) with (String "." b). rewrite index_app.
  replace (a ++ String "." b) with ((a ++ ".") ++ b) by (rewrite app_assoc_s; reflexivity).
  rewrite drop_app, Db.
  rewrite app_assoc_s, length_app. cbn [String.length String.append].
  rewrite Hb. replace (String.length a + S p)%nat with w by lia.
  rewrite Nat.eqb_refl. reflexivity.
Qed.

Lemma mag_num_nonneg (m : N) (e : Z) : 0 <= PyNum.mag_num m e.
Proof.
  unfold PyNum.mag_num. destruct (Z.leb_spec 0 e); [|lia].
  apply Z.mul_nonneg_nonneg; [lia | apply Z.pow_nonneg; lia].
Qed.

Lemma mag_den_pos (e : Z) : 0 < PyNum.mag_den e.
Proof.
  unfold PyNum.mag_den. destruct (Z.leb_spec 0 e); [lia|].
  apply Z.pow_pos_nonneg; lia.
Qed.

Lemma mag_num_zero (m : N) (e : Z) : PyNum.mag_num m e = 0 -> m = 0%N.
Proof.
  unfold PyNum.mag_num. destruct (Z.leb_spec 0 e); [|lia].
  intros Hz. apply Z.mul_eq_0 in Hz as [Hz|Hz]; [lia|].
  assert (0 < 2 ^ e) by (apply Z.pow_pos_nonneg; lia). lia.
Qed.

(** A float within [0, hi] is [-0.0] or has no sign, and its magnitude is
    at most [hi]. *)
Lemma within_float (neg : bool) (m : N) (e hi : Z) :
  within (VFloat (Ffin neg m e)) hi = true ->
  (neg = true -> m = 0%N) /\ PyNum.mag_num m e <= hi * PyNum.mag_den e.
Proof.
  unfold within. cbn [Py.num_of]. unfold PyNum.le. cbn [PyNum.ext_of PyNum.ext_of_float].
  pose proof (mag_num_nonneg m e) as Hn. pose proof (mag_den_pos e) as Hd.
  intros HH. apply andb_true_iff in HH as [H1 H2].
  apply Z.leb_le in H1. apply Z.leb_le in H2.
  destruct neg.
  - assert (PyNum.mag_num m e = 0) as Hz by lia.
    split; [intros _; exact (mag_num_zero _ _ Hz) | nia].
  - split; [discriminate | lia].
Qed.

Lemma pad_unsigned (w p : nat) (body : string) :
  PyNum.pad (fixed_spec w p) "" body
  = PyStr.repeat "0" (w - String.length body) ++ body.
Proof.
  unfold PyNum.pad, fixed_spec. cbn [PyNum.fs_zero PyNum.fs_width String.length String.append].
  rewrite Nat.sub_0_r. reflexivity.
Qed.

Lemma fixed_body_shape (p : nat) (m : N) (e hi : Z) :
  0 <= hi <= 120 ->
  PyNum.mag_num m e <= hi * PyNum.mag_den e ->
  exists ip fp,
    PyNum.fixed_body (S p) m e = ip ++ "." ++ fp
    /\ String.length fp = S p
    /\ Py.all_chars PyStr.is_digit ip = true
    /\ Py.all_chars PyStr.is_digit fp = true
    /\ (String.length ip <= if (hi <? 10)%Z then 1 else if (hi <? 100)%Z then 2 else 3)%nat
    /\ (1 <= String.length ip)%nat.
Proof.
  intros Hhi Hle. unfold PyNum.fixed_body.
  set (k := 10 ^ Z.of_nat (S p)).
  assert (Hk : 0 < k) by (apply Z.pow_pos_nonneg; lia).
  pose proof (mag_num_nonneg m e) as Hn. pose proof (mag_den_pos e) as Hd.
  set (scaled := PyNum.round_half_even (PyNum.mag_num m e * k) (PyNum.mag_den e)).
  assert (Hs : 0 <= scaled <= hi * k).
  { apply round_half_even_bounds; nia. }
  assert (Hip : 0 <= scaled / k <= hi).
  { split; [apply Z.div_pos; lia|]. apply Z.div_le_upper_bound; nia. }
  destruct (dec_small (scaled / k)) as [Hd1 Hd2]; [lia|].
  exists (PyStr.dec (scaled / k)), (PyStr.digits_fixed (S p) scaled).
  split; [reflexivity|].
  split; [apply length_digits_fixed|].
  split; [exact Hd1|].
  split; [apply all_digits_digits_fixed|].
  rewrite Hd2.
  destruct (Z.ltb_spec (scaled / k) 10), (Z.ltb_spec hi 10); try lia;
  destruct (Z.ltb_spec (scaled / k) 100), (Z.ltb_spec hi 100); lia.
Qed.

Lemma format_float_fixed (mv : Z) (w p : nat) (m : N) (e : Z) :
  In (mv, (w, p)) rated_formats ->
  PyNum.mag_num m e <= mv * PyNum.mag_den e ->
  is_fixed w p (PyNum.format_float (fixed_spec w p) (Ffin false m e)) = true.
Proof.
  intros Hin Hle. cbn [PyNum.format_float PyNum.sign_str].
  rewrite pad_unsigned. cbn [fixed_spec PyNum.fs_prec].
  simpl in Hin.
  repeat (destruct Hin as [Hin | Hin]; [inversion Hin; subst; clear Hin|]); try contradiction.
  all: match goal with
       | H : _ <= ?hi * _ |- context [PyNum.fixed_body (S ?q) ?mm ?ee] =>
           destruct (fixed_body_shape q mm ee hi ltac:(lia) H)
             as (ip & fp & -> & Hfp & Dip & Dfp & Lip & Lip1)
       end.
  all: rewrite <- app_assoc_s.
  all: apply is_fixed_intro;
       [ rewrite !length_app, length_repeat, Hfp; cbn [String.length];
         cbv [Z.ltb Z.compare Pos.compare Pos.compare_cont] in Lip; lia
       | exact Hfp
       | rewrite all_chars_app, Dip, all_chars_repeat; reflexivity
       | exact Dfp ].
Qed.

Lemma format_int_fixed (mv : Z) (w p : nat) (z : Z) :
  In (mv, (w, p)) rated_formats ->
  0 <= z <= mv ->
  exists text,
    Py.format_f (fixed_spec w p) (VInt z) = Ok text /\ is_fixed w p text = true.
Proof.
  intros Hin Hz.
  assert (Hall : forallb (fun '(mv, (w, p)) =>
                   forallb (int_format_ok w p) (seq 0 (S (Z.to_nat mv))))
                 rated_formats = true) by (vm_compute; reflexivity).
  rewrite forallb_forall in Hall. specialize (Hall _ Hin). cbv beta iota in Hall.
  rewrite forallb_forall in Hall. specialize (Hall (Z.to_nat z)).
  unfold int_format_ok in Hall. rewrite Z2Nat.id in Hall by lia.
  destruct (Py.format_f (fixed_spec w p) (VInt z)) as [t|] eqn:Ht.
  - exists t. split; [reflexivity|]. apply Hall. apply in_seq. lia.
  - exfalso. assert (false = true); [|discriminate]. apply Hall. apply in_seq. lia.
Qed.

Lemma last_app_char (s : string) (c : ascii) : PyStr.last (s ++ String c "") = Some c.
Proof.
  induction s as [|x s IH]; [reflexivity|].
  cbn [String.append PyStr.last]. rewrite IH.
  destruct (s ++ String c "") eqn:E; [|reflexivity].
  destruct s; discriminate.
Qed.

(** A verb, an argument and the terminator make a framed command. *)
Lemma framed_command (verb arg : string) :
  framed (String ":" (verb ++ arg ++ ";")) = true.
Proof.
  unfold framed. cbn [PyStr.first].
  replace (String ":" (verb ++ arg ++ ";")) with ((String ":" (verb ++ arg)) ++ ";")
    by (cbn [String.append]; rewrite app_assoc_s; reflexivity).
  rewrite last_app_char. reflexivity.
Qed.

Lemma rated_bound (mv : Z) (w p : nat) : In (mv, (w, p)) rated_formats -> 0 <= mv <= 120.
Proof.
  intros Hin. simpl in Hin.
  repeat (destruct Hin as [Hin | Hin]; [inversion Hin; lia|]). contradiction.
Qed.

(** Every value within the rated range has a rendering under the model's
    format, of the table's width and decimals unless the value is [-0.0]. *)
Lemma format_within (mv : Z) (w p : nat) (v : pyval) :
  In (mv, (w, p)) rated_formats ->
  within v mv = true ->
  exists text,
    Py.format_f (fixed_spec w p) v = Ok text
    /\ minus_zero v || is_fixed w p text = true.
Proof.
  intros Hin Hw. destruct v as [|b|z|f|s|r]; try discriminate.
  - assert (Hb : 0 <= (if b then 1 else 0) <= mv).
    { pose proof (rated_bound _ _ _ Hin).
      unfold within in Hw. cbn [Py.num_of] in Hw. unfold PyNum.le in Hw.
      cbn [PyNum.ext_of] in Hw. apply andb_true_iff in Hw as [H1 H2].
      apply Z.leb_le in H1, H2. lia. }
    destruct (format_int_fixed mv w p _ Hin Hb) as (t & Ht & Hf).
    exists t. split; [exact Ht | exact Hf].
  - assert (Hb : 0 <= z <= mv).
    { unfold within in Hw. cbn [Py.num_of] in Hw. unfold PyNum.le in Hw.
      cbn [PyNum.ext_of] in Hw. apply andb_true_iff in Hw as [H1 H2].
      apply Z.leb_le in H1, H2. lia. }
    destruct (format_int_fixed mv w p _ Hin Hb) as (t & Ht & Hf).
    exists t. split; [exact Ht | exact Hf].
  - destruct f as [|neg|neg m e].
    + discriminate.
    + destruct neg; discriminate.
    + destruct (within_float _ _ _ _ Hw) as [Hneg Hle].
      eexists. split; [reflexivity|].
      destruct neg.
      * rewrite (Hneg eq_refl). reflexivity.
      * cbn [minus_zero orb]. apply (format_float_fixed mv); assumption.
Qed.

(** What [set_voltage] transmits for a value in range, and that it
    transmits nothing for any other. *)
Lemma set_voltage_text (st : LambdaZup) (always : bool) (adr mv : Z)
        (w p : nat) (v : pyval) :
  configured st always adr ->
  attrs st !! "max_voltage" = Some (VInt mv) ->
  In (mv, (w, p)) rated_formats ->
  if within v mv then
    exists text,
      Py.format_f (fixed_spec w p) v = Ok text
      /\ minus_zero v || is_fixed w p text = true
      /\ set_voltage v st = (Ok tt, sent (frame always adr (":VOL" ++ text ++ ";")) st)
  else
    set_voltage v st = (Raise AssertionError, st)
    \/ set_voltage v st = (Raise TypeError, st).
Proof.
  intros Hc Hmv Hin.
  assert (Hrange : set_voltage v st =
            match Py.num_of v with
            | Some _ =>
                if within v mv then
                  (mv <- getattr "max_voltage" ;;
                   fmt_str <- lift (subscript v_format_strs mv) ;;
                   template <- lift (PyFormat.format ":VOL{};" (VStr fmt_str)) ;;
                   cmd <- lift (PyFormat.format template v) ;;
                   _write cmd) st
                else (Raise AssertionError, st)
            | None => (Raise TypeError, st)
            end).
  { unfold set_voltage. unfold bind at 1. rewrite (in_range_max_voltage _ _ _ Hmv).
    destruct (Py.num_of v); [|reflexivity].
    destruct (within v mv); reflexivity. }
  rewrite Hrange. clear Hrange.
  destruct (within v mv) eqn:Hw.
  - destruct (format_within _ _ _ _ Hin Hw) as (text & Ht & Hfix).
    exists text. split; [exact Ht|]. split; [exact Hfix|].
    assert (Hnum : Py.num_of v <> None).
    { unfold within in Hw. destruct (Py.num_of v); [discriminate | discriminate]. }
    destruct (format_vol_template _ _ _ v Hin Hnum) as (fs & tpl & H1 & H2 & H3).
    destruct (Py.num_of v); [|contradiction].
    unfold bind, getattr, lift. rewrite Hmv, H1, H2, H3, Ht.
    apply (write_ok _ _ _ _ Hc). apply (framed_command "VOL").
  - destruct (Py.num_of v); [left | right]; reflexivity.
Qed.

Lemma round_half_even_zero (d : Z) : 0 < d -> PyNum.round_half_even 0 d = 0.
Proof. intros H. exact (round_half_even_exact 0 d H). Qed.

(** The digits of a zero do not depend on its exponent. *)
Lemma fixed_body_zero (p : nat) (e : Z) :
  PyNum.fixed_body p 0 e
  = PyStr.dec (0 / 10 ^ Z.of_nat p)
    ++ match p with
       | O => ""
       | S _ => "." ++ PyStr.digits_fixed p 0
       end.
Proof.
  unfold PyNum.fixed_body.
  assert (Hm : PyNum.mag_num 0 e = 0).
  { unfold PyNum.mag_num. destruct (0 <=? e); reflexivity. }
  rewrite Hm. change (0 * 10 ^ Z.of_nat p) with 0.
  rewrite (round_half_even_zero _ (mag_den_pos e)). reflexivity.
Qed.

(** C1.  On a unit of a rated voltage of table 5-1, with the table's width
    [w] and decimals [p]: for a value within [0, rated voltage],
    [set_voltage] transmits exactly [:VOL], the value in fixed-point
    presentation under [{:0w.pf}], and [;] (after the address select when
    that is switched on), and for any other value it raises
    ([AssertionError], or [TypeError] for what is not a number) and leaves
    the driver and the port as they were.  The rendering has [w]
    characters, [p] of them decimals, for every value in range but one:
    the float [-0.0] passes [0 <= volt] and is written with its sign,
    [-0.000] on a 6 V unit, which is not the fixed-width numeral the table
    asks for. *)
Theorem set_voltage_command (st : LambdaZup) (always : bool) (adr mv : Z)
        (w p : nat) (v : pyval) :
  configured st always adr ->
  attrs st !! "max_voltage" = Some (VInt mv) ->
  In (mv, (w, p)) rated_formats ->
  if within v mv then
    exists text,
      Py.format_f (fixed_spec w p) v = Ok text
      /\ set_voltage v st = (Ok tt, sent (frame always adr (":VOL" ++ text ++ ";")) st)
      /\ (if minus_zero v
          then text = minus_zero_text w p /\ is_fixed w p text = false
          else is_fixed w p text = true)
  else
    set_voltage v st = (Raise AssertionError, st)
    \/ set_voltage v st = (Raise TypeError, st).
Proof.
  intros Hc Hmv Hin.
  pose proof (set_voltage_text st always adr mv w p v Hc Hmv Hin) as H.
  destruct (within v mv); [|exact H].
  destruct H as (text & Ht & Hfix & Hset).
  exists text. split; [exact Ht|]. split; [exact Hset|].
  destruct (minus_zero v) eqn:Hz; [|exact Hfix].
  destruct v as [|b|z|[|neg|[] [|m] e]|s|r]; try discriminate.
  cbn [Py.format_f Py.num_of] in Ht. injection Ht as <-.
  cbn [PyNum.format_float]. rewrite fixed_body_zero.
  clear - Hin. simpl in Hin.
  repeat (destruct Hin as [Hin | Hin]; [inversion Hin; subst; clear Hin|]);
    try contradiction.
  all: split; vm_compute; reflexivity.
Qed.

Lemma set_voltage_command_witness :
  (exists text,
     Py.format_f (fixed_spec 5 3) (VFloat (Ffin true 0 0)) = Ok text
     /\ set_voltage (VFloat (Ffin true 0 0)) zup6
        = (Ok tt, sent (frame true 1 (":VOL" ++ text ++ ";")) zup6)
     /\ text = "-0.000" /\ is_fixed 5 3 text = false)
  /\ (exists text,
        Py.format_f (fixed_spec 5 3) (VFloat (PyNum.float_dec false 5010 3)) = Ok text
        /\ set_voltage (VFloat (PyNum.float_dec false 5010 3)) zup6
           = (Ok tt, sent (frame true 1 (":VOL" ++ text ++ ";")) zup6)
        /\ is_fixed 5 3 text = true).
Proof.
  split.
  - apply (set_voltage_command zup6 true 1 6 5 3 (VFloat (Ffin true 0 0))).
    + split; vm_compute; reflexivity.
    + vm_compute; reflexivity.
    + simpl. auto.
  - apply (set_voltage_command zup6 true 1 6 5 3 (VFloat (PyNum.float_dec false 5010 3))).
    + split; vm_compute; reflexivity.
    + vm_compute; reflexivity.
    + simpl. auto.
Defined.

(** ** Protection levels *)

Lemma decimals_intro (p : nat) (a b : string) :
  String.length b = p ->
  Py.all_chars PyStr.is_digit b = true ->
  ends_with_decimals p (a ++ "." ++ b) = true.
Proof.
  intros Hb Db. unfold ends_with_decimals.
  assert (Hlen : String.length (a ++ "." ++ b) = (String.length a + 1 + p)%nat).
  { rewrite !length_app. cbn [String.length]. lia. }
  rewrite Hlen.
  replace (String.length a + 1 + p - p - 1)%nat with (String.length a) by lia.
  replace (String.length a + 1 + p - p)%nat with (String.length (a ++ "."))
    by (rewrite length_app; cbn [String.length]; lia).
  change ("." ++ b) with (String "." b). rewrite index_app.
  replace (a ++ String "." b) with ((a ++ ".") ++ b) by (rewrite app_assoc_s; reflexivity).
  rewrite drop_app, Db.
  destruct (Nat.leb_spec (p + 1) (String.length a + 1 + p)); [reflexivity | lia].
Qed.

(** Whatever the finite float, ["%1.2f"] ends in a point and two digits. *)
Lemma format_float_two_decimals (neg : bool) (m : N) (e : Z) :
  ends_with_decimals 2 (PyNum.format_float spec_1_2f (Ffin neg m e)) = true.
Proof.
  cbn [PyNum.format_float]. unfold PyNum.pad, PyNum.fixed_body.
  cbn [spec_1_2f PyNum.fs_zero PyNum.fs_width PyNum.fs_prec].
  rewrite <- !app_assoc_s. rewrite app_assoc_s.
  apply decimals_intro; [apply length_digits_fixed | apply all_digits_digits_fixed].
Qed.

Lemma format_decimals_within (mv : Z) (v : pyval) :
  0 <= mv <= 120 ->
  within v mv = true ->
  exists text,
    Py.format_f spec_1_2f v = Ok text /\ ends_with_decimals 2 text = true.
Proof.
  intros Hmv Hw.
  assert (Hint : forall z, 0 <= z <= mv ->
            exists text, Py.format_f spec_1_2f (VInt z) = Ok text
                         /\ ends_with_decimals 2 text = true).
  { intros z Hz.
    assert (Hall : forallb int_decimals_ok (seq 0 121) = true) by (vm_compute; reflexivity).
    rewrite forallb_forall in Hall. specialize (Hall (Z.to_nat z)).
    unfold int_decimals_ok in Hall. rewrite Z2Nat.id in Hall by lia.
    destruct (Py.format_f spec_1_2f (VInt z)) as [t|] eqn:Ht.
    - exists t. split; [reflexivity|]. apply Hall. apply in_seq. lia.
    - exfalso. assert (false = true); [|discriminate]. apply Hall. apply in_seq. lia. }
  destruct v as [|b|z|f|s|r]; try discriminate.
  - apply (Hint (if b then 1 else 0)).
    unfold within in Hw. cbn [Py.num_of] in Hw. unfold PyNum.le in Hw.
    cbn [PyNum.ext_of] in Hw. apply andb_true_iff in Hw as [H1 H2].
    apply Z.leb_le in H1, H2. lia.
  - apply Hint.
    unfold within in Hw. cbn [Py.num_of] in Hw. unfold PyNum.le in Hw.
    cbn [PyNum.ext_of] in Hw. apply andb_true_iff in Hw as [H1 H2].
    apply Z.leb_le in H1, H2. lia.
  - destruct f as [|neg|neg m e].
    + discriminate.
    + destruct neg; discriminate.
    + eexists. split; [reflexivity | apply format_float_two_decimals].
Qed.

Lemma protection_unfold (verb : string) (st : LambdaZup) (always : bool) (adr mv : Z)
      (v : pyval) (text : string) :
  configured st always adr ->
  attrs st !! "max_voltage" = Some (VInt mv) ->
  within v mv = true ->
  Py.format_f spec_1_2f v = Ok text ->
  (ok <- in_range v (getattr "max_voltage") ;;
   assert ok ;;;
   s <- lift (Py.format_f spec_1_2f v) ;;
   _write (String ":" (verb ++ s ++ ";"))) st
  = (Ok tt, sent (frame always adr (String ":" (verb ++ text ++ ";"))) st).
Proof.
  intros Hc Hmv Hw Ht. unfold bind at 1. rewrite (in_range_max_voltage _ _ _ Hmv).
  assert (Hnum : Py.num_of v <> None).
  { unfold within in Hw. destruct (Py.num_of v); discriminate. }
  destruct (Py.num_of v); [|contradiction]. rewrite Hw.
  unfold bind, assert, ret, lift. rewrite Ht.
  apply (write_ok _ _ _ _ Hc). apply framed_command.
Qed.

(** C9.  On a unit of any rated voltage of table 5-1 and for a value within
    [0, rated voltage], [set_over_voltage_protection] and
    [set_under_voltage_protection] transmit [:OVP] and [:UVP] followed by the
    value under ["%1.2f"] and [;]: the same text for both and for every
    model, ending in a point and two digits. *)
Theorem protection_commands_two_decimals (st : LambdaZup) (always : bool)
        (adr mv : Z) (w p : nat) (v : pyval) :
  configured st always adr ->
  attrs st !! "max_voltage" = Some (VInt mv) ->
  In (mv, (w, p)) rated_formats ->
  within v mv = true ->
  exists text,
    Py.format_f spec_1_2f v = Ok text
    /\ ends_with_decimals 2 text = true
    /\ set_over_voltage_protection v st
       = (Ok tt, sent (frame always adr (":OVP" ++ text ++ ";")) st)
    /\ set_under_voltage_protection v st
       = (Ok tt, sent (frame always adr (":UVP" ++ text ++ ";")) st).
Proof.
  intros Hc Hmv Hin Hw.
  destruct (format_decimals_within mv v (rated_bound _ _ _ Hin) Hw) as (text & Ht & Hd).
  exists text. split; [exact Ht|]. split; [exact Hd|].
  split.
  - exact (protection_unfold "OVP" st always adr mv v text Hc Hmv Hw Ht).
  - exact (protection_unfold "UVP" st always adr mv v text Hc Hmv Hw Ht).
Qed.

Lemma protection_commands_two_decimals_witness :
  exists text,
    Py.format_f spec_1_2f (VInt 5) = Ok text
    /\ ends_with_decimals 2 text = true
    /\ set_over_voltage_protection (VInt 5) zup36
       = (Ok tt, sent (frame true 1 (":OVP" ++ text ++ ";")) zup36)
    /\ set_under_voltage_protection (VInt 5) zup36
       = (Ok tt, sent (frame true 1 (":UVP" ++ text ++ ";")) zup36).
Proof.
  apply (protection_commands_two_decimals zup36 true 1 36 5 2 (VInt 5)).
  - split; vm_compute; reflexivity.
  - vm_compute; reflexivity.
  - simpl. auto 10.
  - vm_compute; reflexivity.
Defined.

(** ** Address selection *)

Lemma getattr_assigned (name : string) (v : pyval) (st : LambdaZup) :
  getattr name (assigned name v st) = (Ok v, assigned name v st).
Proof.
  unfold getattr, assigned. cbn [attrs]. rewrite lookup_insert_eq. reflexivity.
Qed.

(** An address from 1 to 31 is selected and remembered. *)
Lemma set_address_in_range (st : LambdaZup) (always : bool) (old adr : Z) :
  configured st always old ->
  0 < adr < 32 ->
  set_address (VInt adr) st
  = (Ok (VInt adr),
     assigned "address" (VInt adr) (sent (frame always old (adr_text adr)) st)).
Proof.
  intros Hc Hr. unfold set_address.
  assert (Ht : Py.truthy (VInt adr) = true).
  { cbn [Py.truthy]. destruct (Z.eqb_spec adr 0); [lia | reflexivity]. }
  rewrite Ht. cbn [negb].
  do 2 (erewrite bind_ok by reflexivity).
  replace ((0 <? adr) && (adr <? 32)) with true
    by (symmetry; apply andb_true_iff; split; apply Z.ltb_lt; lia).
  do 2 (erewrite bind_ok by reflexivity).
  erewrite bind_ok
    by exact (write_ok _ _ _ _ Hc (framed_command "ADR" (PyNum.format_int spec_02i adr))).
  do 2 (erewrite bind_ok by reflexivity).
  apply getattr_assigned.
Qed.

(** Any other int that is not 0 is rejected before anything is sent. *)
Lemma set_address_out_of_range (st : LambdaZup) (adr : Z) :
  adr < 0 \/ 32 <= adr ->
  set_address (VInt adr) st = (Raise AssertionError, st).
Proof.
  intros Hr. unfold set_address.
  assert (Ht : Py.truthy (VInt adr) = true).
  { cbn [Py.truthy]. destruct (Z.eqb_spec adr 0); [lia | reflexivity]. }
  rewrite Ht. cbn [negb].
  do 2 (erewrite bind_ok by reflexivity).
  replace ((0 <? adr) && (adr <? 32)) with false.
  - reflexivity.
  - symmetry. apply andb_false_iff.
    destruct Hr; [left; apply Z.ltb_ge | right; apply Z.ltb_ge]; lia.
Qed.

(** 0 is taken for a missing argument: the remembered address is selected
    again. *)
Lemma set_address_zero (st : LambdaZup) (always : bool) (old : Z) :
  configured st always old ->
  0 < old < 32 ->
  set_address (VInt 0) st = set_address (VInt old) st
  /\ set_address VNone st = set_address (VInt old) st.
Proof.
  intros Hc Hr.
  assert (Ht : Py.truthy (VInt old) = true).
  { cbn [Py.truthy]. destruct (Z.eqb_spec old 0); [lia | reflexivity]. }
  assert (Hg : getattr "address" st = (Ok (VInt old), st)).
  { unfold getattr. destruct Hc as [_ ->]. reflexivity. }
  unfold set_address. rewrite Ht. cbn [Py.truthy Z.eqb negb].
  split; rewrite (bind_ok _ _ _ _ _ Hg);
    symmetry; erewrite bind_ok by reflexivity; reflexivity.
Qed.

(** C3.  On a driver at address 1 that sends its address before each
    command: [set_address(32)] is rejected before anything is sent, and
    [set_address(1)] and [set_address(31)] send [:ADR01;] and [:ADR31;]
    and remember the address; but [set_address(0)] is not rejected: it
    selects the remembered address again and returns it. *)
Theorem set_address_bounds :
  (fst (set_address (VInt 0) zup6) = Ok (VInt 1)
   /\ written (ser (snd (set_address (VInt 0) zup6))) = [":ADR01;"; ":ADR01;"])
  /\ set_address (VInt 32) zup6 = (Raise AssertionError, zup6)
  /\ (fst (set_address (VInt 1) zup6) = Ok (VInt 1)
      /\ written (ser (snd (set_address (VInt 1) zup6))) = [":ADR01;"; ":ADR01;"]
      /\ attrs (snd (set_address (VInt 1) zup6)) !! "address" = Some (VInt 1))
  /\ (fst (set_address (VInt 31) zup6) = Ok (VInt 31)
      /\ written (ser (snd (set_address (VInt 31) zup6))) = [":ADR01;"; ":ADR31;"]
      /\ attrs (snd (set_address (VInt 31) zup6)) !! "address" = Some (VInt 31)).
Proof.
  repeat split; vm_compute; reflexivity.
Qed.

(** ** Foldback protection *)

Lemma set_foldback_protection_modes (st : LambdaZup) (always : bool) (adr : Z) :
  configured st always adr ->
  set_foldback_protection (VStr "arm") st = (Ok tt, sent (frame always adr ":FLD1;") st)
  /\ set_foldback_protection (VStr "release") st = (Ok tt, sent (frame always adr ":FLD0;") st)
  /\ set_foldback_protection (VStr "cancel") st = (Ok tt, sent (frame always adr ":FLD2;") st).
Proof.
  intros Hc. repeat split.
  - exact (write_ok ":FLD1;" st always adr Hc eq_refl).
  - exact (write_ok ":FLD0;" st always adr Hc eq_refl).
  - exact (write_ok ":FLD2;" st always adr Hc eq_refl).
Qed.

(** C4.  A mode that is none of the spellings of arm, release and cancel
    transmits nothing, and the call returns normally: nothing is raised. *)
Theorem set_foldback_protection_other_mode (st : LambdaZup) :
  set_foldback_protection (VInt 3) st = (Ok tt, st)
  /\ set_foldback_protection (VStr "off") st = (Ok tt, st)
  /\ set_foldback_protection VNone st = (Ok tt, st).
Proof.
  repeat split; reflexivity.
Qed.

(** ** Output state *)

Lemma next_reply_sent (l : list string) (st : LambdaZup) :
  next_reply (sent l st) = next_reply st.
Proof. reflexivity. Qed.

(** A boolean query: the reply is the tag followed by [1] or [0]; a wrong
    tag fails the assertion, anything else after the right tag is a
    [ValueError]; in both cases no attribute is written. *)
Lemma bool_query (cmd tag name : string) (st : LambdaZup) (always : bool) (adr : Z) :
  configured st always adr ->
  framed cmd = true ->
  let st' := received (sent (frame always adr cmd) st) in
  let out := next_reply st in
  (out <- _ask cmd ;;
   assert (String.eqb (PyStr.take 2 out) tag) ;;;
   (if String.eqb out (tag ++ "1") then setattr name (VBool true)
    else if String.eqb out (tag ++ "0") then setattr name (VBool false)
    else raise ValueError) ;;;
   getattr name) st
  = if negb (String.eqb (PyStr.take 2 out) tag) then (Raise AssertionError, st')
    else if String.eqb out (tag ++ "1") then (Ok (VBool true), assigned name (VBool true) st')
    else if String.eqb out (tag ++ "0") then (Ok (VBool false), assigned name (VBool false) st')
    else (Raise ValueError, st').
Proof.
  intros Hc Hf st' out.
  rewrite (bind_ok _ _ _ _ _ (ask_ok cmd st always adr Hc Hf)).
  rewrite next_reply_sent. fold out. fold st'.
  destruct (String.eqb (PyStr.take 2 out) tag); [|reflexivity].
  erewrite bind_ok by reflexivity. cbn [negb].
  destruct (String.eqb out (tag ++ "1")).
  { erewrite bind_ok by reflexivity. apply getattr_assigned. }
  destruct (String.eqb out (tag ++ "0")).
  { erewrite bind_ok by reflexivity. apply getattr_assigned. }
  reflexivity.
Qed.

(** C6.  [get_output] returns true on the reply [OT1] and false on [OT0],
    and stores what it returns; on any other reply it raises, [ValueError]
    after the tag [OT] and [AssertionError] after another tag, and stores
    nothing. *)
Theorem get_output_decodes (st : LambdaZup) (always : bool) (adr : Z) :
  configured st always adr ->
  let st' := received (sent (frame always adr ":OUT?;") st) in
  let out := next_reply st in
  if String.eqb out "OT1" then
    get_output st = (Ok (VBool true), assigned "output" (VBool true) st')
  else if String.eqb out "OT0" then
    get_output st = (Ok (VBool false), assigned "output" (VBool false) st')
  else if String.eqb (PyStr.take 2 out) "OT" then
    get_output st = (Raise ValueError, st')
  else
    get_output st = (Raise AssertionError, st').
Proof.
  intros Hc st' out. unfold get_output.
  pose proof (bool_query ":OUT?;" "OT" "output" st always adr Hc eq_refl) as H.
  cbv zeta in H. fold st' out in H. change ("OT" ++ "1") with "OT1" in H.
  change ("OT" ++ "0") with "OT0" in H. rewrite H. clear H.
  destruct (String.eqb_spec out "OT1") as [->|H1]; [reflexivity|].
  destruct (String.eqb_spec out "OT0") as [->|H0]; [reflexivity|].
  destruct (String.eqb (PyStr.take 2 out) "OT"); reflexivity.
Qed.

Lemma get_output_decodes_witness :
  get_output (zup6_reading "OT2")
  = (Raise ValueError, received (sent (frame true 1 ":OUT?;") (zup6_reading "OT2"))).
Proof.
  apply (get_output_decodes (zup6_reading "OT2") true 1).
  split; vm_compute; reflexivity.
Defined.

(** ** The matcher against the language of the pattern *)

Lemma lit_sound {R} (p s : string) (k : string -> option R) (x : R) :
  Re.lit p s k = Some x -> exists s', s = p ++ s' /\ k s' = Some x.
Proof.
  revert s. induction p as [|a p IH]; intros s H.
  - exists s. split; [reflexivity | exact H].
  - destruct s as [|c s]; [discriminate|]. cbn [Re.lit] in H.
    destruct (Ascii.eqb_spec a c) as [->|]; [|discriminate].
    destruct (IH _ H) as (s' & -> & Hk). exists s'. split; [reflexivity | exact Hk].
Qed.

Lemma star_sound {R} (cs : Re.charset) (s : string) (k : string -> option R) (x : R) :
  Re.star cs s k = Some x ->
  exists w s', s = w ++ s' /\ Py.all_chars (Re.in_set cs) w = true /\ k s' = Some x.
Proof.
  induction s as [|c s IH]; intros H.
  - exists "", "". repeat split. exact H.
  - cbn [Re.star] in H. destruct (Re.in_set cs c) eqn:Hc.
    + destruct (Re.star cs s k) as [y|] eqn:Hs.
      * injection H as ->. destruct (IH eq_refl) as (w & s' & -> & Hw & Hk).
        exists (String c w), s'. repeat split; [|exact Hk].
        cbn [Py.all_chars]. rewrite Hc, Hw. reflexivity.
      * exists "", (String c s). repeat split. exact H.
    + exists "", (String c s). repeat split. exact H.
Qed.

Lemma consumed_app (w s' : string) : Re.consumed (w ++ s') s' = w.
Proof.
  unfold Re.consumed. rewrite length_app.
  replace (String.length w + String.length s' - String.length s')%nat
    with (String.length w) by lia.
  apply take_app.
Qed.

(** Whatever the matcher accepts, it accepts by splitting off a text of the
    pattern's language and continuing on the rest with the groups of that
    match. *)
Lemma rmatch_sound (r : Re.regex) :
  forall (R : Type) (s : string) (caps : gmap nat string)
         (k : string -> gmap nat string -> option R) (x : R),
    Re.rmatch r R s caps k = Some x ->
    exists w s' caps',
      s = w ++ s' /\ Matches r w caps caps' /\ k s' caps' = Some x.
Proof.
  induction r as [p|cs|r1 IH1 r2 IH2|r1 IH1|cs|cs|i r1 IH1|r1 IH1];
    intros R s caps k x H; cbn [Re.rmatch] in H.
  - destruct (lit_sound _ _ _ _ H) as (s' & -> & Hk).
    exists p, s', caps. repeat split; [constructor | exact Hk].
  - destruct s as [|c s]; [discriminate|].
    destruct (Re.in_set cs c) eqn:Hc; [|discriminate].
    exists (String c ""), s, caps. repeat split; [constructor; exact Hc | exact H].
  - destruct (IH1 _ _ _ _ _ H) as (w1 & s1 & c1 & -> & M1 & H1).
    destruct (IH2 _ _ _ _ _ H1) as (w2 & s2 & c2 & -> & M2 & H2).
    exists (w1 ++ w2), s2, c2. repeat split.
    + symmetry. apply app_assoc_s.
    + econstructor; eassumption.
    + exact H2.
  - destruct (Re.rmatch r1 R s caps k) as [y|] eqn:Hr.
    + injection H as ->. destruct (IH1 _ _ _ _ _ Hr) as (w & s' & c' & -> & M & Hk).
      exists w, s', c'. repeat split; [apply MOptSome; exact M | exact Hk].
    + exists "", s, caps. repeat split; [constructor | exact H].
  - destruct (star_sound _ _ _ _ H) as (w & s' & -> & Hw & Hk).
    exists w, s', caps. repeat split; [constructor; exact Hw | exact Hk].
  - destruct s as [|c s]; [discriminate|].
    destruct (Re.in_set cs c) eqn:Hc; [|discriminate].
    destruct (star_sound _ _ _ _ H) as (w & s' & -> & Hw & Hk).
    exists (String c w), s', caps. repeat split; [constructor; assumption | exact Hk].
  - destruct (IH1 _ _ _ _ _ H) as (w & s' & c' & -> & M & Hk).
    rewrite consumed_app in Hk.
    exists w, s', (<[i := w]> c'). repeat split; [constructor; exact M | exact Hk].
  - destruct (Re.rmatch r1 unit s caps _); [discriminate|].
    exists "", s, caps. repeat split; [constructor | exact H].
Qed.

Lemma search_sound (r : Re.regex) (s : string) (caps : gmap nat string) :
  Re.search r s = Some caps ->
  exists pre w post, s = pre ++ w ++ post /\ Matches r w ∅ caps.
Proof.
  induction s as [|c s IH]; cbn [Re.search]; intros H.
  - destruct (Re.rmatch r _ "" ∅ _) as [y|] eqn:Hr; [|discriminate].
    injection H as ->.
    destruct (rmatch_sound _ _ _ _ _ _ Hr) as (w & s' & c' & Hs & M & Hk).
    injection Hk as ->. exists "", w, s'. split; [exact Hs | exact M].
  - destruct (Re.rmatch r _ (String c s) ∅ _) as [y|] eqn:Hr.
    + injection H as ->.
      destruct (rmatch_sound _ _ _ _ _ _ Hr) as (w & s' & c' & Hs & M & Hk).
      injection Hk as ->. exists "", w, s'. split; [exact Hs | exact M].
    + destruct (IH H) as (pre & w & post & -> & M).
      exists (String c pre), w, post. split; [reflexivity | exact M].
Qed.

Lemma Matches_lit_inv (p w : string) (c c' : gmap nat string) :
  Matches (Re.RLit p) w c c' -> w = p /\ c' = c.
Proof. intros H. inversion H; subst. split; reflexivity. Qed.

Lemma Matches_set_inv (cs : Re.charset) (w : string) (c c' : gmap nat string) :
  Matches (Re.RSet cs) w c c' ->
  exists ch, w = String ch "" /\ Re.in_set cs ch = true /\ c' = c.
Proof. intros H. inversion H; subst. eexists. repeat split. assumption. Qed.

Lemma Matches_cat_inv (r1 r2 : Re.regex) (w : string) (c c2 : gmap nat string) :
  Matches (Re.RCat r1 r2) w c c2 ->
  exists a b c1, w = a ++ b /\ Matches r1 a c c1 /\ Matches r2 b c1 c2.
Proof. intros H. inversion H; subst. eexists _, _, _. repeat split; eassumption. Qed.

Lemma Matches_opt_inv (r : Re.regex) (w : string) (c c' : gmap nat string) :
  Matches (Re.ROpt r) w c c' -> (w = "" /\ c' = c) \/ Matches r w c c'.
Proof. intros H. inversion H; subst; [left; split; reflexivity | right; assumption]. Qed.

Lemma Matches_star_inv (cs : Re.charset) (w : string) (c c' : gmap nat string) :
  Matches (Re.RStar cs) w c c' -> Py.all_chars (Re.in_set cs) w = true /\ c' = c.
Proof. intros H. inversion H; subst. split; [assumption | reflexivity]. Qed.

Lemma Matches_plus_inv (cs : Re.charset) (w : string) (c c' : gmap nat string) :
  Matches (Re.RPlus cs) w c c' ->
  Py.all_chars (Re.in_set cs) w = true /\ w <> "" /\ c' = c.
Proof.
  intros H. inversion H; subst. repeat split; [|discriminate].
  cbn [Py.all_chars]. apply andb_true_iff. split; assumption.
Qed.

Lemma Matches_group_inv (i : nat) (r : Re.regex) (w : string) (c c' : gmap nat string) :
  Matches (Re.RGroup i r) w c c' -> exists c1, Matches r w c c1 /\ c' = <[i := w]> c1.
Proof. intros H. inversion H; subst. eexists. split; [eassumption | reflexivity]. Qed.

Lemma Matches_notahead_inv (r : Re.regex) (w : string) (c c' : gmap nat string) :
  Matches (Re.RNotAhead r) w c c' -> w = "" /\ c' = c.
Proof. intros H. inversion H; subst. split; reflexivity. Qed.

Lemma in_set_digit (ch : ascii) : Re.in_set Re.digit ch = PyStr.is_digit ch.
Proof.
  unfold Re.in_set, Re.digit, PyStr.is_digit. cbn [existsb].
  rewrite orb_false_r. reflexivity.
Qed.

Lemma all_chars_ext (p q : ascii -> bool) (s : string) :
  (forall c, p c = q c) -> Py.all_chars p s = Py.all_chars q s.
Proof.
  intros H. induction s as [|c s IH]; [reflexivity|].
  cbn [Py.all_chars]. rewrite H, IH. reflexivity.
Qed.

Lemma all_digits_in_set (s : string) :
  Py.all_chars (Re.in_set Re.digit) s = Py.all_chars PyStr.is_digit s.
Proof. apply all_chars_ext, in_set_digit. Qed.

Lemma in_set_sign (ch : ascii) :
  Re.in_set [("+", "+"); ("-", "-")]%char ch = true -> ch = "+"%char \/ ch = "-"%char.
Proof.
  unfold Re.in_set. cbn [existsb]. rewrite orb_false_r.
  change (nat_of_ascii "+") with 43%nat. change (nat_of_ascii "-") with 45%nat.
  intros H. apply orb_true_iff in H.
  assert (Hn : nat_of_ascii ch = 43%nat \/ nat_of_ascii ch = 45%nat).
  { destruct H as [H|H]; apply andb_true_iff in H as [H1 H2];
      apply Nat.leb_le in H1, H2; lia. }
  rewrite <- (ascii_nat_embedding ch).
  destruct Hn as [-> | ->]; [left | right]; reflexivity.
Qed.

Lemma f_re_inv (i : nat) (w : string) (c c' : gmap nat string) :
  Matches (f_re i) w c c' -> float_shaped w /\ c' = <[i := w]> c.
Proof.
  unfold f_re. intros H.
  apply Matches_cat_inv in H as (a & b & c1 & -> & Hg & Hn).
  apply Matches_notahead_inv in Hn as [-> ->].
  apply Matches_group_inv in Hg as (c2 & Hb & ->).
  apply Matches_cat_inv in Hb as (sg & r1 & c3 & -> & Hs & Hb).
  apply Matches_cat_inv in Hb as (ds & r2 & c4 & -> & Hd & Hb).
  apply Matches_cat_inv in Hb as (pt & fr & c5 & -> & Hp & Hf).
  apply Matches_star_inv in Hd as [Hd ->].
  apply Matches_lit_inv in Hp as [-> ->].
  apply Matches_plus_inv in Hf as (Hf & Hne & ->).
  rewrite all_digits_in_set in Hd, Hf.
  assert (Hsign : (sg = "" \/ sg = "+" \/ sg = "-") /\ c3 = c).
  { apply Matches_opt_inv in Hs as [[-> ->] | Hs]; [split; auto|].
    apply Matches_set_inv in Hs as (ch & -> & Hin & ->).
    apply in_set_sign in Hin as [-> | ->]; split; auto. }
  destruct Hsign as [Hsg ->].
  assert (E : (sg ++ ds ++ "." ++ fr) ++ "" = sg ++ ds ++ "." ++ fr).
  { generalize (sg ++ ds ++ "." ++ fr). intros t. induction t as [|x t IH];
      [reflexivity | cbn [String.append]; rewrite IH; reflexivity]. }
  rewrite E. split; [|reflexivity].
  exists sg, ds, fr. repeat split; assumption.
Qed.

Lemma digits_group_inv (i : nat) (w : string) (c c' : gmap nat string) :
  Matches (Re.RGroup i (Re.RPlus Re.digit)) w c c' ->
  digits_shaped w /\ c' = <[i := w]> c.
Proof.
  intros H. apply Matches_group_inv in H as (c1 & H & ->).
  apply Matches_plus_inv in H as (Hd & Hne & ->).
  rewrite all_digits_in_set in Hd. repeat split; assumption.
Qed.

(** What the composite-status pattern can match: the seven tags in order,
    each followed by its field, and the fields are the seven groups. *)
Lemma complete_status_re_inv (w : string) (caps : gmap nat string) :
  Matches complete_status_re w ∅ caps ->
  exists g1 g2 g3 g4 d5 d6 d7,
    w = "AV" ++ g1 ++ "SV" ++ g2 ++ "AA" ++ g3 ++ "SA" ++ g4
        ++ "OS" ++ d5 ++ "AL" ++ d6 ++ "PS" ++ d7
    /\ Re.groups 7 caps = [g1; g2; g3; g4; d5; d6; d7]
    /\ float_shaped g1 /\ float_shaped g2 /\ float_shaped g3 /\ float_shaped g4
    /\ digits_shaped d5 /\ digits_shaped d6 /\ digits_shaped d7.
Proof.
  unfold complete_status_re. intros H.
  apply Matches_cat_inv in H as (t1 & w1 & c1 & -> & T & H).
  apply Matches_lit_inv in T as [-> ->].
  apply Matches_cat_inv in H as (g1 & w2 & c2 & -> & G1 & H).
  apply f_re_inv in G1 as [S1 ->].
  apply Matches_cat_inv in H as (t2 & w3 & c3 & -> & T & H).
  apply Matches_lit_inv in T as [-> ->].
  apply Matches_cat_inv in H as (g2 & w4 & c4 & -> & G2 & H).
  apply f_re_inv in G2 as [S2 ->].
  apply Matches_cat_inv in H as (t3 & w5 & c5 & -> & T & H).
  apply Matches_lit_inv in T as [-> ->].
  apply Matches_cat_inv in H as (g3 & w6 & c6 & -> & G3 & H).
  apply f_re_inv in G3 as [S3 ->].
  apply Matches_cat_inv in H as (t4 & w7 & c7 & -> & T & H).
  apply Matches_lit_inv in T as [-> ->].
  apply Matches_cat_inv in H as (g4 & w8 & c8 & -> & G4 & H).
  apply f_re_inv in G4 as [S4 ->].
  apply Matches_cat_inv in H as (t5 & w9 & c9 & -> & T & H).
  apply Matches_lit_inv in T as [-> ->].
  apply Matches_cat_inv in H as (d5 & w10 & c10 & -> & G5 & H).
  apply digits_group_inv in G5 as [S5 ->].
  apply Matches_cat_inv in H as (t6 & w11 & c11 & -> & T & H).
  apply Matches_lit_inv in T as [-> ->].
  apply Matches_cat_inv in H as (d6 & w12 & c12 & -> & G6 & H).
  apply digits_group_inv in G6 as [S6 ->].
  apply Matches_cat_inv in H as (t7 & d7 & c13 & -> & T & H).
  apply Matches_lit_inv in T as [-> ->].
  apply digits_group_inv in H as [S7 ->].
  exists g1, g2, g3, g4, d5, d6, d7.
  split; [reflexivity|]. split; [|repeat (split; [assumption|]); assumption].
  unfold Re.groups. cbn [seq map].
  repeat (rewrite lookup_insert_eq || rewrite lookup_insert_ne by lia).
  reflexivity.
Qed.

(** The groups [findall] returns are the fields of a well-shaped stretch of
    the reply. *)
Lemma findall_first_shape (s : string) (gs : list string) :
  Re.findall_first complete_status_re 7 s = Some gs ->
  exists pre g1 g2 g3 g4 d5 d6 d7 post,
    s = pre ++ ("AV" ++ g1 ++ "SV" ++ g2 ++ "AA" ++ g3 ++ "SA" ++ g4
                ++ "OS" ++ d5 ++ "AL" ++ d6 ++ "PS" ++ d7) ++ post
    /\ gs = [g1; g2; g3; g4; d5; d6; d7]
    /\ float_shaped g1 /\ float_shaped g2 /\ float_shaped g3 /\ float_shaped g4
    /\ digits_shaped d5 /\ digits_shaped d6 /\ digits_shaped d7.
Proof.
  unfold Re.findall_first. intros H.
  destruct (Re.search complete_status_re s) as [caps|] eqn:Hs; [|discriminate].
  injection H as <-.
  destruct (search_sound _ _ _ Hs) as (pre & w & post & -> & M).
  destruct (complete_status_re_inv _ _ M)
    as (g1 & g2 & g3 & g4 & d5 & d6 & d7 & -> & Hg & Hshape).
  exists pre, g1, g2, g3, g4, d5, d6, d7, post.
  split; [reflexivity|]. split; [exact Hg | exact Hshape].
Qed.

(** ** Composite status *)

Lemma configured_assigned (name : string) (v : pyval) (st : LambdaZup)
      (always : bool) (adr : Z) :
  name <> "always_send_address" -> name <> "address" ->
  configured st always adr -> configured (assigned name v st) always adr.
Proof.
  intros H1 H2 [Ha Hb]. unfold configured, assigned. cbn [attrs].
  rewrite !lookup_insert_ne by assumption. split; assumption.
Qed.

Lemma lookup_assign_all (l : list (string * pyval)) (st : LambdaZup) (name : string) :
  attrs (assign_all l st) !! name
  = match last_assigned name l with
    | Some v => Some v
    | None => attrs st !! name
    end.
Proof.
  unfold assign_all, last_assigned. revert st.
  induction l as [|[k v] l IH] using rev_ind; intros st; [reflexivity|].
  rewrite fold_left_app, rev_app_distr. cbn [fold_left rev app find fst snd].
  unfold assigned at 1. cbn [attrs fst snd].
  destruct (String.eqb_spec k name) as [->|Hne].
  - rewrite lookup_insert_eq. reflexivity.
  - rewrite lookup_insert_ne by assumption. apply IH.
Qed.

(** Up to the search: the pattern is stored, the query goes out, the reply
    is read, and the search runs on the stripped reply. *)
Lemma status_query {B} (k : option (list string) -> M B)
      (st : LambdaZup) (always : bool) (adr : Z) :
  configured st always adr ->
  attrs st !! "_complete_status_re_prog" = None ->
  (has <- hasattr "_complete_status_re_prog" ;;
   (if negb has then setattr "complete_status_re_prog" (VRegex complete_status_re)
    else ret tt) ;;;
   out <- _ask ":STT?;" ;;
   prog <- getattr "complete_status_re_prog" ;;
   found <- match prog with
            | VRegex r => ret (Re.findall_first r 7 out)
            | _ => raise AttributeError
            end ;;
   k found) st
  = k (Re.findall_first complete_status_re 7 (next_reply st))
      (status_read always adr st).
Proof.
  intros Hc Hno.
  assert (Hh : hasattr "_complete_status_re_prog" st = (Ok false, st)).
  { unfold hasattr. rewrite Hno. reflexivity. }
  rewrite (bind_ok _ _ _ _ _ Hh). cbn [negb].
  erewrite bind_ok by reflexivity.
  assert (Hc' : configured (assigned "complete_status_re_prog"
                              (VRegex complete_status_re) st) always adr)
    by (apply configured_assigned; [discriminate | discriminate | exact Hc]).
  rewrite (bind_ok _ _ _ _ _ (ask_ok ":STT?;" _ always adr Hc' eq_refl)).
  fold (status_read always adr st).
  assert (Hg : getattr "complete_status_re_prog" (status_read always adr st)
               = (Ok (VRegex complete_status_re), status_read always adr st)).
  { unfold getattr, status_read, received, sent, assigned. cbn [attrs].
    rewrite lookup_insert_eq. reflexivity. }
  rewrite (bind_ok _ _ _ _ _ Hg).
  erewrite bind_ok by reflexivity. reflexivity.
Qed.

Lemma get_complete_status_no_match (st : LambdaZup) (always : bool) (adr : Z) :
  configured st always adr ->
  attrs st !! "_complete_status_re_prog" = None ->
  Re.findall_first complete_status_re 7 (next_reply st) = None ->
  get_complete_status st = (Raise IndexError, status_read always adr st).
Proof.
  intros Hc Hno Hs. unfold get_complete_status.
  rewrite (status_query _ st always adr Hc Hno). rewrite Hs. reflexivity.
Qed.

Lemma get_complete_status_ok_inv (st st' : LambdaZup) (always : bool) (adr : Z)
      (res : list pyval) :
  configured st always adr ->
  attrs st !! "_complete_status_re_prog" = None ->
  get_complete_status st = (Ok res, st') ->
  exists gs, Re.findall_first complete_status_re 7 (next_reply st) = Some gs.
Proof.
  intros Hc Hno H.
  destruct (Re.findall_first complete_status_re 7 (next_reply st)) as [gs|] eqn:Hs.
  - exists gs. reflexivity.
  - rewrite (get_complete_status_no_match st always adr Hc Hno Hs) in H. discriminate.
Qed.

Lemma status_read_attrs (st : LambdaZup) (always : bool) (adr : Z) (name : string) :
  name <> "complete_status_re_prog" ->
  attrs (status_read always adr st) !! name = attrs st !! name.
Proof.
  intros Hne. unfold status_read, received, sent, assigned. cbn [attrs].
  apply lookup_insert_ne. congruence.
Qed.

(** C7.  When the pattern is found nowhere in the reply,
    [get_complete_status] raises [IndexError] with the query sent and the
    line consumed, and no attribute has changed but the one that holds the
    compiled pattern: no voltage, current, register or flag is updated. *)
Theorem status_no_match_no_update (st : LambdaZup) (always : bool) (adr : Z) :
  configured st always adr ->
  attrs st !! "_complete_status_re_prog" = None ->
  Re.search complete_status_re (next_reply st) = None ->
  get_complete_status st = (Raise IndexError, status_read always adr st)
  /\ forall name, name <> "complete_status_re_prog" ->
       attrs (snd (get_complete_status st)) !! name = attrs st !! name.
Proof.
  intros Hc Hno Hs.
  assert (Hf : Re.findall_first complete_status_re 7 (next_reply st) = None)
    by (unfold Re.findall_first; rewrite Hs; reflexivity).
  rewrite (get_complete_status_no_match st always adr Hc Hno Hf).
  split; [reflexivity|]. intros name Hne. cbn [snd].
  apply status_read_attrs. exact Hne.
Qed.

Lemma status_no_match_no_update_witness :
  get_complete_status (zup6_reading "AV5.010SV5.010")
  = (Raise IndexError, status_read true 1 (zup6_reading "AV5.010SV5.010"))
  /\ forall name, name <> "complete_status_re_prog" ->
       attrs (snd (get_complete_status (zup6_reading "AV5.010SV5.010"))) !! name
       = attrs (zup6_reading "AV5.010SV5.010") !! name.
Proof.
  apply (status_no_match_no_update (zup6_reading "AV5.010SV5.010") true 1).
  - split; vm_compute; reflexivity.
  - vm_compute; reflexivity.
  - vm_compute; reflexivity.
Defined.

(** C10.  Whenever [get_complete_status] returns, the reply contains the
    seven tags in order and each of the four fields after [AV], [SV], [AA]
    and [SA] is an optional sign, digits, a point and at least one digit;
    and on the reply [AV5SV5.010AA00.00SA24.31OS00010000AL00000PS00000],
    whose first field has no point, it raises [IndexError]. *)
Theorem status_float_fields_need_point (st : LambdaZup) (always : bool) (adr : Z) :
  configured st always adr ->
  attrs st !! "_complete_status_re_prog" = None ->
  (forall res st', get_complete_status st = (Ok res, st') ->
     exists pre g1 g2 g3 g4 d5 d6 d7 post,
       next_reply st
       = pre ++ ("AV" ++ g1 ++ "SV" ++ g2 ++ "AA" ++ g3 ++ "SA" ++ g4
                 ++ "OS" ++ d5 ++ "AL" ++ d6 ++ "PS" ++ d7) ++ post
       /\ float_shaped g1 /\ float_shaped g2 /\ float_shaped g3 /\ float_shaped g4)
  /\ (next_reply st = status_integer_field ->
      get_complete_status st = (Raise IndexError, status_read always adr st)).
Proof.
  intros Hc Hno. split.
  - intros res st' H.
    destruct (get_complete_status_ok_inv st st' always adr res Hc Hno H) as [gs Hgs].
    destruct (findall_first_shape _ _ Hgs)
      as (pre & g1 & g2 & g3 & g4 & d5 & d6 & d7 & post & E & _ & S1 & S2 & S3 & S4 & _).
    exists pre, g1, g2, g3, g4, d5, d6, d7, post.
    repeat (split; [assumption|]). assumption.
  - intros E. apply (get_complete_status_no_match st always adr Hc Hno).
    rewrite E. vm_compute. reflexivity.
Qed.

Lemma status_float_fields_need_point_witness :
  (forall res st',
     get_complete_status (zup6_reading status_integer_field) = (Ok res, st') ->
     exists pre g1 g2 g3 g4 d5 d6 d7 post,
       next_reply (zup6_reading status_integer_field)
       = pre ++ ("AV" ++ g1 ++ "SV" ++ g2 ++ "AA" ++ g3 ++ "SA" ++ g4
                 ++ "OS" ++ d5 ++ "AL" ++ d6 ++ "PS" ++ d7) ++ post
       /\ float_shaped g1 /\ float_shaped g2 /\ float_shaped g3 /\ float_shaped g4)
  /\ (next_reply (zup6_reading status_integer_field) = status_integer_field ->
      get_complete_status (zup6_reading status_integer_field)
      = (Raise IndexError, status_read true 1 (zup6_reading status_integer_field))).
Proof.
  apply (status_float_fields_need_point (zup6_reading status_integer_field) true 1).
  - split; vm_compute; reflexivity.
  - vm_compute; reflexivity.
Defined.

Lemma set_float_ok (name s : string) (f : pyfloat) (st : LambdaZup) :
  Py.float_of_str s = Ok f ->
  set_float name s st = (Ok tt, assigned name (VFloat f) st).
Proof. intros H. unfold set_float. rewrite H. reflexivity. Qed.

Lemma set_bit_ok (name reg : string) (i : nat) (c : ascii) (z : Z) (st : LambdaZup) :
  PyStr.index i reg = Some c ->
  Py.int (VStr (String c "")) = Ok z ->
  set_bit name reg i st = (Ok tt, assigned name (VBool (negb (z =? 0))) st).
Proof. intros Hi Hz. unfold set_bit. rewrite Hi, Hz. reflexivity. Qed.

Lemma getattr_ok (name : string) (v : pyval) (st : LambdaZup) :
  attrs st !! name = Some v -> getattr name st = (Ok v, st).
Proof. intros H. unfold getattr. rewrite H. reflexivity. Qed.

Lemma getattr_assign_all (name : string) (v : pyval) (l : list (string * pyval))
      (st : LambdaZup) :
  last_assigned name l = Some v ->
  getattr name (assign_all l st) = (Ok v, assign_all l st).
Proof.
  intros H. apply getattr_ok. rewrite lookup_assign_all, H. reflexivity.
Qed.

(** C2.  On the reply of the manual,
    [AV5.010SV5.010AA00.00SA24.31OS00010000AL00000PS00000],
    [get_complete_status] returns the doubles 5.010, 5.010, 0.00 and 24.31
    and the registers ["00010000"], ["00000"] and ["00000"], stores them,
    and of the seventeen flags it stores only [output] is true. *)
Theorem status_example_decoded (st : LambdaZup) (always : bool) (adr : Z) :
  configured st always adr ->
  attrs st !! "_complete_status_re_prog" = None ->
  next_reply st = status_example ->
  get_complete_status st
  = (Ok [ VFloat (PyNum.float_dec false 5010 3);
          VFloat (PyNum.float_dec false 5010 3);
          VFloat (PyNum.float_dec false 0 2);
          VFloat (PyNum.float_dec false 2431 2);
          VStr "00010000"; VStr "00000"; VStr "00000" ],
     assign_all status_example_updates (status_read always adr st))
  /\ Forall (fun name =>
               attrs (snd (get_complete_status st)) !! name
               = Some (VBool (String.eqb name "output")))
            flag_names.
Proof.
  intros Hc Hno E.
  assert (Hrun : get_complete_status st
    = (Ok [ VFloat (PyNum.float_dec false 5010 3);
            VFloat (PyNum.float_dec false 5010 3);
            VFloat (PyNum.float_dec false 0 2);
            VFloat (PyNum.float_dec false 2431 2);
            VStr "00010000"; VStr "00000"; VStr "00000" ],
       assign_all status_example_updates (status_read always adr st))).
  { unfold get_complete_status.
    rewrite (status_query _ st always adr Hc Hno). rewrite E.
    replace (Re.findall_first complete_status_re 7 status_example)
      with (Some ["5.010"; "5.010"; "00.00"; "24.31"; "00010000"; "00000"; "00000"])
      by (vm_compute; reflexivity).
    generalize (status_read always adr st). intros st2.
    do 4 (erewrite bind_ok by (apply set_float_ok; vm_compute; reflexivity)).
    do 3 (erewrite bind_ok by reflexivity).
    do 17 (erewrite bind_ok
             by (eapply set_bit_ok; [reflexivity | vm_compute; reflexivity])).
    change (assigned "prog_err_wrong_current" _ _)
      with (assign_all status_example_updates st2).
    do 7 (erewrite bind_ok by (apply getattr_assign_all; reflexivity)).
    reflexivity. }
  split; [exact Hrun|].
  rewrite Hrun. cbn [snd]. unfold flag_names.
  repeat constructor; rewrite lookup_assign_all; reflexivity.
Qed.

Lemma status_example_decoded_witness :
  get_complete_status (zup6_reading status_example)
  = (Ok [ VFloat (PyNum.float_dec false 5010 3);
          VFloat (PyNum.float_dec false 5010 3);
          VFloat (PyNum.float_dec false 0 2);
          VFloat (PyNum.float_dec false 2431 2);
          VStr "00010000"; VStr "00000"; VStr "00000" ],
     assign_all status_example_updates (status_read true 1 (zup6_reading status_example)))
  /\ Forall (fun name =>
               attrs (snd (get_complete_status (zup6_reading status_example))) !! name
               = Some (VBool (String.eqb name "output")))
            flag_names.
Proof.
  apply (status_example_decoded (zup6_reading status_example) true 1).
  - split; vm_compute; reflexivity.
  - vm_compute; reflexivity.
  - vm_compute; reflexivity.
Defined.

(** ** Threads *)

Lemma step_fn_step (t : nat) (σ σ' : Threads.state) :
  step_fn t σ = Some σ' -> Threads.step σ σ'.
Proof.
  unfold step_fn. intros H.
  destruct (Threads.pool σ !! t) as [[|a rest]|] eqn:Hp; try discriminate.
  destruct (Threads.exec t a (Threads.locks σ) (Threads.bus σ)) as [[lk' b']|] eqn:He;
    [|discriminate].
  injection H as <-. exact (Threads.step_thread σ t a rest lk' b' Hp He).
Qed.

Lemma run_reachable (schedule : list nat) (σ σ' : Threads.state) :
  run schedule σ = Some σ' -> Threads.reachable σ σ'.
Proof.
  revert σ. induction schedule as [|t sch IH]; intros σ H; cbn [run] in H.
  - injection H as ->. apply rtc_refl.
  - destruct (step_fn t σ) as [σ1|] eqn:Hs; [|discriminate].
    eapply rtc_l; [exact (step_fn_step _ _ _ Hs) | apply IH; exact H].
Qed.


Lemma in_order_zero_mode (l : nat) (m m' : mode) (r : list Threads.action) :
  in_order l 0 m r = in_order l 0 m' r.
Proof.
  induction r as [|a r IH]; [reflexivity|].
  destruct a; cbn [in_order]; try reflexivity. exact IH.
Qed.

Lemma in_order_idle_cmd (l : nat) (r : list Threads.action) :
  forall h, in_order l h Idle r = true -> in_order l h AfterCmd r = true.
Proof.
  induction r as [|a r IH]; intros h H; [exact H|].
  destruct a; cbn [in_order] in *.
  - apply andb_true_iff in H as [H1 H2]. rewrite H1. destruct h; [exact H2 | apply IH, H2].
  - apply andb_true_iff in H as [H1 H2]. rewrite H1. destruct h; [discriminate|].
    cbn [is_after_adr negb andb] in *. apply IH, H2.
  - exact H.
  - exact H.
  - apply IH, H.
  - rewrite andb_false_r in H. discriminate.
Qed.

Lemma atomic_from_snoc (log : list (nat * Threads.action)) (y x : nat * Threads.action) :
  Threads.atomic_from y (log ++ [x])
  = Threads.atomic_from y log && Threads.follows (default y (last log)) x.
Proof.
  revert y. induction log as [|z log IH]; intros y.
  - cbn. rewrite andb_true_r. reflexivity.
  - cbn [app Threads.atomic_from]. rewrite IH, andb_assoc. f_equal.
    destruct log as [|z' log]; [reflexivity|]. rewrite last_cons_cons.
    destruct (last (z' :: log)) eqn:E; [reflexivity|].
    apply last_None in E. discriminate.
Qed.

Lemma atomic_snoc (log : list (nat * Threads.action)) (x : nat * Threads.action) :
  Threads.atomic (log ++ [x])
  = Threads.atomic log
    && match last log with
       | Some y => Threads.follows y x
       | None => negb (Threads.is_recv x.2)
       end.
Proof.
  destruct log as [|y log]; [cbn; rewrite andb_true_r; reflexivity|].
  cbn [app Threads.atomic]. rewrite atomic_from_snoc, andb_assoc. f_equal.
  destruct log as [|z log]; [reflexivity|]. rewrite last_cons_cons.
  destruct (last (z :: log)) eqn:E; [reflexivity|].
  apply last_None in E. discriminate.
Qed.

Lemma holds_exclusive (lk : gmap nat (nat * nat)) (l t t' : nat) :
  (0 < holds lk l t)%nat -> t' <> t -> holds lk l t' = O.
Proof.
  unfold holds. destruct (lk !! l) as [[o n]|]; [|reflexivity].
  destruct (decide (o = t)) as [->|]; [|lia].
  intros _ Hne. destruct (decide (t = t')); [congruence | reflexivity].
Qed.

Lemma exec_acquire (t l' l : nat) (lk lk' : gmap nat (nat * nat))
      (b b' : list (nat * Threads.action)) :
  Threads.exec t (Threads.Acquire l') lk b = Some (lk', b') ->
  (l' =? l)%nat = true ->
  b' = b
  /\ holds lk' l t = S (holds lk l t)
  /\ (forall t', t' <> t -> holds lk' l t' = O /\ holds lk l t' = O)
  /\ (forall o n, lk' !! l = Some (o, n) -> (0 < n)%nat).
Proof.
  intros H Hl. apply Nat.eqb_eq in Hl as ->. cbn [Threads.exec] in H. unfold holds.
  destruct (lk !! l) as [[o n]|] eqn:E.
  - destruct (decide (o = t)) as [->|]; [|discriminate].
    injection H as <- <-. rewrite lookup_insert_eq.
    split; [reflexivity|]. split; [destruct (decide (t = t)); [reflexivity | congruence]|].
    split.
    + intros t' Hne. destruct (decide (t = t')); [congruence | split; reflexivity].
    + intros o n' H. injection H as <- <-. lia.
  - injection H as <- <-. rewrite lookup_insert_eq.
    split; [reflexivity|]. split; [destruct (decide (t = t)); [reflexivity | congruence]|].
    split.
    + intros t' Hne. destruct (decide (t = t')); [congruence | split; reflexivity].
    + intros o n' H. injection H as <- <-. lia.
Qed.

Lemma exec_release (t l' l : nat) (lk lk' : gmap nat (nat * nat))
      (b b' : list (nat * Threads.action)) :
  Threads.exec t (Threads.Release l') lk b = Some (lk', b') ->
  (l' =? l)%nat = true ->
  b' = b
  /\ holds lk l t = S (holds lk' l t)
  /\ (forall t', t' <> t -> holds lk' l t' = O /\ holds lk l t' = O)
  /\ (forall o n, lk' !! l = Some (o, n) -> (0 < n)%nat).
Proof.
  intros H Hl. apply Nat.eqb_eq in Hl as ->. cbn [Threads.exec] in H. unfold holds.
  destruct (lk !! l) as [[o [|n]]|] eqn:E; try discriminate.
  destruct (decide (o = t)) as [->|]; [|discriminate].
  injection H as <- <-. split; [reflexivity|].
  destruct n as [|n].
  - rewrite lookup_delete_eq. split; [reflexivity|]. split.
    + intros t' Hne. destruct (decide (t = t')); [congruence | split; reflexivity].
    + intros o n' H. discriminate.
  - rewrite lookup_insert_eq. split; [destruct (decide (t = t)); [reflexivity|congruence]|].
    split.
    + intros t' Hne. destruct (decide (t = t')); [congruence | split; reflexivity].
    + intros o n' H. injection H as <- <-. lia.
Qed.

Lemma mode_of_snoc_other (log : list (nat * Threads.action)) (t t' : nat)
      (a : Threads.action) :
  t' <> t -> mode_of (log ++ [(t, a)]) t' = Idle.
Proof.
  intros Hne. unfold mode_of. rewrite last_snoc.
  destruct a; try reflexivity; destruct (decide (t = t')); congruence.
Qed.

Lemma mode_of_after_adr (log : list (nat * Threads.action)) (t : nat) :
  mode_of log t = AfterAdr -> exists x, last log = Some (t, Threads.SendAdr x).
Proof.
  unfold mode_of. destruct (last log) as [[t' a]|]; [|discriminate].
  destruct a; try discriminate; destruct (decide (t' = t)) as [->|]; try discriminate.
  intros _. eexists. reflexivity.
Qed.

Lemma mode_of_after_cmd (log : list (nat * Threads.action)) (t : nat) :
  mode_of log t = AfterCmd -> exists x, last log = Some (t, Threads.SendCmd x).
Proof.
  unfold mode_of. destruct (last log) as [[t' a]|]; [|discriminate].
  destruct a; try discriminate; destruct (decide (t' = t)) as [->|]; try discriminate.
  intros _. eexists. reflexivity.
Qed.

(** Every program of a thread that goes through one instance is in
    order, from a free lock to a free lock. *)
Lemma call_prog_in_order (l : nat) (c : Threads.call) (m : mode) (r : list Threads.action) :
  Threads.inst (Threads.call_driver c) = l ->
  in_order l 0 m (Threads.call_prog c ++ r) = in_order l 0 Idle r.
Proof.
  intros <-. destruct c as [d cmd | d cmd];
    cbn [Threads.call_prog Threads.call_driver];
    unfold Threads.ask_prog, Threads.write_prog;
    destruct (framed cmd), (Threads.always_send_address d);
    cbn [app in_order Nat.ltb Nat.leb is_after_adr is_after_cmd negb andb];
    rewrite ?Nat.eqb_refl; cbn [andb];
    try reflexivity; apply in_order_zero_mode.
Qed.

Lemma thread_prog_in_order (l : nat) (calls : list Threads.call) :
  Forall (fun c => Threads.inst (Threads.call_driver c) = l) calls ->
  in_order l 0 Idle (Threads.thread_prog calls) = true.
Proof.
  induction 1 as [|c calls Hc _ IH]; [reflexivity|].
  unfold Threads.thread_prog. cbn [flat_map].
  rewrite (call_prog_in_order l c Idle _ Hc). exact IH.
Qed.

Lemma lock_invariant_init (l : nat) (threads : list (list Threads.call)) :
  Forall (Forall (fun c => Threads.inst (Threads.call_driver c) = l)) threads ->
  lock_invariant l (Threads.init threads).
Proof.
  intros Hall. unfold lock_invariant, Threads.init, held, holds.
  cbn [Threads.locks Threads.bus Threads.pool].
  split; [|split; [|split]].
  - intros t r Hr. rewrite lookup_empty.
    apply list_lookup_fmap_Some in Hr as (calls & -> & Hc).
    apply thread_prog_in_order.
    rewrite Forall_forall in Hall. apply Hall.
    eapply list_elem_of_lookup_2. exact Hc.
  - intros o n H. rewrite lookup_empty in H. discriminate.
  - intros t x H. discriminate.
  - reflexivity.
Qed.

Lemma lock_invariant_step (l : nat) (σ σ' : Threads.state) :
  lock_invariant l σ -> Threads.step σ σ' -> lock_invariant l σ'.
Proof.
  intros (Hord & Hpos & Hadr & Hat) Hstep.
  destruct Hstep as [σ t a rest lk' b' Hp He].
  pose proof (Hord t _ Hp) as Ht.
  assert (Hlen : (t < length (Threads.pool σ))%nat) by (eapply lookup_lt_Some; exact Hp).
  unfold lock_invariant, held in *. cbn [Threads.locks Threads.bus Threads.pool].
  assert (Hnoadr : is_after_adr (mode_of (Threads.bus σ) t) = false ->
                   (0 < holds (Threads.locks σ) l t)%nat ->
                   forall t'' x, last (Threads.bus σ) <> Some (t'', Threads.SendAdr x)).
  { intros Hm Hh t'' x Hl.
    pose proof (Hadr _ _ Hl) as Hh''.
    destruct (decide (t'' = t)) as [->|Hne].
    - unfold mode_of in Hm. rewrite Hl in Hm.
      destruct (decide (t = t)); [discriminate | congruence].
    - rewrite (holds_exclusive _ _ _ _ Hh Hne) in Hh''. lia. }
  destruct a as [l'|l'|data|data| |]; cbn [in_order] in Ht.
  - (* Acquire *)
    apply andb_true_iff in Ht as [Hl Ht].
    destruct (exec_acquire _ _ _ _ _ _ _ He Hl) as (-> & Hh & Hoth & Hpos').
    split; [|split; [|split]].
    + intros t' r Hr. destruct (decide (t' = t)) as [->|Hne].
      * rewrite list_lookup_insert_eq in Hr by exact Hlen. injection Hr as <-.
        rewrite Hh. destruct (holds (Threads.locks σ) l t) eqn:Eh; [|exact Ht].
        destruct (mode_of (Threads.bus σ) t) eqn:Em.
        -- exact Ht.
        -- apply mode_of_after_adr in Em as [x Hx]. pose proof (Hadr _ _ Hx). lia.
        -- apply in_order_idle_cmd, Ht.
      * rewrite list_lookup_insert_ne in Hr by congruence.
        destruct (Hoth t' Hne) as [-> E0]. specialize (Hord t' r Hr).
        rewrite E0 in Hord. exact Hord.
    + exact Hpos'.
    + intros t' x Hl'. pose proof (Hadr _ _ Hl') as Hh'.
      destruct (decide (t' = t)) as [->|Hne]; [rewrite Hh; lia|].
      destruct (Hoth t' Hne) as [_ E0]. lia.
    + exact Hat.
  - (* Release *)
    apply andb_true_iff in Ht as [Hl Ht].
    destruct (exec_release _ _ _ _ _ _ _ He Hl) as (-> & Hh & Hoth & Hpos').
    rewrite Hh in Ht. apply andb_true_iff in Ht as [Hm Ht].
    apply negb_true_iff in Hm.
    split; [|split; [|split]].
    + intros t' r Hr. destruct (decide (t' = t)) as [->|Hne].
      * rewrite list_lookup_insert_eq in Hr by exact Hlen. injection Hr as <-. exact Ht.
      * rewrite list_lookup_insert_ne in Hr by congruence.
        destruct (Hoth t' Hne) as [-> E0]. specialize (Hord t' r Hr).
        rewrite E0 in Hord. exact Hord.
    + exact Hpos'.
    + intros t' x Hl'. exfalso. exact (Hnoadr Hm ltac:(lia) _ _ Hl').
    + exact Hat.
  - (* SendAdr *)
    injection He as <- <-.
    apply andb_true_iff in Ht as [Ht Hr']. apply andb_true_iff in Ht as [Hh Hm].
    apply Nat.ltb_lt in Hh. apply negb_true_iff in Hm.
    split; [|split; [|split]].
    + intros t' r Hr. destruct (decide (t' = t)) as [->|Hne].
      * rewrite list_lookup_insert_eq in Hr by exact Hlen. injection Hr as <-.
        unfold mode_of. rewrite last_snoc.
        destruct (decide (t = t)); [exact Hr' | congruence].
      * rewrite list_lookup_insert_ne in Hr by congruence.
        rewrite mode_of_snoc_other by exact Hne.
        specialize (Hord t' r Hr). rewrite (holds_exclusive _ _ _ _ Hh Hne) in *.
        rewrite (in_order_zero_mode l Idle (mode_of (Threads.bus σ) t')). exact Hord.
    + exact Hpos.
    + intros t' x Hl'. rewrite last_snoc in Hl'. injection Hl' as <- <-. exact Hh.
    + rewrite atomic_snoc, Hat. cbn [andb].
      destruct (last (Threads.bus σ)) as [[t'' a'']|] eqn:El; [|reflexivity].
      unfold Threads.follows. cbn [fst snd]. rewrite andb_true_r.
      destruct a''; try reflexivity.
      exfalso. exact (Hnoadr Hm Hh _ _ eq_refl).
  - (* SendCmd *)
    injection He as <- <-.
    apply andb_true_iff in Ht as [Hh Hr']. apply Nat.ltb_lt in Hh.
    split; [|split; [|split]].
    + intros t' r Hr. destruct (decide (t' = t)) as [->|Hne].
      * rewrite list_lookup_insert_eq in Hr by exact Hlen. injection Hr as <-.
        unfold mode_of. rewrite last_snoc.
        destruct (decide (t = t)); [exact Hr' | congruence].
      * rewrite list_lookup_insert_ne in Hr by congruence.
        rewrite mode_of_snoc_other by exact Hne.
        specialize (Hord t' r Hr). rewrite (holds_exclusive _ _ _ _ Hh Hne) in *.
        rewrite (in_order_zero_mode l Idle (mode_of (Threads.bus σ) t')). exact Hord.
    + exact Hpos.
    + intros t' x Hl'. rewrite last_snoc in Hl'. discriminate.
    + rewrite atomic_snoc, Hat. cbn [andb].
      destruct (last (Threads.bus σ)) as [[t'' a'']|] eqn:El; [|reflexivity].
      unfold Threads.follows. cbn [fst snd Threads.is_cmd]. rewrite andb_true_r.
      destruct a''; try reflexivity.
      pose proof (Hadr _ _ eq_refl) as Hh''.
      destruct (decide (t'' = t)) as [->|Hne].
      * cbn [andb]. apply bool_decide_eq_true. reflexivity.
      * rewrite (holds_exclusive _ _ _ _ Hh Hne) in Hh''. lia.
  - (* Sleep *)
    injection He as <- <-.
    split; [|split; [|split]]; try assumption.
    intros t' r Hr. destruct (decide (t' = t)) as [->|Hne].
    + rewrite list_lookup_insert_eq in Hr by exact Hlen. injection Hr as <-. exact Ht.
    + rewrite list_lookup_insert_ne in Hr by congruence. apply Hord, Hr.
  - (* Recv *)
    injection He as <- <-.
    apply andb_true_iff in Ht as [Ht Hr']. apply andb_true_iff in Ht as [Hh Hm].
    apply Nat.ltb_lt in Hh.
    assert (Em : mode_of (Threads.bus σ) t = AfterCmd)
      by (destruct (mode_of (Threads.bus σ) t); [discriminate | discriminate | reflexivity]).
    apply mode_of_after_cmd in Em as [x Hx].
    split; [|split; [|split]].
    + intros t' r Hr. destruct (decide (t' = t)) as [->|Hne].
      * rewrite list_lookup_insert_eq in Hr by exact Hlen. injection Hr as <-.
        unfold mode_of. rewrite last_snoc. exact Hr'.
      * rewrite list_lookup_insert_ne in Hr by congruence.
        rewrite mode_of_snoc_other by exact Hne.
        specialize (Hord t' r Hr). rewrite (holds_exclusive _ _ _ _ Hh Hne) in *.
        rewrite (in_order_zero_mode l Idle (mode_of (Threads.bus σ) t')). exact Hord.
    + exact Hpos.
    + intros t' y Hl'. rewrite last_snoc in Hl'. discriminate.
    + rewrite atomic_snoc, Hat, Hx. cbn [andb].
      unfold Threads.follows. cbn [fst snd Threads.is_cmd andb].
      apply bool_decide_eq_true. reflexivity.
Qed.

Lemma lock_invariant_reachable (l : nat) (threads : list (list Threads.call))
      (σ : Threads.state) :
  Forall (Forall (fun c => Threads.inst (Threads.call_driver c) = l)) threads ->
  Threads.reachable (Threads.init threads) σ ->
  lock_invariant l σ.
Proof.
  intros Hall Hr. unfold Threads.reachable in Hr.
  apply (rtc_ind_r (R := Threads.step) (lock_invariant l) (Threads.init threads)).
  - apply lock_invariant_init, Hall.
  - intros σ1 σ2 _ Hs IH. exact (lock_invariant_step l σ1 σ2 IH Hs).
  - exact Hr.
Qed.

(** C5, as the code has it.  When all threads go through one instance,
    hence one lock, then in every state they can reach, whatever the
    scheduling, each address select on the port is directly followed by the
    command of the same thread, and each read of a reply directly follows
    the command of the same thread. *)
Theorem one_instance_sequences_atomic (l : nat) (threads : list (list Threads.call))
        (σ : Threads.state) :
  Forall (Forall (fun c => Threads.inst (Threads.call_driver c) = l)) threads ->
  Threads.reachable (Threads.init threads) σ ->
  Threads.atomic (Threads.bus σ) = true.
Proof.
  intros Hall Hr. apply (lock_invariant_reachable l threads σ Hall Hr).
Qed.

Lemma one_instance_sequences_atomic_witness :
  Threads.atomic (Threads.bus (after query_then_command two_callers)) = true.
Proof.
  apply (one_instance_sequences_atomic 1 two_callers).
  - repeat constructor.
  - apply (run_reachable query_then_command). vm_compute. reflexivity.
Defined.

(** C5, as the spec states it, fails: two instances on one port hold two
    locks, and the address select of the second unit can come between the
    address select and the command of the first. *)
Lemma two_instances_interleave :
  Threads.reachable (Threads.init two_units) (after select_select_command two_units)
  /\ Threads.bus (after select_select_command two_units)
     = [ (0%nat, Threads.SendAdr ":ADR01;");
         (1%nat, Threads.SendAdr ":ADR02;");
         (0%nat, Threads.SendCmd ":OUT1;") ]
  /\ Threads.atomic (Threads.bus (after select_select_command two_units)) = false.
Proof.
  split; [|split].
  - apply (run_reachable select_select_command). vm_compute. reflexivity.
  - vm_compute. reflexivity.
  - vm_compute. reflexivity.
Qed.

(** * More of the class *)

(** ** What goes over the port *)

Lemma rstrip_app_space (body ws : string) :
  Py.all_chars PyStr.is_space ws = true ->
  no_trailing_space body = true ->
  PyStr.rstrip (body ++ ws) = body.
Proof.
  intros Hws. 
  assert (Hw : PyStr.rstrip ws = "").
  { induction ws as [|c ws IH]; [reflexivity|].
    cbn [Py.all_chars] in Hws. apply andb_true_iff in Hws as [Hc Hws].
    cbn [PyStr.rstrip]. rewrite (IH Hws), Hc. reflexivity. }
  induction body as [|c body IH]; intros Hb; [exact Hw|].
  cbn [String.append PyStr.rstrip].
  destruct body as [|c' body].
  - cbn [String.append]. rewrite Hw.
    unfold no_trailing_space in Hb. cbn [PyStr.last] in Hb.
    apply negb_true_iff in Hb. rewrite Hb. reflexivity.
  - rewrite IH; [reflexivity|]. exact Hb.
Qed.

Lemma rstrip_split (s : string) :
  exists ws, s = PyStr.rstrip s ++ ws
             /\ Py.all_chars PyStr.is_space ws = true
             /\ no_trailing_space (PyStr.rstrip s) = true.
Proof.
  induction s as [|c s (ws & Hs & Hws & Hn)].
  - exists "". repeat split.
  - cbn [PyStr.rstrip]. destruct (PyStr.rstrip s) as [|c' t] eqn:E.
    + destruct (PyStr.is_space c) eqn:Hc.
      * exists (String c ws). cbn [String.append] in *. subst s.
        repeat split. cbn [Py.all_chars]. rewrite Hc, Hws. reflexivity.
      * exists ws. cbn [String.append] in *. subst s. repeat split; [exact Hws|].
        unfold no_trailing_space. cbn [PyStr.last]. rewrite Hc. reflexivity.
    + exists ws. split; [cbn [String.append]; f_equal; exact Hs|].
      split; [exact Hws|]. exact Hn.
Qed.

(** X1.  What a call puts on the port and takes from it.  For a framed command
    [_write] transmits the address select (when [always_send_address] is
    on) and then the command, and nothing else; [_ask] transmits the same,
    consumes one line, and returns that line without its trailing
    whitespace: the line is the result followed by whitespace only, and the
    result does not end in whitespace. *)
Theorem write_and_ask_traffic (cmd : string) (st : LambdaZup) (always : bool) (adr : Z) :
  configured st always adr ->
  framed cmd = true ->
  _write cmd st = (Ok tt, sent (frame always adr cmd) st)
  /\ exists reply ws,
       _ask cmd st = (Ok reply, received (sent (frame always adr cmd) st))
       /\ hd "" (pending (ser st)) = reply ++ ws
       /\ Py.all_chars PyStr.is_space ws = true
       /\ no_trailing_space reply = true.
Proof.
  intros Hc Hf. split; [exact (write_ok cmd st always adr Hc Hf)|].
  destruct (rstrip_split (hd "" (pending (ser st)))) as (ws & Hs & Hws & Hn).
  exists (PyStr.rstrip (hd "" (pending (ser st)))), ws.
  split; [exact (ask_ok cmd st always adr Hc Hf)|].
  split; [exact Hs|]. split; [exact Hws | exact Hn].
Qed.

Lemma write_and_ask_traffic_witness :
  _write ":OUT?;" (zup6_reading ("OT1" ++ crlf))
  = (Ok tt, sent (frame true 1 ":OUT?;") (zup6_reading ("OT1" ++ crlf)))
  /\ exists reply ws,
       _ask ":OUT?;" (zup6_reading ("OT1" ++ crlf))
       = (Ok reply, received (sent (frame true 1 ":OUT?;") (zup6_reading ("OT1" ++ crlf))))
       /\ hd "" (pending (ser (zup6_reading ("OT1" ++ crlf)))) = reply ++ ws
       /\ Py.all_chars PyStr.is_space ws = true
       /\ no_trailing_space reply = true.
Proof.
  apply (write_and_ask_traffic ":OUT?;" (zup6_reading ("OT1" ++ crlf)) true 1).
  - split; vm_compute; reflexivity.
  - reflexivity.
Defined.

(** ** Address selection, in general *)

Lemma adr_text_two_digits (adr : Z) :
  0 < adr < 32 ->
  exists a b,
    adr_text adr = ":ADR" ++ String a (String b ";")
    /\ PyStr.is_digit a = true /\ PyStr.is_digit b = true
    /\ PyStr.digit_val a * 10 + PyStr.digit_val b = adr.
Proof.
  intros H.
  assert (Hall : forallb adr_text_ok (seq 1 31) = true) by (vm_compute; reflexivity).
  rewrite forallb_forall in Hall. specialize (Hall (Z.to_nat adr)).
  unfold adr_text_ok in Hall. rewrite Z2Nat.id in Hall by lia.
  unfold adr_text.
  destruct (PyNum.format_int spec_02i adr) as [|a [|b [|c t]]];
    try (assert (false = true) by (apply Hall, in_seq; lia); discriminate).
  assert (Hok : PyStr.is_digit a && PyStr.is_digit b
                && (PyStr.digit_val a * 10 + PyStr.digit_val b =? adr) = true)
    by (apply Hall, in_seq; lia).
  apply andb_true_iff in Hok as [Hok H3]. apply andb_true_iff in Hok as [H1 H2].
  exists a, b. split; [reflexivity|]. split; [exact H1|]. split; [exact H2|].
  apply Z.eqb_eq. exact H3.
Qed.

(** X2.  [set_address] with an int from 1 to 31 transmits [:ADR], exactly two
    digits that read back as the address, and [;]; it returns the address,
    and afterwards the driver is configured for it. *)
Theorem set_address_selects_and_remembers (st : LambdaZup) (always : bool) (old adr : Z) :
  configured st always old ->
  0 < adr < 32 ->
  exists a b,
    set_address (VInt adr) st
    = (Ok (VInt adr),
       assigned "address" (VInt adr)
         (sent (frame always old (":ADR" ++ String a (String b ";"))) st))
    /\ PyStr.is_digit a = true /\ PyStr.is_digit b = true
    /\ PyStr.digit_val a * 10 + PyStr.digit_val b = adr
    /\ configured (snd (set_address (VInt adr) st)) always adr.
Proof.
  intros Hc Hr.
  destruct (adr_text_two_digits adr Hr) as (a & b & Ht & Ha & Hb & Hv).
  exists a, b. rewrite (set_address_in_range st always old adr Hc Hr), Ht.
  split; [reflexivity|]. split; [exact Ha|]. split; [exact Hb|]. split; [exact Hv|].
  destruct Hc as [H1 H2]. unfold configured, assigned, sent. cbn [snd attrs].
  rewrite lookup_insert_ne by discriminate. rewrite lookup_insert_eq.
  split; [exact H1 | reflexivity].
Qed.

Lemma set_address_selects_and_remembers_witness :
  exists a b,
    set_address (VInt 7) zup6
    = (Ok (VInt 7),
       assigned "address" (VInt 7)
         (sent (frame true 1 (":ADR" ++ String a (String b ";"))) zup6))
    /\ PyStr.is_digit a = true /\ PyStr.is_digit b = true
    /\ PyStr.digit_val a * 10 + PyStr.digit_val b = 7
    /\ configured (snd (set_address (VInt 7) zup6)) true 7.
Proof.
  apply (set_address_selects_and_remembers zup6 true 1 7).
  - split; vm_compute; reflexivity.
  - lia.
Defined.

(** X3.  [set_address] with a negative int or an int of 32 or more raises
    [AssertionError]; the driver and the port stay as they were. *)
Theorem set_address_rejects_out_of_range (st : LambdaZup) (adr : Z) :
  adr < 0 \/ 32 <= adr ->
  set_address (VInt adr) st = (Raise AssertionError, st).
Proof. exact (set_address_out_of_range st adr). Qed.

Lemma set_address_rejects_out_of_range_witness :
  set_address (VInt (-1)) zup6 = (Raise AssertionError, zup6).
Proof.
  apply (set_address_rejects_out_of_range zup6 (-1)). left. lia.
Defined.

(** X4.  [set_address] without an argument selects the address the driver
    remembers, and so does [set_address(0)]: 0 counts as no argument. *)
Theorem set_address_default_is_remembered (st : LambdaZup) (always : bool) (old : Z) :
  configured st always old ->
  0 < old < 32 ->
  set_address VNone st
  = (Ok (VInt old),
     assigned "address" (VInt old) (sent (frame always old (adr_text old)) st))
  /\ set_address (VInt 0) st = set_address VNone st.
Proof.
  intros Hc Hr. destruct (set_address_zero st always old Hc Hr) as [H0 Hn].
  rewrite H0, Hn. split; [|reflexivity].
  exact (set_address_in_range st always old old Hc Hr).
Qed.

Lemma set_address_default_is_remembered_witness :
  set_address VNone zup6
  = (Ok (VInt 1),
     assigned "address" (VInt 1) (sent (frame true 1 (adr_text 1)) zup6))
  /\ set_address (VInt 0) zup6 = set_address VNone zup6.
Proof.
  apply (set_address_default_is_remembered zup6 true 1).
  - split; vm_compute; reflexivity.
  - lia.
Defined.

(** ** Switches *)

(** X5.  [set_foldback_protection] never raises and never transmits more than
    one command: either nothing changes, or one of [:FLD1;], [:FLD0;] and
    [:FLD2;] goes out. *)
Theorem set_foldback_protection_sends_at_most_one (fld : pyval) (st : LambdaZup)
        (always : bool) (adr : Z) :
  configured st always adr ->
  set_foldback_protection fld st = (Ok tt, st)
  \/ exists cmd, In cmd fld_commands
                 /\ set_foldback_protection fld st = (Ok tt, sent (frame always adr cmd) st).
Proof.
  intros Hc. unfold set_foldback_protection, fld_commands.
  destruct (Py.contains [VBool true; VInt 1; VStr "arm"] fld).
  { right. exists ":FLD1;". split; [simpl; auto|]. exact (write_ok ":FLD1;" _ _ _ Hc eq_refl). }
  destruct (Py.contains [VBool false; VInt 0; VStr "release"] fld).
  { right. exists ":FLD0;". split; [simpl; auto|]. exact (write_ok ":FLD0;" _ _ _ Hc eq_refl). }
  destruct (Py.contains [VInt 2; VStr "cancel"] fld).
  { right. exists ":FLD2;". split; [simpl; auto|]. exact (write_ok ":FLD2;" _ _ _ Hc eq_refl). }
  left. reflexivity.
Qed.

Lemma set_foldback_protection_sends_at_most_one_witness :
  set_foldback_protection (VBool true) zup6 = (Ok tt, zup6)
  \/ exists cmd, In cmd fld_commands
                 /\ set_foldback_protection (VBool true) zup6
                    = (Ok tt, sent (frame true 1 cmd) zup6).
Proof.
  apply (set_foldback_protection_sends_at_most_one (VBool true) zup6 true 1).
  split; vm_compute; reflexivity.
Defined.

(** X6.  [set_output] and [set_auto_restart_mode] go by the truth value of
    their argument, whatever its type: a true value switches on ([:OUT1;],
    [:AST1;]), any other switches off ([:OUT0;], [:AST0;]); neither
    raises. *)
Theorem switches_follow_truth_value (v : pyval) (st : LambdaZup) (always : bool) (adr : Z) :
  configured st always adr ->
  set_output v st
  = (Ok tt, sent (frame always adr (if Py.truthy v then ":OUT1;" else ":OUT0;")) st)
  /\ set_auto_restart_mode v st
     = (Ok tt, sent (frame always adr (if Py.truthy v then ":AST1;" else ":AST0;")) st).
Proof.
  intros Hc. unfold set_output, set_auto_restart_mode.
  destruct (Py.truthy v); split;
    match goal with |- _write ?c _ = _ => exact (write_ok c _ _ _ Hc eq_refl) end.
Qed.

Lemma switches_follow_truth_value_witness :
  set_output (VInt 0) zup6
  = (Ok tt, sent (frame true 1 (if Py.truthy (VInt 0) then ":OUT1;" else ":OUT0;")) zup6)
  /\ set_auto_restart_mode (VInt 0) zup6
     = (Ok tt, sent (frame true 1 (if Py.truthy (VInt 0) then ":AST1;" else ":AST0;")) zup6).
Proof.
  apply (switches_follow_truth_value (VInt 0) zup6 true 1).
  split; vm_compute; reflexivity.
Defined.

(** X7.  [get_foldback_protection] and [get_auto_restart_mode] decode their
    reply as [get_output] does: a reply that does not start with the tag
    ([FD], [AS]) raises [AssertionError]; the tag followed by [1] or [0] is
    stored and returned as a bool; the tag followed by anything else raises
    [ValueError].  In the failing cases nothing is stored. *)
Theorem boolean_getters_decode (st : LambdaZup) (always : bool) (adr : Z) :
  configured st always adr ->
  let out := next_reply st in
  get_foldback_protection st
  = (let st' := received (sent (frame always adr ":FLD?;") st) in
     if negb (String.eqb (PyStr.take 2 out) "FD") then (Raise AssertionError, st')
     else if String.eqb out "FD1" then (Ok (VBool true), assigned "foldback_armed" (VBool true) st')
     else if String.eqb out "FD0" then (Ok (VBool false), assigned "foldback_armed" (VBool false) st')
     else (Raise ValueError, st'))
  /\ get_auto_restart_mode st
     = (let st' := received (sent (frame always adr ":AST?;") st) in
        if negb (String.eqb (PyStr.take 2 out) "AS") then (Raise AssertionError, st')
        else if String.eqb out "AS1" then (Ok (VBool true), assigned "auto_restart_mode" (VBool true) st')
        else if String.eqb out "AS0" then (Ok (VBool false), assigned "auto_restart_mode" (VBool false) st')
        else (Raise ValueError, st')).
Proof.
  intros Hc out. split.
  - exact (bool_query ":FLD?;" "FD" "foldback_armed" st always adr Hc eq_refl).
  - exact (bool_query ":AST?;" "AS" "auto_restart_mode" st always adr Hc eq_refl).
Qed.

Lemma boolean_getters_decode_witness :
  get_foldback_protection (zup6_reading "FD1")
  = (Ok (VBool true),
     assigned "foldback_armed" (VBool true)
       (received (sent (frame true 1 ":FLD?;") (zup6_reading "FD1"))))
  /\ get_auto_restart_mode (zup6_reading "FD1")
     = (Raise AssertionError, received (sent (frame true 1 ":AST?;") (zup6_reading "FD1"))).
Proof.
  apply (boolean_getters_decode (zup6_reading "FD1") true 1).
  split; vm_compute; reflexivity.
Defined.

(** ** Composite status, in general *)

Lemma span_digits_app (ds rest : string) :
  Py.all_chars PyStr.is_digit ds = true ->
  PyStr.is_digit (default "."%char (PyStr.first rest)) = false ->
  Py.span_digits (ds ++ rest) = (ds, rest).
Proof.
  intros Hd Hr. induction ds as [|c ds IH].
  - cbn [String.append]. destruct rest as [|c r]; [reflexivity|].
    change (PyStr.is_digit c = false) in Hr. cbn [Py.span_digits]. rewrite Hr. reflexivity.
  - cbn [Py.all_chars] in Hd. apply andb_true_iff in Hd as [Hc Hd].
    cbn [String.append Py.span_digits]. rewrite Hc, (IH Hd). reflexivity.
Qed.

Lemma digits_val_some (s : string) :
  forall acc, Py.all_chars PyStr.is_digit s = true ->
              exists n, PyStr.digits_val acc s = Some n.
Proof.
  induction s as [|c s IH]; intros acc H.
  - eexists. reflexivity.
  - cbn [Py.all_chars] in H. apply andb_true_iff in H as [Hc Hs].
    cbn [PyStr.digits_val]. rewrite Hc. apply IH, Hs.
Qed.

Lemma digit_is_plain (c : ascii) : PyStr.is_digit c = true -> Py.plain_char c = true.
Proof. intros H. unfold Py.plain_char. rewrite H. reflexivity. Qed.

Lemma digit_not_space (c : ascii) : PyStr.is_digit c = true -> PyStr.is_space c = false.
Proof.
  unfold PyStr.is_digit, PyStr.is_space. intros H.
  apply andb_true_iff in H as [H1 H2]. apply Nat.leb_le in H1, H2.
  destruct (Nat.leb_spec 9 (nat_of_ascii c)), (Nat.leb_spec (nat_of_ascii c) 13),
    (Nat.leb_spec 28 (nat_of_ascii c)), (Nat.leb_spec (nat_of_ascii c) 31),
    (Nat.eqb_spec (nat_of_ascii c) 32); try lia; reflexivity.
Qed.

Lemma all_plain_digits (s : string) :
  Py.all_chars PyStr.is_digit s = true -> Py.all_chars Py.plain_char s = true.
Proof.
  induction s as [|c s IH]; [reflexivity|]. cbn [Py.all_chars]. intros H.
  apply andb_true_iff in H as [Hc Hs]. rewrite (digit_is_plain c Hc), (IH Hs). reflexivity.
Qed.

Lemma last_app_nonempty (a b : string) : b <> "" -> PyStr.last (a ++ b) = PyStr.last b.
Proof.
  intros Hb. induction a as [|c a IH]; [reflexivity|].
  cbn [String.append PyStr.last]. rewrite IH.
  destruct (a ++ b) eqn:E; [|reflexivity].
  destruct a; [cbn in E; congruence | discriminate].
Qed.

Lemma last_all_chars (p : ascii -> bool) (s : string) (c : ascii) :
  Py.all_chars p s = true -> PyStr.last s = Some c -> p c = true.
Proof.
  induction s as [|x s IH]; [discriminate|]. cbn [Py.all_chars PyStr.last].
  intros H Hl. apply andb_true_iff in H as [Hx Hs].
  destruct s as [|y s]; [injection Hl as <-; exact Hx | exact (IH Hs Hl)].
Qed.

Lemma app_empty_r (s : string) : s ++ "" = s.
Proof. induction s as [|x t IH]; [reflexivity | cbn [String.append]; rewrite IH; reflexivity]. Qed.

Lemma rstrip_id (s : string) : no_trailing_space s = true -> PyStr.rstrip s = s.
Proof.
  intros H. rewrite <- (app_empty_r s) at 1. apply rstrip_app_space; [reflexivity | exact H].
Qed.

Lemma digit_not_num_space (c : ascii) :
  PyStr.is_digit c = true -> PyStr.is_num_space c = false.
Proof.
  unfold PyStr.is_digit, PyStr.is_num_space. intros H.
  apply andb_true_iff in H as [H1 H2]. apply Nat.leb_le in H1, H2.
  destruct (Nat.leb_spec 9 (nat_of_ascii c)), (Nat.leb_spec (nat_of_ascii c) 13),
    (Nat.eqb_spec (nat_of_ascii c) 32); try lia; reflexivity.
Qed.

Lemma num_rstrip_id (s : string) (c : ascii) :
  PyStr.last s = Some c -> PyStr.is_num_space c = false -> PyStr.num_rstrip s = s.
Proof.
  intros Hl Hc. induction s as [|x s IH]; [reflexivity|].
  cbn [PyStr.num_rstrip]. destruct s as [|y s].
  - cbn [PyStr.last] in Hl. injection Hl as ->. cbn [PyStr.num_rstrip].
    rewrite Hc. reflexivity.
  - rewrite (IH Hl). reflexivity.
Qed.

(** [float] cannot fail on a field the pattern has matched, and reads its
    digits. *)
Lemma float_of_str_shaped (sign ds fr : string) :
  (sign = "" \/ sign = "+" \/ sign = "-") ->
  Py.all_chars PyStr.is_digit ds = true ->
  Py.all_chars PyStr.is_digit fr = true ->
  fr <> "" ->
  Py.float_of_str (sign ++ ds ++ "." ++ fr) = Ok (field_value sign ds fr).
Proof.
  intros Hs Hds Hfr Hne.
  assert (Hstrip : PyStr.num_strip (sign ++ ds ++ "." ++ fr) = sign ++ ds ++ "." ++ fr).
  { unfold PyStr.num_strip.
    assert (Hl : PyStr.num_lstrip (sign ++ ds ++ "." ++ fr) = sign ++ ds ++ "." ++ fr).
    { destruct Hs as [-> | [-> | ->]]; try reflexivity.
      cbn [String.append]. destruct ds as [|c ds]; [reflexivity|].
      cbn [Py.all_chars] in Hds. apply andb_true_iff in Hds as [Hc _].
      cbn [String.append PyStr.num_lstrip]. rewrite (digit_not_num_space c Hc). reflexivity. }
    rewrite Hl.
    assert (Hlast : PyStr.last (sign ++ ds ++ "." ++ fr) = PyStr.last fr).
    { replace (sign ++ ds ++ "." ++ fr) with ((sign ++ ds ++ ".") ++ fr)
        by (rewrite !app_assoc_s; reflexivity).
      apply last_app_nonempty. exact Hne. }
    destruct (PyStr.last fr) as [c|] eqn:El.
    - apply (num_rstrip_id _ c Hlast).
      exact (digit_not_num_space c (last_all_chars _ _ _ Hfr El)).
    - destruct fr as [|x fr]; [congruence|].
      exfalso. exact (last_not_none x fr El). }
  unfold Py.float_of_str. rewrite Hstrip.
  assert (Hplain : Py.all_chars Py.plain_char (sign ++ ds ++ "." ++ fr) = true).
  { rewrite !all_chars_app, (all_plain_digits ds Hds), (all_plain_digits fr Hfr).
    destruct Hs as [-> | [-> | ->]]; reflexivity. }
  rewrite Hplain. cbn [negb].
  assert (Hsplit : Py.split_sign (sign ++ ds ++ "." ++ fr)
                   = (String.eqb sign "-", ds ++ "." ++ fr)).
  { destruct Hs as [-> | [-> | ->]]; try reflexivity.
    cbn [String.append]. destruct ds as [|c ds]; [reflexivity|].
    cbn [Py.all_chars] in Hds. apply andb_true_iff in Hds as [Hc _].
    cbn [String.append Py.split_sign].
    destruct c as [[] [] [] [] [] [] [] []]; try reflexivity; discriminate. }
  rewrite Hsplit.
  rewrite (span_digits_app ds ("." ++ fr) Hds eq_refl).
  change ("." ++ fr) with (String "." fr). cbv beta iota.
  replace (Py.span_digits fr) with (fr, "").
  2:{ rewrite <- (span_digits_app fr "" Hfr eq_refl). rewrite app_empty_r. reflexivity. }
  cbn [String.eqb negb orb].
  assert (Hne2 : String.eqb (ds ++ fr) "" = false).
  { apply String.eqb_neq. destruct ds; [exact Hne | discriminate]. }
  rewrite Hne2.
  assert (Hall : Py.all_chars PyStr.is_digit (ds ++ fr) = true)
    by (rewrite all_chars_app, Hds, Hfr; reflexivity).
  unfold field_value.
  destruct (digits_val_some (ds ++ fr) 0 Hall) as [n ->]. reflexivity.
Qed.

(** [bool(int(reg[i]))] on a register of digits. *)
Lemma set_bit_digit (name reg : string) (i : nat) (st : LambdaZup) :
  Py.all_chars PyStr.is_digit reg = true ->
  (i < String.length reg)%nat ->
  set_bit name reg i st = (Ok tt, assigned name (VBool (flag_at reg i)) st).
Proof.
  intros Hd Hi. unfold set_bit, flag_at.
  assert (Hc : exists c, PyStr.index i reg = Some c /\ PyStr.is_digit c = true).
  { revert i Hi. induction reg as [|x reg IH]; intros i Hi; [cbn in Hi; lia|].
    cbn [Py.all_chars] in Hd. apply andb_true_iff in Hd as [Hx Hd].
    destruct i as [|i]; [exists x; split; [reflexivity | exact Hx]|].
    cbn [PyStr.index]. apply (IH Hd). cbn [String.length] in Hi. lia. }
  destruct Hc as (c & -> & Hc).
  assert (Hint : Py.int (VStr (String c "")) = Ok (PyStr.digit_val c)).
  { cbn [Py.int]. unfold Py.int_of_str, PyStr.num_strip.
    cbn [PyStr.num_lstrip]. rewrite (digit_not_num_space c Hc). cbn [PyStr.num_rstrip].
    rewrite (digit_not_num_space c Hc). cbn [Py.all_chars]. rewrite (digit_is_plain c Hc).
    cbn [negb andb].
    assert (Hs : Py.split_sign (String c "") = (false, String c "")).
    { destruct c as [[] [] [] [] [] [] [] []]; try reflexivity; discriminate. }
    rewrite Hs. cbn [PyStr.digits_val]. rewrite Hc. reflexivity. }
  rewrite Hint. unfold bind, lift.
  replace (negb (PyStr.digit_val c =? 0)) with (negb (Ascii.eqb c "0")); [reflexivity|].
  f_equal. destruct c as [[] [] [] [] [] [] [] []]; try reflexivity; discriminate.
Qed.

Lemma set_bit_short (name reg : string) (i : nat) (st : LambdaZup) :
  (String.length reg <= i)%nat ->
  set_bit name reg i st = (Raise IndexError, st).
Proof.
  intros Hi. unfold set_bit.
  replace (PyStr.index i reg) with (@None ascii); [reflexivity|].
  symmetry. revert i Hi. induction reg as [|c reg IH]; intros i Hi; [destruct i; reflexivity|].
  destruct i as [|i]; [cbn in Hi; lia|]. cbn [PyStr.index]. apply IH.
  cbn [String.length] in Hi. lia.
Qed.

Lemma float_shaped_value (g : string) :
  float_shaped g -> exists f, Py.float_of_str g = Ok f.
Proof.
  intros (sign & ds & fr & -> & Hs & Hds & Hfr & Hne).
  eexists. apply float_of_str_shaped; assumption.
Qed.

(** X8.  Whenever the pattern of [get_complete_status] finds a match, its
    four number groups are read by [float] without error and its three
    registers are runs of digits; when the registers have at least 8, 5 and
    5 digits the call returns the seven values and stores them together
    with the seventeen flags, each flag the digit of its position being
    other than [0]. *)
Theorem status_decoded_in_general (st : LambdaZup) (always : bool) (adr : Z)
        (gs : list string) :
  configured st always adr ->
  attrs st !! "_complete_status_re_prog" = None ->
  Re.findall_first complete_status_re 7 (next_reply st) = Some gs ->
  exists g1 g2 g3 g4 f1 f2 f3 f4 os al ps,
    gs = [g1; g2; g3; g4; os; al; ps]
    /\ Py.float_of_str g1 = Ok f1 /\ Py.float_of_str g2 = Ok f2
    /\ Py.float_of_str g3 = Ok f3 /\ Py.float_of_str g4 = Ok f4
    /\ digits_shaped os /\ digits_shaped al /\ digits_shaped ps
    /\ ((8 <= String.length os)%nat -> (5 <= String.length al)%nat ->
        (5 <= String.length ps)%nat ->
        get_complete_status st
        = (Ok [VFloat f1; VFloat f2; VFloat f3; VFloat f4; VStr os; VStr al; VStr ps],
           assign_all (status_updates f1 f2 f3 f4 os al ps) (status_read always adr st))).
Proof.
  intros Hc Hno Hf.
  destruct (findall_first_shape _ _ Hf)
    as (pre & g1 & g2 & g3 & g4 & os & al & ps & post & E & -> & S1 & S2 & S3 & S4
        & [D5 N5] & [D6 N6] & [D7 N7]).
  destruct (float_shaped_value g1 S1) as [f1 F1].
  destruct (float_shaped_value g2 S2) as [f2 F2].
  destruct (float_shaped_value g3 S3) as [f3 F3].
  destruct (float_shaped_value g4 S4) as [f4 F4].
  exists g1, g2, g3, g4, f1, f2, f3, f4, os, al, ps.
  split; [reflexivity|]. do 4 (split; [assumption|]).
  do 3 (split; [split; assumption|]).
  intros L5 L6 L7. unfold get_complete_status.
  rewrite (status_query _ st always adr Hc Hno). rewrite Hf.
  generalize (status_read always adr st). intros st2.
  rewrite (bind_ok _ _ _ _ _ (set_float_ok "voltage_actual" g1 f1 _ F1)).
  rewrite (bind_ok _ _ _ _ _ (set_float_ok "voltage_setp" g2 f2 _ F2)).
  rewrite (bind_ok _ _ _ _ _ (set_float_ok "current_actual" g3 f3 _ F3)).
  rewrite (bind_ok _ _ _ _ _ (set_float_ok "current_setp" g4 f4 _ F4)).
  do 3 (erewrite bind_ok by reflexivity).
  do 8 (erewrite bind_ok by (apply (set_bit_digit _ os); [exact D5 | lia])).
  do 5 (erewrite bind_ok by (apply (set_bit_digit _ al); [exact D6 | lia])).
  do 4 (erewrite bind_ok by (apply (set_bit_digit _ ps); [exact D7 | lia])).
  change (assigned "prog_err_wrong_current" _ _)
    with (assign_all (status_updates f1 f2 f3 f4 os al ps) st2).
  do 7 (erewrite bind_ok by (apply getattr_assign_all; reflexivity)).
  reflexivity.
Qed.

Lemma status_decoded_in_general_witness :
  exists g1 g2 g3 g4 f1 f2 f3 f4 os al ps,
    ["5.010"; "5.010"; "00.00"; "24.31"; "00010000"; "00000"; "00000"]
    = [g1; g2; g3; g4; os; al; ps]
    /\ Py.float_of_str g1 = Ok f1 /\ Py.float_of_str g2 = Ok f2
    /\ Py.float_of_str g3 = Ok f3 /\ Py.float_of_str g4 = Ok f4
    /\ digits_shaped os /\ digits_shaped al /\ digits_shaped ps
    /\ ((8 <= String.length os)%nat -> (5 <= String.length al)%nat ->
        (5 <= String.length ps)%nat ->
        get_complete_status (zup6_reading status_example)
        = (Ok [VFloat f1; VFloat f2; VFloat f3; VFloat f4; VStr os; VStr al; VStr ps],
           assign_all (status_updates f1 f2 f3 f4 os al ps)
             (status_read true 1 (zup6_reading status_example)))).
Proof.
  apply (status_decoded_in_general (zup6_reading status_example) true 1).
  - split; vm_compute; reflexivity.
  - vm_compute; reflexivity.
  - vm_compute; reflexivity.
Defined.

Ltac bit_steps :=
  repeat (erewrite bind_ok
            by (apply set_bit_digit; [eassumption | cbn [String.length]; lia]));
  erewrite bind_raise by (apply set_bit_short; cbn [String.length]; lia).

(** X9.  A reply that matches the pattern but has a register shorter than
    the flags need (8, 5 and 5 digits) makes [get_complete_status] raise
    [IndexError] half-way: the numbers and the registers are stored, and
    the flags before the missing digit, but not those after it. *)
Theorem status_short_register_partial_update (st : LambdaZup) (always : bool) (adr : Z)
        (g1 g2 g3 g4 os al ps : string) :
  configured st always adr ->
  attrs st !! "_complete_status_re_prog" = None ->
  Re.findall_first complete_status_re 7 (next_reply st)
  = Some [g1; g2; g3; g4; os; al; ps] ->
  (String.length os < 8 \/ String.length al < 5 \/ String.length ps < 5)%nat ->
  exists f1 f2 f3 f4 k,
    Py.float_of_str g1 = Ok f1 /\ Py.float_of_str g2 = Ok f2
    /\ Py.float_of_str g3 = Ok f3 /\ Py.float_of_str g4 = Ok f4
    /\ (7 <= k < 24)%nat
    /\ get_complete_status st
       = (Raise IndexError,
          assign_all (firstn k (status_updates f1 f2 f3 f4 os al ps))
            (status_read always adr st)).
Proof.
  intros Hc Hno Hf Hshort.
  destruct (findall_first_shape _ _ Hf)
    as (pre & g1' & g2' & g3' & g4' & os' & al' & ps' & post & E & Hg & S1 & S2 & S3 & S4
        & [D5 N5] & [D6 N6] & [D7 N7]).
  injection Hg as -> -> -> -> -> -> ->.
  destruct (float_shaped_value _ S1) as [f1 F1].
  destruct (float_shaped_value _ S2) as [f2 F2].
  destruct (float_shaped_value _ S3) as [f3 F3].
  destruct (float_shaped_value _ S4) as [f4 F4].
  exists f1, f2, f3, f4.
  cut (exists k, (7 <= k < 24)%nat
                 /\ get_complete_status st
                    = (Raise IndexError,
                       assign_all (firstn k (status_updates f1 f2 f3 f4 os' al' ps'))
                         (status_read always adr st))).
  { intros (k & Hk & Hrun). exists k. repeat (split; [assumption|]). exact Hrun. }
  unfold get_complete_status.
  rewrite (status_query _ st always adr Hc Hno). rewrite Hf.
  generalize (status_read always adr st). intros st2.
  rewrite (bind_ok _ _ _ _ _ (set_float_ok "voltage_actual" g1' f1 _ F1)).
  rewrite (bind_ok _ _ _ _ _ (set_float_ok "voltage_setp" g2' f2 _ F2)).
  rewrite (bind_ok _ _ _ _ _ (set_float_ok "current_actual" g3' f3 _ F3)).
  rewrite (bind_ok _ _ _ _ _ (set_float_ok "current_setp" g4' f4 _ F4)).
  do 3 (erewrite bind_ok by reflexivity).
  destruct (Nat.lt_ge_cases (String.length os') 8) as [L5|L5].
  { exists (7 + String.length os')%nat. split; [lia|].
    destruct os' as [|c1 [|c2 [|c3 [|c4 [|c5 [|c6 [|c7 [|c8 os']]]]]]]];
      [congruence| | | | | | | | cbn [String.length] in L5; lia];
      bit_steps; reflexivity. }
  destruct (Nat.lt_ge_cases (String.length al') 5) as [L6|L6].
  { exists (15 + String.length al')%nat. split; [lia|].
    destruct al' as [|c1 [|c2 [|c3 [|c4 [|c5 al']]]]];
      [congruence| | | | | cbn [String.length] in L6; lia];
      bit_steps; reflexivity. }
  assert (L7 : (String.length ps' < 5)%nat) by lia.
  exists (19 + String.length ps')%nat. split; [lia|].
  destruct ps' as [|c1 [|c2 [|c3 [|c4 [|c5 ps']]]]];
    [congruence| | | | | cbn [String.length] in L7; lia];
    bit_steps; reflexivity.
Qed.

Lemma status_short_register_partial_update_witness :
  exists f1 f2 f3 f4 k,
    Py.float_of_str "5.010" = Ok f1 /\ Py.float_of_str "5.010" = Ok f2
    /\ Py.float_of_str "00.00" = Ok f3 /\ Py.float_of_str "24.31" = Ok f4
    /\ (7 <= k < 24)%nat
    /\ get_complete_status (zup6_reading status_short_register)
       = (Raise IndexError,
          assign_all (firstn k (status_updates f1 f2 f3 f4 "000" "00000" "00000"))
            (status_read true 1 (zup6_reading status_short_register))).
Proof.
  apply (status_short_register_partial_update (zup6_reading status_short_register) true 1).
  - split; vm_compute; reflexivity.
  - vm_compute; reflexivity.
  - vm_compute; reflexivity.
  - left. cbn. lia.
Defined.

(** ** Voltage programming: what stops it *)

(** X10.  On a unit whose rated voltage is not a key of [v_format_strs],
    [set_voltage] with a value in range raises [KeyError] and transmits
    nothing. *)
Theorem set_voltage_unknown_model (st : LambdaZup) (mv : Z) (v : pyval) :
  attrs st !! "max_voltage" = Some (VInt mv) ->
  v_format_strs !! mv = None ->
  within v mv = true ->
  set_voltage v st = (Raise KeyError, st).
Proof.
  intros Hmv Hk Hw. unfold set_voltage. unfold bind at 1.
  rewrite (in_range_max_voltage _ _ _ Hmv).
  assert (Hnum : Py.num_of v <> None)
    by (unfold within in Hw; destruct (Py.num_of v); discriminate).
  destruct (Py.num_of v); [|contradiction]. rewrite Hw.
  erewrite bind_ok by reflexivity.
  erewrite bind_ok by (apply getattr_ok; exact Hmv).
  apply bind_raise. unfold lift, subscript. cbn [mbind option_bind]. rewrite Hk. reflexivity.
Qed.

Lemma set_voltage_unknown_model_witness :
  set_voltage (VInt 5) zup40 = (Raise KeyError, zup40).
Proof.
  apply (set_voltage_unknown_model zup40 40 (VInt 5)); vm_compute; reflexivity.
Defined.

(** X11.  Before the revision query has stored the ratings, the four setters
    with a bound cannot be used: a number that is not negative raises
    [AttributeError], a negative one [AssertionError] (the bound is not
    looked at); nothing is transmitted. *)
Theorem setters_need_identity (st : LambdaZup) (v : pyval) (x : pynum) :
  attrs st !! "max_voltage" = None ->
  attrs st !! "max_current" = None ->
  Py.num_of v = Some x ->
  let failure := if PyNum.le (PInt 0) x then AttributeError else AssertionError in
  set_voltage v st = (Raise failure, st)
  /\ set_current v st = (Raise failure, st)
  /\ set_over_voltage_protection v st = (Raise failure, st)
  /\ set_under_voltage_protection v st = (Raise failure, st).
Proof.
  intros Hv Hc Hx failure.
  assert (Hr : forall name, attrs st !! name = None ->
            in_range v (getattr name) st
            = (if PyNum.le (PInt 0) x then Raise AttributeError else Ok false, st)).
  { intros name Hn. unfold in_range, bind, lift, Py.le, getattr, ret.
    cbn [Py.num_of]. rewrite Hx. destruct (PyNum.le (PInt 0) x); [|reflexivity].
    rewrite Hn. reflexivity. }
  unfold set_voltage, set_current, set_over_voltage_protection,
    set_under_voltage_protection, failure.
  repeat split; unfold bind at 1; rewrite Hr by assumption;
    destruct (PyNum.le (PInt 0) x); reflexivity.
Qed.

Lemma setters_need_identity_witness :
  set_voltage (VInt 5) unidentified = (Raise AttributeError, unidentified)
  /\ set_current (VInt 5) unidentified = (Raise AttributeError, unidentified)
  /\ set_over_voltage_protection (VInt 5) unidentified = (Raise AttributeError, unidentified)
  /\ set_under_voltage_protection (VInt 5) unidentified = (Raise AttributeError, unidentified).
Proof.
  apply (setters_need_identity unidentified (VInt 5) (PInt 5)); vm_compute; reflexivity.
Defined.

(** ** Current programming *)

Lemma dec_wide (z : Z) :
  0 <= z <= 999 ->
  Py.all_chars PyStr.is_digit (PyStr.dec z) = true
  /\ String.length (PyStr.dec z) = digits_of z
  /\ PyStr.digits_val 0 (PyStr.dec z) = Some z.
Proof.
  intros H.
  assert (Hall : forallb dec_shape_wide (seq 0 1000) = true) by (vm_compute; reflexivity).
  rewrite forallb_forall in Hall. specialize (Hall (Z.to_nat z)).
  unfold dec_shape_wide in Hall. rewrite Z2Nat.id in Hall by lia.
  assert (Hin : In (Z.to_nat z) (seq 0 1000)) by (apply in_seq; lia).
  specialize (Hall Hin).
  apply andb_true_iff in Hall as [Hall H3]. apply andb_true_iff in Hall as [H1 H2].
  split; [exact H1|]. split.
  - apply Nat.eqb_eq in H2. rewrite H2. unfold digits_of.
    destruct (Z.ltb_spec z 10), (Nat.ltb_spec (Z.to_nat z) 10); try lia;
    destruct (Z.ltb_spec z 100), (Nat.ltb_spec (Z.to_nat z) 100); try lia; reflexivity.
  - destruct (PyStr.digits_val 0 (PyStr.dec z)) as [v|]; [|discriminate].
    apply Z.eqb_eq in H3. rewrite H3. reflexivity.
Qed.

Lemma digits_of_mono (a b : Z) : a <= b -> (digits_of a <= digits_of b)%nat.
Proof.
  intros H. unfold digits_of.
  destruct (Z.ltb_spec a 10), (Z.ltb_spec b 10); try lia;
  destruct (Z.ltb_spec a 100), (Z.ltb_spec b 100); lia.
Qed.

(** The digits of a finite float under a precision of at least one: the
    numeral of the integer part, a point, the decimals; [scaled] is the
    value in units of the last decimal. *)
Lemma fixed_body_wide (p : nat) (m : N) (e k : Z) :
  0 <= k <= 999 ->
  PyNum.mag_num m e <= k * PyNum.mag_den e ->
  exists scaled,
    scaled = PyNum.round_half_even (PyNum.mag_num m e * 10 ^ Z.of_nat (S p))
                                   (PyNum.mag_den e)
    /\ 0 <= scaled <= k * 10 ^ Z.of_nat (S p)
    /\ PyNum.fixed_body (S p) m e
       = PyStr.dec (scaled / 10 ^ Z.of_nat (S p)) ++ "." ++ PyStr.digits_fixed (S p) scaled
    /\ 0 <= scaled / 10 ^ Z.of_nat (S p) <= k.
Proof.
  intros Hk Hle.
  set (t := 10 ^ Z.of_nat (S p)).
  assert (Ht : 0 < t) by (apply Z.pow_pos_nonneg; lia).
  pose proof (mag_num_nonneg m e) as Hn. pose proof (mag_den_pos e) as Hd.
  eexists. split; [reflexivity|]. fold t.
  assert (Hs : 0 <= PyNum.round_half_even (PyNum.mag_num m e * t) (PyNum.mag_den e) <= k * t)
    by (apply round_half_even_bounds; nia).
  split; [exact Hs|]. split; [reflexivity|].
  split; [apply Z.div_pos; lia | apply Z.div_le_upper_bound; nia].
Qed.

Lemma format_float_fixed_wide (w p : nat) (m : N) (e k : Z) :
  0 <= k <= 999 ->
  PyNum.mag_num m e <= k * PyNum.mag_den e ->
  (digits_of k + 1 + S p <= w)%nat ->
  is_fixed w (S p) (PyNum.format_float (fixed_spec w (S p)) (Ffin false m e)) = true.
Proof.
  intros Hk Hle Hw. cbn [PyNum.format_float PyNum.sign_str].
  rewrite pad_unsigned. cbn [fixed_spec PyNum.fs_prec].
  destruct (fixed_body_wide p m e k Hk Hle) as (scaled & _ & Hs & -> & Hip).
  destruct (dec_wide (scaled / 10 ^ Z.of_nat (S p))) as (Dd & Ld & _); [lia|].
  pose proof (digits_of_mono _ _ (proj2 Hip)) as Hmono.
  rewrite <- app_assoc_s.
  apply is_fixed_intro.
  - rewrite !length_app, length_repeat, length_digits_fixed, Ld.
    cbn [String.length]. lia.
  - apply length_digits_fixed.
  - rewrite all_chars_app, Dd, all_chars_repeat; reflexivity.
  - apply all_digits_digits_fixed.
Qed.

Lemma le_scale (n d N D k : Z) :
  0 < d -> 0 < D -> n * D <= N * d -> N <= k * D -> n <= k * d.
Proof.
  intros Hd HD H1 H2.
  assert (H3 : N * d <= k * D * d) by (apply Z.mul_le_mono_nonneg_r; lia).
  assert (H4 : n * D <= (k * d) * D) by lia.
  apply (Z.mul_le_mono_pos_r _ _ D HD). exact H4.
Qed.

Lemma format_within_float_bound (tenths : Z) (w p : nat) (v : pyval) :
  current_model_ok tenths w p (current_bound tenths) = true ->
  within_float_bound v (rated_current tenths) = true ->
  exists text,
    Py.format_f (fixed_spec w p) v = Ok text
    /\ minus_zero v || is_fixed w p text = true.
Proof.
  unfold current_model_ok. set (k := current_bound tenths).
  destruct (rated_current tenths) as [| |[] M E] eqn:Hmc; try discriminate.
  intros Hok Hw.
  repeat (apply andb_true_iff in Hok as [Hok ?]).
  match goal with H : forallb _ _ = true |- _ => rename H into Hints end.
  match goal with H : (1 <=? p)%nat = true |- _ => apply Nat.leb_le in H; rename H into Hp end.
  match goal with H : (_ + 1 + p <=? w)%nat = true |- _ => apply Nat.leb_le in H; rename H into Hwid end.
  match goal with H : (k <=? 999) = true |- _ => apply Z.leb_le in H; rename H into Hk2 end.
  match goal with H : (0 <=? k) = true |- _ => apply Z.leb_le in H; rename H into Hk1 end.
  apply Z.leb_le in Hok.
  pose proof (mag_den_pos E) as HD.
  assert (Hint : forall z, within_float_bound (VInt z) (Ffin false M E) = true ->
            exists text, Py.format_f (fixed_spec w p) (VInt z) = Ok text
                         /\ is_fixed w p text = true).
  { intros z Hz.
    assert (Hzk : 0 <= z <= k).
    { unfold within_float_bound in Hz. cbn [Py.num_of] in Hz. unfold PyNum.le in Hz.
      cbn [PyNum.ext_of PyNum.ext_of_float] in Hz.
      apply andb_true_iff in Hz as [H1 H2]. apply Z.leb_le in H1, H2.
      split; [lia|]. pose proof (le_scale z 1 _ _ k ltac:(lia) HD H2 Hok). lia. }
    rewrite forallb_forall in Hints. specialize (Hints (Z.to_nat z)).
    unfold int_current_ok, int_format_ok in Hints. rewrite Z2Nat.id in Hints by lia.
    rewrite Hz in Hints. cbn [negb orb] in Hints.
    destruct (Py.format_f (fixed_spec w p) (VInt z)) as [t|] eqn:Ht.
    - exists t. split; [reflexivity|]. apply Hints, in_seq. lia.
    - exfalso. assert (false = true); [|discriminate]. apply Hints, in_seq. lia. }
  destruct v as [|b|z|f|s|r]; try discriminate.
  - destruct (Hint (if b then 1 else 0) Hw) as (t & Ht & Hf). exists t. split; assumption.
  - destruct (Hint z Hw) as (t & Ht & Hf). exists t. split; assumption.
  - destruct f as [|neg|neg m e].
    + discriminate.
    + destruct neg; discriminate.
    + eexists. split; [reflexivity|].
      unfold within_float_bound in Hw. cbn [Py.num_of] in Hw. unfold PyNum.le in Hw.
      cbn [PyNum.ext_of PyNum.ext_of_float] in Hw.
      apply andb_true_iff in Hw as [H1 H2]. apply Z.leb_le in H1, H2.
      pose proof (mag_num_nonneg m e) as Hn. pose proof (mag_den_pos e) as Hd.
      destruct neg.
      * assert (Hz : PyNum.mag_num m e = 0) by lia.
        rewrite (mag_num_zero _ _ Hz). reflexivity.
      * cbn [minus_zero orb]. destruct p as [|p]; [lia|].
        apply (format_float_fixed_wide w p m e k); [lia| |lia].
        exact (le_scale _ _ _ _ k Hd HD H2 Hok).
Qed.

Lemma current_models_ok :
  forallb (fun '((_, tenths), (w, p)) => current_model_ok tenths w p (current_bound tenths))
          rated_current_formats = true.
Proof. vm_compute. reflexivity. Qed.

Lemma format_cur_template (mv tenths : Z) (w p : nat) (v : pyval) :
  In ((mv, tenths), (w, p)) rated_current_formats ->
  Py.num_of v <> None ->
  exists fmt_str template,
    subscript_pair i_format_strs (VInt mv) (VFloat (rated_current tenths)) = Ok fmt_str
    /\ PyFormat.format ":CUR{};" (VStr fmt_str) = Ok template
    /\ PyFormat.format template v =
       match Py.format_f (fixed_spec w p) v with
       | Ok t => Ok (":CUR" ++ t ++ ";")
       | Raise e => Raise e
       end.
Proof.
  intros Hin Hv. simpl in Hin.
  repeat (destruct Hin as [Hin | Hin]; [inversion Hin; subst; clear Hin|]); try contradiction.
  all: eexists; eexists; split; [vm_compute; reflexivity|]; split; [vm_compute; reflexivity|].
  all: destruct v; try (exfalso; apply Hv; reflexivity).
  all: unfold PyFormat.format.
  all: cbv [PyFormat.scan Ascii.eqb Bool.eqb andb String.append].
  all: cbv [PyFormat.render PyFormat.field].
  all: match goal with
       | |- context [PyFormat.parse_spec ?s] =>
           let r := eval vm_compute in (PyFormat.parse_spec s) in
           change (PyFormat.parse_spec s) with r
       end.
  all: unfold fixed_spec.
  all: match goal with
       | |- context [Py.format_f ?sp ?x] => destruct (Py.format_f sp x)
       end; reflexivity.
Qed.

Lemma in_range_max_current (v : pyval) (mc : pyfloat) (st : LambdaZup) :
  attrs st !! "max_current" = Some (VFloat mc) ->
  in_range v (getattr "max_current") st =
  (match Py.num_of v with
   | Some _ => Ok (within_float_bound v mc)
   | None => Raise TypeError
   end, st).
Proof.
  intros H. unfold in_range, within_float_bound, bind, lift, Py.le, getattr, ret.
  cbn [Py.num_of]. destruct (Py.num_of v) as [x|]; [|reflexivity].
  destruct (PyNum.le (PInt 0) x); [|reflexivity].
  rewrite H. reflexivity.
Qed.

Lemma current_model_of_table (mv tenths : Z) (w p : nat) :
  In ((mv, tenths), (w, p)) rated_current_formats ->
  current_model_ok tenths w p (current_bound tenths) = true.
Proof.
  intros Hin. pose proof current_models_ok as H.
  rewrite forallb_forall in H. exact (H _ Hin).
Qed.

(** X12.  On a unit of table 5-2, with the table's width [w] and decimals
    [p]: for a value within [0, rated current], [set_current] transmits
    exactly [:CUR], the value in fixed-point presentation under
    [{:0w.pf}], and [;]; the rendering has [w] characters, [p] of them
    decimals, for every value but the float [-0.0].  For any other value
    the call raises ([AssertionError], or [TypeError] for what is not a
    number) and leaves the driver and the port as they were. *)
Theorem set_current_command (st : LambdaZup) (always : bool) (adr mv tenths : Z)
        (w p : nat) (v : pyval) :
  configured st always adr ->
  attrs st !! "max_voltage" = Some (VInt mv) ->
  attrs st !! "max_current" = Some (VFloat (rated_current tenths)) ->
  In ((mv, tenths), (w, p)) rated_current_formats ->
  if within_float_bound v (rated_current tenths) then
    exists text,
      Py.format_f (fixed_spec w p) v = Ok text
      /\ minus_zero v || is_fixed w p text = true
      /\ set_current v st = (Ok tt, sent (frame always adr (":CUR" ++ text ++ ";")) st)
  else
    set_current v st = (Raise AssertionError, st)
    \/ set_current v st = (Raise TypeError, st).
Proof.
  intros Hc Hmv Hmc Hin.
  assert (Hrange : set_current v st =
            match Py.num_of v with
            | Some _ =>
                if within_float_bound v (rated_current tenths) then
                  (mv <- getattr "max_voltage" ;;
                   mc <- getattr "max_current" ;;
                   fmt_str <- lift (subscript_pair i_format_strs mv mc) ;;
                   template <- lift (PyFormat.format ":CUR{};" (VStr fmt_str)) ;;
                   cmd <- lift (PyFormat.format template v) ;;
                   _write cmd) st
                else (Raise AssertionError, st)
            | None => (Raise TypeError, st)
            end).
  { unfold set_current. unfold bind at 1. rewrite (in_range_max_current _ _ _ Hmc).
    destruct (Py.num_of v); [|reflexivity].
    destruct (within_float_bound v (rated_current tenths)); reflexivity. }
  rewrite Hrange. clear Hrange.
  destruct (within_float_bound v (rated_current tenths)) eqn:Hw.
  - destruct (format_within_float_bound _ _ _ _ (current_model_of_table _ _ _ _ Hin) Hw)
      as (text & Ht & Hfix).
    exists text. split; [exact Ht|]. split; [exact Hfix|].
    assert (Hnum : Py.num_of v <> None).
    { unfold within_float_bound in Hw. destruct (Py.num_of v); [discriminate | discriminate]. }
    destruct (format_cur_template _ _ _ _ v Hin Hnum) as (fs & tpl & H1 & H2 & H3).
    destruct (Py.num_of v); [|contradiction].
    unfold bind, getattr, lift. rewrite Hmv, Hmc, H1, H2, H3, Ht.
    apply (write_ok _ _ _ _ Hc). apply (framed_command "CUR").
  - destruct (Py.num_of v); [left | right]; reflexivity.
Qed.

Lemma set_current_command_witness :
  exists text,
    Py.format_f (fixed_spec 5 3) (VFloat (PyNum.float_dec false 3 0)) = Ok text
    /\ minus_zero (VFloat (PyNum.float_dec false 3 0)) || is_fixed 5 3 text = true
    /\ set_current (VFloat (PyNum.float_dec false 3 0)) zup60
       = (Ok tt, sent (frame true 1 (":CUR" ++ text ++ ";")) zup60).
Proof.
  apply (set_current_command zup60 true 1 60 35 5 3 (VFloat (PyNum.float_dec false 3 0))).
  - vm_compute. repeat split; reflexivity.
  - reflexivity.
  - reflexivity.
  - simpl. do 12 right. left. reflexivity.
Defined.

(** ** Identification *)

Lemma str_replace_app (a b : ascii) (s t : string) :
  str_replace a b (s ++ t) = str_replace a b s ++ str_replace a b t.
Proof.
  induction s as [|c s IH]; [reflexivity|].
  cbn [String.append str_replace]. rewrite IH. reflexivity.
Qed.

Lemma str_replace_word (s : string) :
  Py.all_chars word_char s = true -> str_replace "-" " " s = s.
Proof.
  induction s as [|c s IH]; [reflexivity|].
  cbn [Py.all_chars str_replace]. intros H. apply andb_true_iff in H as [Hc Hs].
  rewrite (IH Hs). unfold word_char in Hc. apply andb_true_iff in Hc as [_ Hc].
  apply negb_true_iff in Hc. rewrite Hc. reflexivity.
Qed.

Lemma split_from_word (cur w s : string) :
  Py.all_chars word_char w = true ->
  str_split_from cur (w ++ s) = str_split_from (cur ++ w) s.
Proof.
  revert cur. induction w as [|c w IH]; intros cur H.
  - rewrite app_empty_r. reflexivity.
  - cbn [Py.all_chars] in H. apply andb_true_iff in H as [Hc Hw].
    unfold word_char in Hc. apply andb_true_iff in Hc as [Hc _].
    apply negb_true_iff in Hc.
    cbn [String.append str_split_from]. rewrite Hc, (IH _ Hw).
    rewrite app_assoc_s. reflexivity.
Qed.

Lemma split_word_space (w s : string) :
  word w = true ->
  str_split (w ++ " " ++ s) = w :: str_split s.
Proof.
  intros H. unfold word in H. apply andb_true_iff in H as [Hn Hw].
  unfold str_split. rewrite (split_from_word _ _ _ Hw).
  cbn [String.append str_split_from].
  change (PyStr.is_space " ") with true. cbv iota.
  destruct w; [discriminate|]. reflexivity.
Qed.

Lemma split_word_end (w : string) :
  word w = true -> str_split w = [w].
Proof.
  intros H. unfold word in H. apply andb_true_iff in H as [Hn Hw].
  unfold str_split. rewrite <- (app_empty_r w) at 1.
  rewrite (split_from_word _ _ _ Hw). cbn [String.append str_split_from].
  destruct w; [discriminate|]. reflexivity.
Qed.

Lemma word_no_trailing_space (a w : string) :
  word w = true -> no_trailing_space (a ++ w) = true.
Proof.
  intros H. unfold word in H. apply andb_true_iff in H as [Hn Hw].
  assert (Hne : w <> "") by (intros ->; discriminate).
  unfold no_trailing_space. rewrite (last_app_nonempty _ _ Hne).
  destruct (PyStr.last w) as [c|] eqn:Hl; [|reflexivity].
  pose proof (last_all_chars _ _ _ Hw Hl) as Hc.
  unfold word_char in Hc. apply andb_true_iff in Hc as [Hc _]. exact Hc.
Qed.

Lemma revision_numbers_of_table (mv tenths : Z) (w p : nat) :
  In ((mv, tenths), (w, p)) rated_current_formats ->
  word (PyStr.dec mv) = true
  /\ word (current_text tenths) = true
  /\ Py.int (VStr (PyStr.dec mv)) = Ok mv
  /\ Py.float_of_str (current_text tenths) = Ok (rated_current tenths).
Proof.
  intros Hin. simpl in Hin.
  repeat (destruct Hin as [Hin | Hin]; [inversion Hin; subst; clear Hin|]); try contradiction.
  all: repeat split; vm_compute; reflexivity.
Qed.

(** The fields of a well-formed revision reply. *)
Lemma revision_reply_fields (ver a b rev : string) :
  word ver = true -> word a = true -> word b = true -> word rev = true ->
  str_split (str_replace "-" " "
               (PyStr.rstrip (ver ++ " " ++ a ++ "-" ++ b ++ " " ++ rev ++ crlf)))
  = [ver; a; b; rev].
Proof.
  intros Hv Ha Hb Hr.
  replace (ver ++ " " ++ a ++ "-" ++ b ++ " " ++ rev ++ crlf)
    with ((ver ++ " " ++ a ++ "-" ++ b ++ " " ++ rev) ++ crlf)
    by (rewrite !app_assoc_s; reflexivity).
  rewrite rstrip_app_space; [|reflexivity|].
  2:{ replace (ver ++ " " ++ a ++ "-" ++ b ++ " " ++ rev)
        with ((ver ++ " " ++ a ++ "-" ++ b ++ " ") ++ rev)
        by (rewrite !app_assoc_s; reflexivity).
      apply word_no_trailing_space. exact Hr. }
  pose proof Hv as Hv'. pose proof Ha as Ha'. pose proof Hb as Hb'. pose proof Hr as Hr'.
  unfold word in Hv', Ha', Hb', Hr'.
  apply andb_true_iff in Hv' as [_ Hv'], Ha' as [_ Ha'], Hb' as [_ Hb'], Hr' as [_ Hr'].
  rewrite !str_replace_app.
  rewrite (str_replace_word _ Hv'), (str_replace_word _ Ha'),
          (str_replace_word _ Hb'), (str_replace_word _ Hr').
  change (str_replace "-" " " " ") with " ".
  change (str_replace "-" " " "-") with " ".
  rewrite (split_word_space _ _ Hv), (split_word_space _ _ Ha), (split_word_space _ _ Hb).
  rewrite (split_word_end _ Hr). reflexivity.
Qed.

Lemma revision_unfold (st : LambdaZup) (always : bool) (adr : Z) :
  configured st always adr ->
  get_software_revision st
  = match revision_fields (sent (frame always adr ":REV?;") st) with
    | [ver; maxV; maxA; revision] =>
        (mv <- lift (Py.int (VStr maxV)) ;;
         setattr "max_voltage" (VInt mv) ;;;
         ma <- lift (Py.float_of_str maxA) ;;
         setattr "max_current" (VFloat ma) ;;;
         setattr "software_revision" (VStr revision) ;;;
         getattr "software_revision") (revision_asked always adr st)
    | _ => (Raise ValueError, revision_asked always adr st)
    end.
Proof.
  intros Hc. unfold get_software_revision. unfold bind at 1.
  rewrite (ask_ok ":REV?;" _ _ _ Hc eq_refl). unfold revision_fields, revision_asked.
  destruct (str_split _) as [|f1 [|f2 [|f3 [|f4 [|f5 l]]]]]; reflexivity.
Qed.

Lemma revision_identifies (st : LambdaZup) (always : bool) (adr : Z)
      (ver rev : string) (mv tenths : Z) (w p : nat) :
  configured st always adr ->
  hd "" (pending (ser st)) = revision_reply ver mv tenths rev ->
  word ver = true -> word rev = true ->
  In ((mv, tenths), (w, p)) rated_current_formats ->
  get_software_revision st
  = (Ok (VStr rev), assign_all (identity mv tenths rev) (revision_asked always adr st)).
Proof.
  intros Hc Hp Hv Hr Hin.
  destruct (revision_numbers_of_table _ _ _ _ Hin) as (Ha & Hb & Hi & Hf).
  rewrite (revision_unfold _ _ _ Hc). unfold revision_fields, next_reply.
  cbn [sent ser pending]. rewrite Hp. unfold revision_reply.
  rewrite (revision_reply_fields _ _ _ _ Hv Ha Hb Hr).
  unfold bind, lift, setattr. rewrite Hi, Hf.
  cbn [assign_all identity fold_left fst snd].
  apply getattr_assigned.
Qed.

(** X13.  On the reply [Ver XX-YY A.B] of a unit of table 5-2 (any two words
    for [Ver] and [A.B]), [get_software_revision] returns the revision and
    stores the rated voltage as an int, the rated current as a float and
    the revision; and the pair it stores is a key of [i_format_strs], with
    the format of the table. *)
Theorem revision_reply_identifies_model (st : LambdaZup) (always : bool) (adr : Z)
        (ver rev : string) (mv tenths : Z) (w p : nat) :
  configured st always adr ->
  hd "" (pending (ser st)) = revision_reply ver mv tenths rev ->
  word ver = true -> word rev = true ->
  In ((mv, tenths), (w, p)) rated_current_formats ->
  get_software_revision st
  = (Ok (VStr rev), assign_all (identity mv tenths rev) (revision_asked always adr st))
  /\ subscript_pair i_format_strs (VInt mv) (VFloat (rated_current tenths))
     = Ok ("{:0" ++ PyStr.dec (Z.of_nat w) ++ "." ++ PyStr.dec (Z.of_nat p) ++ "f}").
Proof.
  intros Hc Hp Hv Hr Hin. split.
  - exact (revision_identifies _ _ _ _ _ _ _ _ _ Hc Hp Hv Hr Hin).
  - clear - Hin. simpl in Hin.
    repeat (destruct Hin as [Hin | Hin]; [inversion Hin; subst; clear Hin|]);
      try contradiction.
    all: vm_compute; reflexivity.
Qed.

Lemma revision_reply_identifies_model_witness :
  get_software_revision (connected 1 true 6 (rated_current 330) [revision_reply "Ver" 60 35 "1.0"])
  = (Ok (VStr "1.0"),
     assign_all (identity 60 35 "1.0")
       (revision_asked true 1
          (connected 1 true 6 (rated_current 330) [revision_reply "Ver" 60 35 "1.0"])))
  /\ subscript_pair i_format_strs (VInt 60) (VFloat (rated_current 35))
     = Ok ("{:0" ++ PyStr.dec (Z.of_nat 5) ++ "." ++ PyStr.dec (Z.of_nat 3) ++ "f}").
Proof.
  apply (revision_reply_identifies_model _ true 1 "Ver" "1.0" 60 35 5 3).
  - split; reflexivity.
  - reflexivity.
  - reflexivity.
  - reflexivity.
  - simpl. do 12 right. left. reflexivity.
Defined.

(** X14.  A revision reply that does not fall into four fields (among them
    the empty reply of a timeout) makes [get_software_revision] raise
    [ValueError]; the query has gone out and the line is consumed, but no
    attribute is changed. *)
Theorem revision_needs_four_fields (st : LambdaZup) (always : bool) (adr : Z) :
  configured st always adr ->
  length (revision_fields (sent (frame always adr ":REV?;") st)) <> 4%nat ->
  get_software_revision st = (Raise ValueError, revision_asked always adr st)
  /\ attrs (revision_asked always adr st) = attrs st.
Proof.
  intros Hc Hl. split; [|reflexivity].
  rewrite (revision_unfold _ _ _ Hc).
  destruct (revision_fields _) as [|f1 [|f2 [|f3 [|f4 [|f5 l]]]]]; try reflexivity.
  exfalso. apply Hl. reflexivity.
Qed.

Lemma revision_needs_four_fields_witness :
  get_software_revision unidentified = (Raise ValueError, revision_asked true 1 unidentified)
  /\ attrs (revision_asked true 1 unidentified) = attrs unidentified.
Proof.
  apply (revision_needs_four_fields unidentified true 1).
  - split; reflexivity.
  - vm_compute. discriminate.
Defined.

(** X15.  [get_software_revision] stores the rated voltage before it reads
    the rated current: when the current field is a text of digits, signs
    and points that is no numeral, [float] raises [ValueError], and
    [max_voltage] is already overwritten. *)
Theorem revision_stores_voltage_before_current (st : LambdaZup) (always : bool) (adr : Z)
        (ver maxV maxA revision : string) (mv : Z) :
  configured st always adr ->
  revision_fields (sent (frame always adr ":REV?;") st) = [ver; maxV; maxA; revision] ->
  Py.int (VStr maxV) = Ok mv ->
  Py.float_of_str maxA = Raise ValueError ->
  get_software_revision st
  = (Raise ValueError, assigned "max_voltage" (VInt mv) (revision_asked always adr st)).
Proof.
  intros Hc Hf Hi He. rewrite (revision_unfold _ _ _ Hc), Hf.
  unfold bind, lift, setattr. rewrite Hi, He. reflexivity.
Qed.

Lemma revision_stores_voltage_before_current_witness :
  get_software_revision half_reply
  = (Raise ValueError, assigned "max_voltage" (VInt 36) (revision_asked true 1 half_reply)).
Proof.
  apply (revision_stores_voltage_before_current half_reply true 1 "Ver" "36" "." "1.0").
  - split; reflexivity.
  - vm_compute. reflexivity.
  - vm_compute. reflexivity.
  - vm_compute. reflexivity.
Defined.

(** ** Construction *)

Lemma init_unfold (port : port_arg) (address always debug : pyval) :
  __init__ port address always debug
  = (set_address VNone ;;; get_software_revision ;;; ret tt)
      (fresh port address always debug).
Proof. destruct port; reflexivity. Qed.

Lemma fresh_configured (port : port_arg) (adr : Z) (always : bool) (debug : pyval) :
  configured (fresh port (VInt adr) (VBool always) debug) always adr.
Proof. split; reflexivity. Qed.

Lemma set_address_none (st : LambdaZup) (adr : Z) :
  attrs st !! "address" = Some (VInt adr) ->
  adr <= 0 \/ 32 <= adr ->
  set_address VNone st = (Raise AssertionError, st).
Proof.
  intros Ha Hr. unfold set_address. cbn [Py.truthy negb].
  erewrite bind_ok by (apply getattr_ok; exact Ha).
  erewrite bind_ok by reflexivity.
  replace ((0 <? adr) && (adr <? 32)) with false.
  - reflexivity.
  - symmetry. apply andb_false_iff.
    destruct Hr; [left; apply Z.ltb_ge | right; apply Z.ltb_ge]; lia.
Qed.

Lemma init_selects (port : port_arg) (adr : Z) (always : bool) (debug : pyval) :
  0 < adr < 32 ->
  __init__ port (VInt adr) (VBool always) debug
  = (get_software_revision ;;; ret tt)
      (assigned "address" (VInt adr)
         (sent (frame always adr (adr_text adr)) (fresh port (VInt adr) (VBool always) debug))).
Proof.
  intros Hr. rewrite init_unfold.
  pose proof (fresh_configured port adr always debug) as Hc.
  destruct (set_address_zero _ _ _ Hc Hr) as [_ Hn].
  erewrite bind_ok; [reflexivity|].
  rewrite Hn. exact (set_address_in_range _ _ _ _ Hc Hr).
Qed.

Lemma selected_configured (port : port_arg) (adr : Z) (always : bool) (debug : pyval) :
  configured
    (assigned "address" (VInt adr)
       (sent (frame always adr (adr_text adr)) (fresh port (VInt adr) (VBool always) debug)))
    always adr.
Proof. split; reflexivity. Qed.

(** X16.  Constructing a driver with an address from 1 to 31 on a port where
    a unit of table 5-2 answers the revision query succeeds; what went out
    is the address select and the revision query (each after the address
    select when that is switched on), one line was consumed, and the
    object is configured and knows its rated voltage, rated current and
    revision, as [set_voltage] and [set_current] need it. *)
Theorem constructor_identifies_unit (port : port_arg) (adr : Z) (always : bool)
        (debug : pyval) (ver rev : string) (mv tenths : Z) (w p : nat) :
  0 < adr < 32 ->
  hd "" (pending (port_of port)) = revision_reply ver mv tenths rev ->
  word ver = true -> word rev = true ->
  In ((mv, tenths), (w, p)) rated_current_formats ->
  exists st,
    __init__ port (VInt adr) (VBool always) debug = (Ok tt, st)
    /\ written (ser st) = (written (port_of port) ++ handshake always adr)%list
    /\ pending (ser st) = tl (pending (port_of port))
    /\ configured st always adr
    /\ attrs st !! "max_voltage" = Some (VInt mv)
    /\ attrs st !! "max_current" = Some (VFloat (rated_current tenths))
    /\ attrs st !! "software_revision" = Some (VStr rev).
Proof.
  intros Hr Hp Hv Hw Hin.
  rewrite (init_selects _ _ _ _ Hr).
  pose proof (selected_configured port adr always debug) as Hc.
  erewrite bind_ok
    by (apply (revision_identifies _ _ _ ver rev mv tenths w p Hc); assumption).
  eexists. split; [reflexivity|].
  split.
  { cbn [assign_all identity fold_left fst snd assigned ser revision_asked received sent written].
    unfold handshake. symmetry. apply (app_assoc (A := string)). }
  split; [reflexivity|].
  split; [split; reflexivity|].
  repeat split; reflexivity.
Qed.

Lemma constructor_identifies_unit_witness :
  exists st,
    __init__ (PortObject port60) (VInt 1) (VBool true) (VBool false) = (Ok tt, st)
    /\ written (ser st) = (written (port_of (PortObject port60)) ++ handshake true 1)%list
    /\ pending (ser st) = tl (pending (port_of (PortObject port60)))
    /\ configured st true 1
    /\ attrs st !! "max_voltage" = Some (VInt 60)
    /\ attrs st !! "max_current" = Some (VFloat (rated_current 35))
    /\ attrs st !! "software_revision" = Some (VStr "1.0").
Proof.
  apply (constructor_identifies_unit (PortObject port60) 1 true (VBool false)
           "Ver" "1.0" 60 35 5 3).
  - lia.
  - reflexivity.
  - reflexivity.
  - reflexivity.
  - simpl. do 12 right. left. reflexivity.
Defined.

(** X17.  Constructing a driver with an address of 0 or less, or of 32 or
    more, raises [AssertionError] before anything is transmitted: the port
    is as it was given. *)
Theorem constructor_rejects_address (port : port_arg) (adr : Z) (always debug : pyval) :
  adr <= 0 \/ 32 <= adr ->
  __init__ port (VInt adr) always debug
  = (Raise AssertionError, fresh port (VInt adr) always debug)
  /\ ser (fresh port (VInt adr) always debug) = port_of port.
Proof.
  intros Hr. split; [|reflexivity].
  rewrite init_unfold. apply bind_raise.
  apply (set_address_none _ adr); [reflexivity | exact Hr].
Qed.

Lemma constructor_rejects_address_witness :
  __init__ (PortObject port60) (VInt 0) (VBool true) (VBool false)
  = (Raise AssertionError, fresh (PortObject port60) (VInt 0) (VBool true) (VBool false))
  /\ ser (fresh (PortObject port60) (VInt 0) (VBool true) (VBool false))
     = port_of (PortObject port60).
Proof.
  apply (constructor_rejects_address (PortObject port60) 0). left. lia.
Defined.

(** X18.  Constructing a driver on a port where nothing answers raises
    [ValueError], after the address select and the revision query went
    out. *)
Theorem constructor_needs_a_reply (port : port_arg) (adr : Z) (always : bool)
        (debug : pyval) :
  0 < adr < 32 ->
  pending (port_of port) = [] ->
  exists st,
    __init__ port (VInt adr) (VBool always) debug = (Raise ValueError, st)
    /\ written (ser st) = (written (port_of port) ++ handshake always adr)%list.
Proof.
  intros Hr Hp.
  rewrite (init_selects _ _ _ _ Hr).
  pose proof (selected_configured port adr always debug) as Hc.
  assert (Hrev : get_software_revision
                   (assigned "address" (VInt adr)
                      (sent (frame always adr (adr_text adr))
                         (fresh port (VInt adr) (VBool always) debug)))
                 = (Raise ValueError,
                    revision_asked always adr
                      (assigned "address" (VInt adr)
                         (sent (frame always adr (adr_text adr))
                            (fresh port (VInt adr) (VBool always) debug))))).
  { rewrite (revision_unfold _ _ _ Hc). unfold revision_fields, next_reply.
    cbn [sent assigned ser pending fresh assign_all fold_left].
    rewrite Hp. reflexivity. }
  rewrite (bind_raise _ _ _ _ _ Hrev).
  eexists. split; [reflexivity|].
  cbn [assigned ser revision_asked received sent written].
  unfold handshake. symmetry. apply (app_assoc (A := string)).
Qed.

Lemma constructor_needs_a_reply_witness :
  exists st,
    __init__ (PortObject silent_port) (VInt 1) (VBool true) (VBool false)
    = (Raise ValueError, st)
    /\ written (ser st)
       = (written (port_of (PortObject silent_port)) ++ handshake true 1)%list.
Proof.
  apply (constructor_needs_a_reply (PortObject silent_port) 1 true (VBool false)).
  - lia.
  - reflexivity.
Defined.

(** ** Reading back what was written *)

Lemma digits_val_app (a b : string) (acc : Z) :
  PyStr.digits_val acc (a ++ b)
  = match PyStr.digits_val acc a with
    | Some v => PyStr.digits_val v b
    | None => None
    end.
Proof.
  revert acc. induction a as [|c a IH]; intros acc; [reflexivity|].
  cbn [String.append PyStr.digits_val]. destruct (PyStr.is_digit c); [apply IH | reflexivity].
Qed.

Lemma digit_val_digit_char (d : Z) : 0 <= d < 10 -> PyStr.digit_val (PyStr.digit_char d) = d.
Proof.
  intros H. assert (Hd : In d [0;1;2;3;4;5;6;7;8;9]) by (simpl; lia).
  simpl in Hd. decompose [or] Hd; subst; try reflexivity. contradiction.
Qed.

Lemma digits_val_digits_fixed (p : nat) (n acc : Z) :
  PyStr.digits_val acc (PyStr.digits_fixed p n)
  = Some (acc * 10 ^ Z.of_nat p + n mod 10 ^ Z.of_nat p).
Proof.
  revert n acc. induction p as [|p IH]; intros n acc.
  - cbn [PyStr.digits_fixed PyStr.digits_val]. f_equal.
    change (10 ^ Z.of_nat 0) with 1. rewrite Z.mod_1_r. lia.
  - cbn [PyStr.digits_fixed]. rewrite digits_val_app, IH.
    assert (Hd : 0 <= n mod 10 < 10) by (apply Z.mod_pos_bound; lia).
    cbn [PyStr.digits_val]. rewrite (is_digit_digit_char _ Hd), (digit_val_digit_char _ Hd).
    f_equal. rewrite Nat2Z.inj_succ, Z.pow_succ_r by lia.
    assert (Hp : 0 < 10 ^ Z.of_nat p) by (apply Z.pow_pos_nonneg; lia).
    rewrite (Z.rem_mul_r n 10 (10 ^ Z.of_nat p)) by lia. lia.
Qed.

Lemma digits_val_zeros (k : nat) (s : string) :
  PyStr.digits_val 0 (PyStr.repeat "0" k ++ s) = PyStr.digits_val 0 s.
Proof.
  induction k as [|k IH]; [reflexivity|].
  cbn [PyStr.repeat String.append PyStr.digits_val].
  change (PyStr.is_digit "0") with true. cbv iota.
  change (10 * 0 + PyStr.digit_val "0") with 0. exact IH.
Qed.

(** The text of a double in fixed-point presentation reads back as the
    double nearest to its value rounded to the decimals. *)
Lemma format_reads_back (w p : nat) (m : N) (e k : Z) :
  0 <= k <= 999 ->
  PyNum.mag_num m e <= k * PyNum.mag_den e ->
  Py.float_of_str (PyNum.format_float (fixed_spec w (S p)) (Ffin false m e))
  = Ok (PyNum.float_dec false (rounded (S p) m e) (S p)).
Proof.
  intros Hk Hle. cbn [PyNum.format_float PyNum.sign_str].
  rewrite pad_unsigned. cbn [fixed_spec PyNum.fs_prec].
  destruct (fixed_body_wide p m e k Hk Hle) as (scaled & Hsc & Hs & Hbody & Hip).
  rewrite Hbody.
  set (t := 10 ^ Z.of_nat (S p)) in *.
  assert (Ht : 0 < t) by (apply Z.pow_pos_nonneg; lia).
  destruct (dec_wide (scaled / t)) as (Dd & Ld & Vd); [lia|].
  set (n := (w - String.length (PyStr.dec (scaled / t) ++ "." ++ PyStr.digits_fixed (S p) scaled))%nat).
  rewrite <- app_assoc_s.
  change (PyStr.repeat "0" n ++ PyStr.dec (scaled / t)) with
    ("" ++ (PyStr.repeat "0" n ++ PyStr.dec (scaled / t))).
  rewrite app_assoc_s.
  change ("" ++ (PyStr.repeat "0" n ++ PyStr.dec (scaled / t)) ++ "." ++ PyStr.digits_fixed (S p) scaled)
    with ("" ++ (PyStr.repeat "0" n ++ PyStr.dec (scaled / t)) ++ "." ++ PyStr.digits_fixed (S p) scaled).
  rewrite float_of_str_shaped.
  - unfold field_value. cbn [String.eqb].
    rewrite length_digits_fixed. f_equal. f_equal.
    rewrite app_assoc_s, digits_val_zeros, digits_val_app, Vd, digits_val_digits_fixed.
    cbn [default id]. unfold rounded. fold t. rewrite <- Hsc.
    symmetry. rewrite Z.mul_comm. apply Z.div_mod. lia.
  - left. reflexivity.
  - rewrite all_chars_app, Dd, all_chars_repeat; reflexivity.
  - apply all_digits_digits_fixed.
  - cbn [PyStr.digits_fixed]. intros H.
    destruct (PyStr.digits_fixed p (scaled / 10)); discriminate.
Qed.

(** ** Queries that return a number *)

Lemma float_query_unfold (cmd tag name : string) (st : LambdaZup) (always : bool) (adr : Z) :
  configured st always adr -> framed cmd = true ->
  float_query cmd tag name st
  = (let out := next_reply st in
     let st' := received (sent (frame always adr cmd) st) in
     if String.eqb (PyStr.take 2 out) tag then
       match Py.float_of_str (PyStr.drop 2 out) with
       | Ok f => (Ok (VFloat f), assigned name (VFloat f) st')
       | Raise e => (Raise e, st')
       end
     else (Raise AssertionError, st')).
Proof.
  intros Hc Hf. unfold float_query.
  rewrite (bind_ok _ _ _ _ _ (ask_ok cmd st always adr Hc Hf)).
  change (next_reply (sent (frame always adr cmd) st)) with (next_reply st).
  cbv zeta. destruct (String.eqb (PyStr.take 2 (next_reply st)) tag); [|reflexivity].
  erewrite bind_ok by reflexivity.
  unfold set_float, bind, lift.
  destruct (Py.float_of_str (PyStr.drop 2 (next_reply st))) as [f|e]; [|reflexivity].
  unfold setattr. apply getattr_assigned.
Qed.

Lemma float_getters_framed (g : M pyval) (cmd tag name : string) :
  In (g, (cmd, (tag, name))) float_getters ->
  g = float_query cmd tag name /\ framed cmd = true /\ String.length tag = 2%nat.
Proof.
  intros Hin. simpl in Hin.
  repeat (destruct Hin as [Hin | Hin]; [inversion Hin; subst; clear Hin|]);
    try contradiction.
  all: repeat split; reflexivity.
Qed.

(** X19.  The six queries that return a number check the tag of the reply
    first: a reply whose first two characters are not the tag raises
    [AssertionError], and no attribute is changed. *)
Theorem float_getters_check_tag (g : M pyval) (cmd tag name : string)
        (st : LambdaZup) (always : bool) (adr : Z) :
  In (g, (cmd, (tag, name))) float_getters ->
  configured st always adr ->
  PyStr.take 2 (next_reply st) <> tag ->
  g st = (Raise AssertionError, received (sent (frame always adr cmd) st))
  /\ attrs (received (sent (frame always adr cmd) st)) = attrs st.
Proof.
  intros Hin Hc Ht. split; [|reflexivity].
  destruct (float_getters_framed _ _ _ _ Hin) as (-> & Hf & _).
  rewrite (float_query_unfold _ _ _ _ _ _ Hc Hf). cbv zeta.
  destruct (String.eqb_spec (PyStr.take 2 (next_reply st)) tag); [contradiction | reflexivity].
Qed.

Lemma float_getters_check_tag_witness :
  get_current_setp (zup6_reading "SV5.010")
  = (Raise AssertionError, received (sent (frame true 1 ":CUR!;") (zup6_reading "SV5.010")))
  /\ attrs (received (sent (frame true 1 ":CUR!;") (zup6_reading "SV5.010")))
     = attrs (zup6_reading "SV5.010").
Proof.
  apply (float_getters_check_tag get_current_setp ":CUR!;" "SA" "current_setp"
           (zup6_reading "SV5.010") true 1).
  - simpl. do 2 right. left. reflexivity.
  - split; reflexivity.
  - vm_compute. discriminate.
Defined.

Lemma float_query_reads (cmd tag name body : string) (f : pyfloat)
      (st : LambdaZup) (always : bool) (adr : Z) :
  configured st always adr -> framed cmd = true ->
  String.length tag = 2%nat ->
  hd "" (pending (ser st)) = tag ++ body ++ crlf ->
  no_trailing_space (tag ++ body) = true ->
  Py.float_of_str body = Ok f ->
  float_query cmd tag name st
  = (Ok (VFloat f), assigned name (VFloat f) (received (sent (frame always adr cmd) st))).
Proof.
  intros Hc Hf Hl Hp Hn Hv.
  rewrite (float_query_unfold _ _ _ _ _ _ Hc Hf). cbv zeta.
  unfold next_reply. rewrite Hp, <- app_assoc_s.
  rewrite (rstrip_app_space _ crlf eq_refl Hn).
  rewrite <- Hl, take_app, drop_app, String.eqb_refl, Hv. reflexivity.
Qed.

Lemma shaped_no_trailing_space (a fr : string) :
  Py.all_chars PyStr.is_digit fr = true -> fr <> "" ->
  no_trailing_space (a ++ fr) = true.
Proof.
  intros Hd Hne. unfold no_trailing_space. rewrite (last_app_nonempty _ _ Hne).
  destruct (PyStr.last fr) as [c|] eqn:Hl; [|reflexivity].
  rewrite (digit_not_space _ (last_all_chars _ _ _ Hd Hl)). reflexivity.
Qed.

(** X20.  On a reply made of the tag, an optional sign, digits, a point and
    at least one digit, each of the six queries that return a number
    returns the double of that numeral and stores it under its
    attribute. *)
Theorem float_getters_read_number (g : M pyval) (cmd tag name sign ds fr : string)
        (st : LambdaZup) (always : bool) (adr : Z) :
  In (g, (cmd, (tag, name))) float_getters ->
  configured st always adr ->
  hd "" (pending (ser st)) = tag ++ (sign ++ ds ++ "." ++ fr) ++ crlf ->
  (sign = "" \/ sign = "+" \/ sign = "-") ->
  Py.all_chars PyStr.is_digit ds = true ->
  Py.all_chars PyStr.is_digit fr = true ->
  fr <> "" ->
  g st = (Ok (VFloat (field_value sign ds fr)),
          assigned name (VFloat (field_value sign ds fr))
            (received (sent (frame always adr cmd) st))).
Proof.
  intros Hin Hc Hp Hs Hds Hfr Hne.
  destruct (float_getters_framed _ _ _ _ Hin) as (-> & Hf & Hl).
  apply (float_query_reads _ _ _ (sign ++ ds ++ "." ++ fr) _ _ _ _ Hc Hf Hl Hp).
  - replace (tag ++ sign ++ ds ++ "." ++ fr) with ((tag ++ sign ++ ds ++ ".") ++ fr)
      by (rewrite !app_assoc_s; reflexivity).
    apply shaped_no_trailing_space; assumption.
  - apply float_of_str_shaped; assumption.
Qed.

Lemma float_getters_read_number_witness :
  get_over_voltage_protection (zup6_reading ("OP" ++ ("" ++ "08" ++ "." ++ "4") ++ crlf))
  = (Ok (VFloat (field_value "" "08" "4")),
     assigned "over_voltage" (VFloat (field_value "" "08" "4"))
       (received (sent (frame true 1 ":OVP?;")
                    (zup6_reading ("OP" ++ ("" ++ "08" ++ "." ++ "4") ++ crlf))))).
Proof.
  apply (float_getters_read_number get_over_voltage_protection ":OVP?;" "OP" "over_voltage"
           "" "08" "4" _ true 1).
  - simpl. do 4 right. left. reflexivity.
  - split; reflexivity.
  - reflexivity.
  - left. reflexivity.
  - reflexivity.
  - reflexivity.
  - discriminate.
Defined.

(** ** Programming, then reading back *)

Lemma set_voltage_sends (st : LambdaZup) (always : bool) (adr mv : Z) (w p : nat)
      (v : pyval) (text : string) :
  configured st always adr ->
  attrs st !! "max_voltage" = Some (VInt mv) ->
  In (mv, (w, p)) rated_formats ->
  within v mv = true ->
  Py.format_f (fixed_spec w p) v = Ok text ->
  set_voltage v st = (Ok tt, sent (frame always adr (":VOL" ++ text ++ ";")) st).
Proof.
  intros Hc Hmv Hin Hw Ht.
  assert (Hnum : Py.num_of v <> None).
  { unfold within in Hw. destruct (Py.num_of v); discriminate. }
  destruct (format_vol_template _ _ _ v Hin Hnum) as (fs & tpl & H1 & H2 & H3).
  unfold set_voltage. unfold bind at 1. rewrite (in_range_max_voltage _ _ _ Hmv).
  destruct (Py.num_of v); [|contradiction]. rewrite Hw.
  unfold bind, assert, getattr, lift, ret. rewrite Hmv, H1, H2, H3, Ht.
  apply (write_ok _ _ _ _ Hc). apply (framed_command "VOL").
Qed.

Lemma set_current_sends (st : LambdaZup) (always : bool) (adr mv tenths : Z) (w p : nat)
      (v : pyval) (text : string) :
  configured st always adr ->
  attrs st !! "max_voltage" = Some (VInt mv) ->
  attrs st !! "max_current" = Some (VFloat (rated_current tenths)) ->
  In ((mv, tenths), (w, p)) rated_current_formats ->
  within_float_bound v (rated_current tenths) = true ->
  Py.format_f (fixed_spec w p) v = Ok text ->
  set_current v st = (Ok tt, sent (frame always adr (":CUR" ++ text ++ ";")) st).
Proof.
  intros Hc Hmv Hmc Hin Hw Ht.
  assert (Hnum : Py.num_of v <> None).
  { unfold within_float_bound in Hw. destruct (Py.num_of v); discriminate. }
  destruct (format_cur_template _ _ _ _ v Hin Hnum) as (fs & tpl & H1 & H2 & H3).
  unfold set_current. unfold bind at 1. rewrite (in_range_max_current _ _ _ Hmc).
  destruct (Py.num_of v); [|contradiction]. rewrite Hw.
  unfold bind, assert, getattr, lift, ret. rewrite Hmv, Hmc, H1, H2, H3, Ht.
  apply (write_ok _ _ _ _ Hc). apply (framed_command "CUR").
Qed.

Lemma format_no_trailing_space (tag : string) (w p : nat) (m : N) (e : Z) :
  no_trailing_space (tag ++ PyNum.format_float (fixed_spec w (S p)) (Ffin false m e)) = true.
Proof.
  cbn [PyNum.format_float PyNum.sign_str]. rewrite pad_unsigned.
  cbn [fixed_spec PyNum.fs_prec]. unfold PyNum.fixed_body.
  rewrite <- !app_assoc_s. apply shaped_no_trailing_space.
  - apply all_digits_digits_fixed.
  - cbn [PyStr.digits_fixed]. intros H.
    destruct (PyStr.digits_fixed p _); discriminate.
Qed.

Lemma rated_formats_decimals (mv : Z) (w p : nat) :
  In (mv, (w, p)) rated_formats -> 0 <= mv <= 999 /\ exists q, p = S q.
Proof.
  intros Hin. simpl in Hin.
  repeat (destruct Hin as [Hin | Hin]; [inversion Hin; subst; clear Hin|]);
    try contradiction.
  all: split; [lia | eexists; reflexivity].
Qed.

(** X21.  Programming a voltage and reading the setpoint back: when the unit
    echoes the text [set_voltage] sent, [get_voltage_setp] returns the
    double nearest to the value rounded (half to even) to the decimals of
    the model. *)
Theorem voltage_reads_back_rounded (st : LambdaZup) (always : bool) (adr mv : Z)
        (w p : nat) (m : N) (e : Z) :
  configured st always adr ->
  attrs st !! "max_voltage" = Some (VInt mv) ->
  In (mv, (w, p)) rated_formats ->
  within (VFloat (Ffin false m e)) mv = true ->
  echoes "SV" w p (Ffin false m e) st ->
  let text := PyNum.format_float (fixed_spec w p) (Ffin false m e) in
  let back := VFloat (PyNum.float_dec false (rounded p m e) p) in
  (set_voltage (VFloat (Ffin false m e)) ;;; get_voltage_setp) st
  = (Ok back,
     assigned "voltage_setp" back
       (received (sent (frame always adr ":VOL!;")
                    (sent (frame always adr (":VOL" ++ text ++ ";")) st)))).
Proof.
  intros Hc Hmv Hin Hw He text back.
  destruct (rated_formats_decimals _ _ _ Hin) as (Hk & q & ->).
  destruct (within_float _ _ _ _ Hw) as [_ Hle].
  rewrite (bind_ok _ _ _ _ _
             (set_voltage_sends st always adr mv w (S q) _ text Hc Hmv Hin Hw eq_refl)).
  apply (float_query_reads ":VOL!;" "SV" "voltage_setp" text).
  - exact Hc.
  - reflexivity.
  - reflexivity.
  - exact He.
  - apply format_no_trailing_space.
  - exact (format_reads_back w q m e mv Hk Hle).
Qed.

Lemma voltage_reads_back_rounded_witness :
  (set_voltage (VFloat (PyNum.float_dec false 25 1)) ;;; get_voltage_setp) zup6_echo
  = (Ok (VFloat (PyNum.float_dec false 2500 3)),
     assigned "voltage_setp" (VFloat (PyNum.float_dec false 2500 3))
       (received (sent (frame true 1 ":VOL!;")
                    (sent (frame true 1 ":VOL2.500;") zup6_echo)))).
Proof.
  apply (voltage_reads_back_rounded zup6_echo true 1 6 5 3 5629499534213120%N (-51)).
  - split; reflexivity.
  - reflexivity.
  - simpl. left. reflexivity.
  - vm_compute. reflexivity.
  - vm_compute. reflexivity.
Defined.

Lemma current_bound_holds (mv tenths : Z) (w p : nat) (m : N) (e : Z) :
  In ((mv, tenths), (w, p)) rated_current_formats ->
  within_float_bound (VFloat (Ffin false m e)) (rated_current tenths) = true ->
  0 <= current_bound tenths <= 999
  /\ PyNum.mag_num m e <= current_bound tenths * PyNum.mag_den e
  /\ exists q, p = S q.
Proof.
  intros Hin Hw. pose proof (current_model_of_table _ _ _ _ Hin) as Hok.
  unfold current_model_ok in Hok. set (k := current_bound tenths) in *.
  destruct (rated_current tenths) as [| |[] M E]; try discriminate.
  repeat (apply andb_true_iff in Hok as [Hok ?]).
  match goal with H : (1 <=? p)%nat = true |- _ => apply Nat.leb_le in H; rename H into Hp end.
  match goal with H : (k <=? 999) = true |- _ => apply Z.leb_le in H; rename H into Hk2 end.
  match goal with H : (0 <=? k) = true |- _ => apply Z.leb_le in H; rename H into Hk1 end.
  apply Z.leb_le in Hok.
  unfold within_float_bound in Hw. cbn [Py.num_of] in Hw. unfold PyNum.le in Hw.
  cbn [PyNum.ext_of PyNum.ext_of_float] in Hw.
  apply andb_true_iff in Hw as [_ H2]. apply Z.leb_le in H2.
  split; [lia|]. split.
  - exact (le_scale _ _ _ _ k (mag_den_pos e) (mag_den_pos E) H2 Hok).
  - destruct p as [|q]; [lia | eexists; reflexivity].
Qed.

(** X22.  Programming a current and reading the setpoint back: when the unit
    echoes the text [set_current] sent, [get_current_setp] returns the
    double nearest to the value rounded (half to even) to the decimals of
    the model. *)
Theorem current_reads_back_rounded (st : LambdaZup) (always : bool) (adr mv tenths : Z)
        (w p : nat) (m : N) (e : Z) :
  configured st always adr ->
  attrs st !! "max_voltage" = Some (VInt mv) ->
  attrs st !! "max_current" = Some (VFloat (rated_current tenths)) ->
  In ((mv, tenths), (w, p)) rated_current_formats ->
  within_float_bound (VFloat (Ffin false m e)) (rated_current tenths) = true ->
  echoes "SA" w p (Ffin false m e) st ->
  let text := PyNum.format_float (fixed_spec w p) (Ffin false m e) in
  let back := VFloat (PyNum.float_dec false (rounded p m e) p) in
  (set_current (VFloat (Ffin false m e)) ;;; get_current_setp) st
  = (Ok back,
     assigned "current_setp" back
       (received (sent (frame always adr ":CUR!;")
                    (sent (frame always adr (":CUR" ++ text ++ ";")) st)))).
Proof.
  intros Hc Hmv Hmc Hin Hw He text back.
  destruct (current_bound_holds _ _ _ _ _ _ Hin Hw) as (Hk & Hle & q & ->).
  rewrite (bind_ok _ _ _ _ _
             (set_current_sends st always adr mv tenths w (S q) _ text
                Hc Hmv Hmc Hin Hw eq_refl)).
  apply (float_query_reads ":CUR!;" "SA" "current_setp" text).
  - exact Hc.
  - reflexivity.
  - reflexivity.
  - exact He.
  - apply format_no_trailing_space.
  - exact (format_reads_back w q m e _ Hk Hle).
Qed.

Lemma current_reads_back_rounded_witness :
  (set_current (VFloat (PyNum.float_dec false 25 1)) ;;; get_current_setp) zup60_echo
  = (Ok (VFloat (PyNum.float_dec false 2500 3)),
     assigned "current_setp" (VFloat (PyNum.float_dec false 2500 3))
       (received (sent (frame true 1 ":CUR!;")
                    (sent (frame true 1 ":CUR2.500;") zup60_echo)))).
Proof.
  apply (current_reads_back_rounded zup60_echo true 1 60 35 5 3 5629499534213120%N (-51)).
  - split; reflexivity.
  - reflexivity.
  - reflexivity.
  - simpl. do 12 right. left. reflexivity.
  - vm_compute. reflexivity.
  - vm_compute. reflexivity.
Defined.

(** ** Remote mode *)

Lemma set_remote_mode_number (v : pyval) (st : LambdaZup) (always : bool) (adr : Z) :
  configured st always adr ->
  Py.num_of v <> None ->
  (exists d, 0 <= d <= 2 /\ Py.eq v (VInt d) = true
             /\ set_remote_mode v st = (Ok tt, sent (frame always adr (rmt_command d)) st))
  \/ (Py.contains [VInt 0; VInt 1; VInt 2] v = false
      /\ set_remote_mode v st = (Raise AssertionError, st)).
Proof.
  intros Hc Hn.
  assert (Hs : forall s, Py.eq v (VStr s) = false).
  { intros s. unfold Py.eq. destruct v; try reflexivity; exfalso; apply Hn; reflexivity. }
  unfold set_remote_mode. rewrite !Hs.
  destruct (Py.contains [VInt 0; VInt 1; VInt 2] v) eqn:Hin.
  - left.
    assert (Hd : exists d, 0 <= d <= 2 /\ Py.eq v (VInt d) = true).
    { unfold Py.contains in Hin. cbn [existsb] in Hin.
      destruct (Py.eq v (VInt 0)) eqn:E0; [exists 0; split; [lia | exact E0]|].
      destruct (Py.eq v (VInt 1)) eqn:E1; [exists 1; split; [lia | exact E1]|].
      destruct (Py.eq v (VInt 2)) eqn:E2; [exists 2; split; [lia | exact E2]|].
      discriminate. }
    destruct Hd as (d & Hd & He). exists d. split; [exact Hd|]. split; [exact He|].
    assert (Hi : Py.format_i {| PyNum.fs_zero := false; PyNum.fs_width := 0; PyNum.fs_prec := 0 |} v
                 = Ok (PyStr.dec d)).
    { assert (Hint : Py.int v = Ok d).
      { unfold Py.eq in He. destruct v as [|b|z|f|s|r]; try (exfalso; apply Hn; reflexivity).
        - cbn [Py.num_of] in He. unfold PyNum.eqb in He. cbn [PyNum.ext_of] in He.
          apply Z.eqb_eq in He. cbn [Py.int]. f_equal. lia.
        - cbn [Py.num_of] in He. unfold PyNum.eqb in He. cbn [PyNum.ext_of] in He.
          apply Z.eqb_eq in He. cbn [Py.int]. f_equal. lia.
        - cbn [Py.num_of] in He. unfold PyNum.eqb in He.
          cbn [PyNum.ext_of PyNum.ext_of_float] in He.
          destruct f as [|neg|neg m e]; [discriminate | destruct neg; discriminate |].
          apply Z.eqb_eq in He. cbn [Py.int]. f_equal. unfold PyNum.trunc.
          pose proof (mag_num_nonneg m e) as Hm. pose proof (mag_den_pos e) as Hp.
          destruct neg.
          + assert (PyNum.mag_num m e = 0) by nia. assert (d = 0) by nia. subst d.
            rewrite H. rewrite Z.div_0_l by lia. reflexivity.
          + assert (Hq : PyNum.mag_num m e = d * PyNum.mag_den e) by lia.
            rewrite Hq. apply Z.div_mul. lia. }
      assert (Hf : PyNum.format_int
                     {| PyNum.fs_zero := false; PyNum.fs_width := 0; PyNum.fs_prec := 0 |} d
                   = PyStr.dec d).
      { assert (Hcase : d = 0 \/ d = 1 \/ d = 2) by lia.
        destruct Hcase as [-> | [-> | ->]]; reflexivity. }
      unfold Py.format_i. rewrite Hint, Hf.
      destruct v; try reflexivity; exfalso; apply Hn; reflexivity. }
    unfold bind, assert, lift, ret. rewrite Hi.
    apply (write_ok _ _ _ _ Hc). apply (framed_command "RMT").
  - right. split; reflexivity.
Qed.

(** X23.  [set_remote_mode] either transmits one of [:RMT0;], [:RMT1;] and
    [:RMT2;] or raises [AssertionError] with nothing transmitted; the names
    [local], [non-latched] and [latched] stand for 0, 1 and 2; an int is
    accepted exactly when it is 0, 1 or 2. *)
Theorem set_remote_mode_commands (mode : pyval) (st : LambdaZup) (always : bool) (adr : Z) :
  configured st always adr ->
  ((exists d, 0 <= d <= 2
              /\ set_remote_mode mode st
                 = (Ok tt, sent (frame always adr (rmt_command d)) st))
   \/ set_remote_mode mode st = (Raise AssertionError, st))
  /\ (forall name d, In (name, d) remote_modes ->
        set_remote_mode (VStr name) st
        = (Ok tt, sent (frame always adr (rmt_command d)) st))
  /\ (forall z, set_remote_mode (VInt z) st
                = if (0 <=? z) && (z <=? 2)
                  then (Ok tt, sent (frame always adr (rmt_command z)) st)
                  else (Raise AssertionError, st)).
Proof.
  intros Hc.
  assert (Hnames : forall name d, In (name, d) remote_modes ->
            set_remote_mode (VStr name) st
            = (Ok tt, sent (frame always adr (rmt_command d)) st)).
  { intros name d Hin. simpl in Hin.
    repeat (destruct Hin as [Hin | Hin]; [inversion Hin; subst; clear Hin|]);
      try contradiction.
    all: unfold set_remote_mode; cbn [Py.eq Py.num_of String.eqb Ascii.eqb Bool.eqb].
    all: cbv [Py.contains existsb Py.eq Py.num_of PyNum.eqb PyNum.ext_of Z.eqb Z.mul
              Pos.mul Pos.eqb orb].
    all: unfold bind, assert, lift, ret; cbn [Py.format_i Py.int].
    all: match goal with
         | |- context [PyNum.format_int ?sp ?z] =>
             change (PyNum.format_int sp z) with (PyStr.dec z)
         end.
    all: apply (write_ok _ _ _ _ Hc); apply (framed_command "RMT"). }
  split; [|split; [exact Hnames|]].
  - destruct (Py.num_of mode) eqn:Hn.
    + destruct (set_remote_mode_number mode st always adr Hc) as [(d & Hd & _ & H) | [_ H]].
      * rewrite Hn. discriminate.
      * left. exists d. split; assumption.
      * right. exact H.
    + destruct mode as [|b|z|f|s|r]; try discriminate.
      * right. reflexivity.
      * destruct (String.eqb_spec s "local") as [->|H0];
          [left; exists 0; split; [lia | apply Hnames; simpl; auto]|].
        destruct (String.eqb_spec s "non-latched") as [->|H1];
          [left; exists 1; split; [lia | apply Hnames; simpl; auto]|].
        destruct (String.eqb_spec s "latched") as [->|H2];
          [left; exists 2; split; [lia | apply Hnames; simpl; auto]|].
        right. unfold set_remote_mode. unfold Py.eq at 1 2 3. cbn [Py.num_of].
        apply String.eqb_neq in H0, H1, H2. rewrite H0, H1, H2. reflexivity.
      * right. reflexivity.
  - intros z.
    destruct (set_remote_mode_number (VInt z) st always adr Hc) as [(d & Hd & He & H) | [Hn H]].
    + discriminate.
    + unfold Py.eq in He. cbn [Py.num_of] in He. unfold PyNum.eqb in He.
      cbn [PyNum.ext_of] in He. apply Z.eqb_eq in He. assert (z = d) by lia. subst z.
      rewrite H. replace ((0 <=? d) && (d <=? 2)) with true; [reflexivity|].
      symmetry. apply andb_true_iff. split; apply Z.leb_le; lia.
    + rewrite H. replace ((0 <=? z) && (z <=? 2)) with false; [reflexivity|].
      symmetry. apply not_true_is_false. intros Hz. apply andb_true_iff in Hz as [H1 H2].
      apply Z.leb_le in H1, H2.
      unfold Py.contains in Hn. cbn [existsb] in Hn.
      unfold Py.eq in Hn. cbn [Py.num_of] in Hn. unfold PyNum.eqb in Hn.
      cbn [PyNum.ext_of] in Hn.
      assert (Hcase : z = 0 \/ z = 1 \/ z = 2) by lia.
      destruct Hcase as [-> | [-> | ->]]; discriminate.
Qed.

Lemma set_remote_mode_commands_witness :
  ((exists d, 0 <= d <= 2
              /\ set_remote_mode (VStr "latched") zup6
                 = (Ok tt, sent (frame true 1 (rmt_command d)) zup6))
   \/ set_remote_mode (VStr "latched") zup6 = (Raise AssertionError, zup6))
  /\ (forall name d, In (name, d) remote_modes ->
        set_remote_mode (VStr name) zup6
        = (Ok tt, sent (frame true 1 (rmt_command d)) zup6))
  /\ (forall z, set_remote_mode (VInt z) zup6
                = if (0 <=? z) && (z <=? 2)
                  then (Ok tt, sent (frame true 1 (rmt_command z)) zup6)
                  else (Raise AssertionError, zup6)).
Proof.
  apply (set_remote_mode_commands (VStr "latched") zup6 true 1).
  split; vm_compute; reflexivity.
Defined.

(** ** No thread waits for ever *)

Lemma owners_exist_step (σ σ' : Threads.state) :
  owners_exist σ -> Threads.step σ σ' -> owners_exist σ'.
Proof.
  intros Hown Hs. destruct Hs as [σ t a rest lk' b' Hp He].
  intros l o n Hl. cbn [Threads.locks Threads.pool] in *.
  apply lookup_lt_is_Some. rewrite length_insert. apply lookup_lt_is_Some.
  assert (Ht : is_Some (Threads.pool σ !! t)) by (rewrite Hp; eexists; reflexivity).
  destruct a as [l0|l0|x|x| | ]; cbn [Threads.exec] in He.
  - destruct (Threads.locks σ !! l0) as [[o0 n0]|] eqn:E.
    + destruct (decide (o0 = t)) as [->|]; [|discriminate].
      injection He as <- <-.
      destruct (decide (l = l0)) as [->|Hne].
      * rewrite lookup_insert_eq in Hl. injection Hl as <- <-. exact Ht.
      * rewrite lookup_insert_ne in Hl by congruence. exact (Hown _ _ _ Hl).
    + injection He as <- <-.
      destruct (decide (l = l0)) as [->|Hne].
      * rewrite lookup_insert_eq in Hl. injection Hl as <- <-. exact Ht.
      * rewrite lookup_insert_ne in Hl by congruence. exact (Hown _ _ _ Hl).
  - destruct (Threads.locks σ !! l0) as [[o0 [|n0]]|] eqn:E; try discriminate.
    destruct (decide (o0 = t)) as [->|]; [|discriminate].
    injection He as <- <-.
    destruct (decide (l = l0)) as [->|Hne].
    + destruct n0 as [|n0].
      * rewrite lookup_delete_eq in Hl. discriminate.
      * rewrite lookup_insert_eq in Hl. injection Hl as <- <-. exact Ht.
    + destruct n0 as [|n0].
      * rewrite lookup_delete_ne in Hl by congruence. exact (Hown _ _ _ Hl).
      * rewrite lookup_insert_ne in Hl by congruence. exact (Hown _ _ _ Hl).
  - injection He as <- <-. exact (Hown _ _ _ Hl).
  - injection He as <- <-. exact (Hown _ _ _ Hl).
  - injection He as <- <-. exact (Hown _ _ _ Hl).
  - injection He as <- <-. exact (Hown _ _ _ Hl).
Qed.

Lemma owners_exist_reachable (threads : list (list Threads.call)) (σ : Threads.state) :
  Threads.reachable (Threads.init threads) σ -> owners_exist σ.
Proof.
  intros Hr. unfold Threads.reachable in Hr.
  apply (rtc_ind_r (R := Threads.step) owners_exist (Threads.init threads)).
  - intros l o n Hl. cbn [Threads.init Threads.locks] in Hl.
    rewrite lookup_empty in Hl. discriminate.
  - intros σ1 σ2 _ Hs IH. exact (owners_exist_step σ1 σ2 IH Hs).
  - exact Hr.
Qed.

(** A thread that holds the lock can always go on. *)
Lemma owner_can_step (l : nat) (σ : Threads.state) (o n : nat) :
  lock_invariant l σ -> owners_exist σ ->
  Threads.locks σ !! l = Some (o, n) ->
  exists σ', Threads.step σ σ'.
Proof.
  intros (Hord & Hpos & _ & _) Hown Hl.
  destruct (Hown _ _ _ Hl) as [r Hr].
  pose proof (Hord _ _ Hr) as Hin. pose proof (Hpos _ _ Hl) as Hn.
  assert (Hh : held l σ o = n).
  { unfold held, holds. rewrite Hl. destruct (decide (o = o)); [reflexivity | congruence]. }
  rewrite Hh in Hin.
  destruct r as [|a rest].
  { cbn [in_order] in Hin. apply Nat.eqb_eq in Hin. lia. }
  assert (He : is_Some (Threads.exec o a (Threads.locks σ) (Threads.bus σ))).
  { destruct a as [l0|l0|x|x| | ]; cbn [in_order] in Hin; cbn [Threads.exec];
      try (eexists; reflexivity).
    - apply andb_true_iff in Hin as [Hl0 _]. apply Nat.eqb_eq in Hl0 as ->.
      rewrite Hl. destruct (decide (o = o)); [eexists; reflexivity | congruence].
    - apply andb_true_iff in Hin as [Hl0 _]. apply Nat.eqb_eq in Hl0 as ->.
      rewrite Hl. destruct n as [|n']; [lia|].
      destruct (decide (o = o)); [eexists; reflexivity | congruence]. }
  destruct He as [[lk' b'] He].
  eexists. exact (Threads.step_thread σ o a rest lk' b' Hr He).
Qed.

Lemma progress (l : nat) (σ : Threads.state) :
  lock_invariant l σ -> owners_exist σ ->
  (exists σ', Threads.step σ σ') \/ (finished σ /\ Threads.locks σ !! l = None).
Proof.
  intros Hinv Hown.
  destruct (Threads.locks σ !! l) as [[o n]|] eqn:Hl.
  { left. exact (owner_can_step l σ o n Hinv Hown Hl). }
  assert (Hdec : forall r : list Threads.action, {r = nil} + {r <> nil}).
  { intros [|a r]; [left; reflexivity | right; discriminate]. }
  destruct (Forall_Exists_dec (fun r => r = nil) (fun r => r <> nil) Hdec (Threads.pool σ)) as [Hall | Hex].
  { right. split; [exact Hall | reflexivity]. }
  left. apply Exists_exists in Hex as (r & Hr & Hne).
  apply list_elem_of_lookup in Hr as [t Ht].
  destruct r as [|a rest]; [congruence|].
  destruct Hinv as (Hord & _).
  pose proof (Hord _ _ Ht) as Hin.
  assert (Hh : held l σ t = O) by (unfold held, holds; rewrite Hl; reflexivity).
  rewrite Hh in Hin.
  assert (He : is_Some (Threads.exec t a (Threads.locks σ) (Threads.bus σ))).
  { destruct a as [l0|l0|x|x| | ]; cbn [in_order] in Hin; cbn [Threads.exec];
      try (eexists; reflexivity).
    - apply andb_true_iff in Hin as [Hl0 _]. apply Nat.eqb_eq in Hl0 as ->.
      rewrite Hl. eexists; reflexivity.
    - apply andb_true_iff in Hin as [_ Hin]. discriminate. }
  destruct He as [[lk' b'] He].
  eexists. exact (Threads.step_thread σ t a rest lk' b' Ht He).
Qed.

(** X24.  Threads that all go through one instance never block for ever: in
    every state they can reach, some thread can take a step, unless all
    calls have returned, and then the lock is free.  The inner [_write] of
    [_ask] takes the lock a second time, which the re-entrant lock
    allows. *)
Theorem one_instance_never_blocks (l : nat) (threads : list (list Threads.call))
        (σ : Threads.state) :
  Forall (Forall (fun c => Threads.inst (Threads.call_driver c) = l)) threads ->
  Threads.reachable (Threads.init threads) σ ->
  (exists σ', Threads.step σ σ') \/ (finished σ /\ Threads.locks σ !! l = None).
Proof.
  intros Hall Hr. apply progress.
  - exact (lock_invariant_reachable l threads σ Hall Hr).
  - exact (owners_exist_reachable threads σ Hr).
Qed.

Lemma one_instance_never_blocks_witness :
  (exists σ', Threads.step (after query_started two_callers) σ')
  \/ (finished (after query_started two_callers)
      /\ Threads.locks (after query_started two_callers) !! 1%nat = None).
Proof.
  apply (one_instance_never_blocks 1 two_callers).
  - repeat constructor.
  - apply (run_reachable query_started). vm_compute. reflexivity.
Defined.

(** ** Queries without a check, and the two views of a call *)

(** X25.  [get_model] and [get_remote_mode] do not look at what the reply
    says: for every ASCII line that comes back they store and return it
    without its trailing whitespace (the empty string on a timeout);
    [clear_comm_buffer] transmits [:DCL;]. *)
Theorem plain_queries_store_any_reply (st : LambdaZup) (always : bool) (adr : Z) :
  configured st always adr ->
  ascii_text (hd "" (pending (ser st))) = true ->
  let reply := VStr (next_reply st) in
  get_model st
  = (Ok reply, assigned "model" reply (received (sent (frame always adr ":MDL?;") st)))
  /\ get_remote_mode st
     = (Ok reply,
        assigned "remote_mode" reply (received (sent (frame always adr ":RMT?;") st)))
  /\ clear_comm_buffer st = (Ok tt, sent (frame always adr ":DCL;") st).
Proof.
  intros Hc _ reply. split; [|split].
  - unfold get_model.
    rewrite (bind_ok _ _ _ _ _ (ask_ok ":MDL?;" st always adr Hc eq_refl)).
    erewrite bind_ok by reflexivity. apply getattr_assigned.
  - unfold get_remote_mode.
    rewrite (bind_ok _ _ _ _ _ (ask_ok ":RMT?;" st always adr Hc eq_refl)).
    erewrite bind_ok by reflexivity. apply getattr_assigned.
  - exact (write_ok ":DCL;" st always adr Hc eq_refl).
Qed.

Lemma plain_queries_store_any_reply_witness :
  get_model (zup6_reading ("OT1 ?" ++ crlf))
  = (Ok (VStr "OT1 ?"),
     assigned "model" (VStr "OT1 ?")
       (received (sent (frame true 1 ":MDL?;") (zup6_reading ("OT1 ?" ++ crlf)))))
  /\ get_remote_mode (zup6_reading ("OT1 ?" ++ crlf))
     = (Ok (VStr "OT1 ?"),
        assigned "remote_mode" (VStr "OT1 ?")
          (received (sent (frame true 1 ":RMT?;") (zup6_reading ("OT1 ?" ++ crlf)))))
  /\ clear_comm_buffer (zup6_reading ("OT1 ?" ++ crlf))
     = (Ok tt, sent (frame true 1 ":DCL;") (zup6_reading ("OT1 ?" ++ crlf))).
Proof.
  apply (plain_queries_store_any_reply (zup6_reading ("OT1 ?" ++ crlf)) true 1).
  - split; reflexivity.
  - reflexivity.
Defined.

Lemma sends_write_prog (l : nat) (always : bool) (adr : Z) (cmd : string) :
  sends (Threads.write_prog (driver_of l always adr) cmd)
  = if framed cmd then frame always adr cmd else [].
Proof.
  unfold Threads.write_prog, frame, adr_text. cbn [driver_of Threads.inst
    Threads.always_send_address Threads.address].
  destruct (framed cmd); [|reflexivity]. destruct always; reflexivity.
Qed.

(** X26.  The two views of a call agree: what [_write] and [_ask] put on the
    port and take from it is what their thread programs send and read,
    also for a command that is not framed (nothing); and each program
    releases the lock as often as it takes it. *)
Theorem thread_view_agrees (st : LambdaZup) (l : nat) (always : bool) (adr : Z)
        (cmd : string) :
  configured st always adr ->
  let d := driver_of l always adr in
  written (ser (snd (_write cmd st)))
  = (written (ser st) ++ sends (Threads.write_prog d cmd))%list
  /\ written (ser (snd (_ask cmd st)))
     = (written (ser st) ++ sends (Threads.ask_prog d cmd))%list
  /\ pending (ser (snd (_write cmd st))) = pending (ser st)
  /\ pending (ser (snd (_ask cmd st)))
     = drop (reads (Threads.ask_prog d cmd)) (pending (ser st))
  /\ takes l (Threads.write_prog d cmd) = releases l (Threads.write_prog d cmd)
  /\ takes l (Threads.ask_prog d cmd) = releases l (Threads.ask_prog d cmd).
Proof.
  intros Hc d.
  assert (Hs : sends (Threads.ask_prog d cmd) = sends (Threads.write_prog d cmd)).
  { unfold Threads.ask_prog, sends. rewrite !flat_map_app.
    cbn [flat_map port_data app]. destruct (framed cmd); cbn [flat_map port_data app];
      rewrite ?app_nil_r; reflexivity. }
  rewrite Hs. unfold d. rewrite sends_write_prog.
  unfold Threads.ask_prog, Threads.write_prog, takes, releases, reads.
  cbn [driver_of Threads.inst Threads.always_send_address Threads.address].
  destruct (framed cmd) eqn:Hf.
  - rewrite (write_ok cmd st always adr Hc Hf), (ask_ok cmd st always adr Hc Hf).
    cbn [snd sent received ser written pending].
    repeat split.
    + destruct always; cbn; rewrite ?Nat.eqb_refl; cbn; destruct (pending (ser st)); reflexivity.
    + destruct always; cbn; rewrite ?Nat.eqb_refl; reflexivity.
    + destruct always; cbn; rewrite ?Nat.eqb_refl; reflexivity.
  - assert (Hw : snd (_write cmd st) = st)
      by (destruct (write_unframed cmd st Hf) as [-> | ->]; reflexivity).
    assert (Ha : snd (_ask cmd st) = st)
      by (destruct (ask_unframed cmd st Hf) as [-> | ->]; reflexivity).
    rewrite Hw, Ha, app_nil_r. repeat split.
    cbn. rewrite Nat.eqb_refl. reflexivity.
Qed.

Lemma thread_view_agrees_witness :
  written (ser (snd (_write ":OUT1;" zup6)))
  = (written (ser zup6) ++ sends (Threads.write_prog (driver_of 1 true 1) ":OUT1;"))%list
  /\ written (ser (snd (_ask ":OUT1;" zup6)))
     = (written (ser zup6) ++ sends (Threads.ask_prog (driver_of 1 true 1) ":OUT1;"))%list
  /\ pending (ser (snd (_write ":OUT1;" zup6))) = pending (ser zup6)
  /\ pending (ser (snd (_ask ":OUT1;" zup6)))
     = drop (reads (Threads.ask_prog (driver_of 1 true 1) ":OUT1;")) (pending (ser zup6))
  /\ takes 1 (Threads.write_prog (driver_of 1 true 1) ":OUT1;")
     = releases 1 (Threads.write_prog (driver_of 1 true 1) ":OUT1;")
  /\ takes 1 (Threads.ask_prog (driver_of 1 true 1) ":OUT1;")
     = releases 1 (Threads.ask_prog (driver_of 1 true 1) ":OUT1;").
Proof.
  apply (thread_view_agrees zup6 1 true 1 ":OUT1;").
  split; reflexivity.
Defined.
